(** * Heart-disease MLOps pipeline: preprocessing and model loading

    A shallow embedding of [src/data/preprocessing.py] and
    [src/models/load_model.py], of the saving step of [src/models/train.py]
    and of the endpoints of [src/api/app.py], and the properties of the
    cleaning step, the preprocessor, the model loader and the service.

    Conventions of the embedding.
    - Python floats and ints are rationals ([Q]); the float NaN is a separate
      null marker.  Rounding, infinities and NaN arithmetic are outside the
      model.
    - A raised exception is a value [Raise e]; code that mutates an object
      runs in a state-and-exception monad whose state survives a raise, as a
      Python object does.
    - The numeric kernels of the statistics library (median, mean, standard
      deviation) and the float grammar of [pd.to_numeric] are parameters. *)

From Stdlib Require Import QArith String Ascii List Lia Lqa.
From stdpp Require Import base gmap strings list pretty.
Import ListNotations.
Open Scope string_scope.

(** ** Python runtime *)

Module Py.

Inductive exn :=
| ValueError (msg : string)
| FileNotFoundError (msg : string)
| TypeError
| KeyError (key : string)
| AttributeError
| IndexError
| NotFittedError
| UnpicklingError
| JSONDecodeError.

Inductive result (A : Type) :=
| Ok (a : A)
| Raise (e : exn).
Arguments Ok {A} a.
Arguments Raise {A} e.

#[export] Instance result_ret : MRet result := fun A a => Ok a.
#[export] Instance result_bind : MBind result :=
  fun A B f r => match r with Ok a => f a | Raise e => Raise e end.

(** Computations over a mutable state [S]: the state reached when an exception
    is raised is kept. *)
Record M (S A : Type) := mkM { run : S -> result A * S }.
Arguments mkM {S A} _.
Arguments run {S A} _ _.

#[export] Instance M_ret S : MRet (M S) := fun A a => mkM (fun s => (Ok a, s)).
#[export] Instance M_bind S : MBind (M S) :=
  fun A B f c => mkM (fun s => match run c s with
                               | (Ok a, s') => run (f a) s'
                               | (Raise e, s') => (Raise e, s')
                               end).

Definition raise {S A} (e : exn) : M S A := mkM (fun s => (Raise e, s)).
Definition get {S} : M S S := mkM (fun s => (Ok s, s)).
Definition modify {S} (f : S -> S) : M S unit := mkM (fun s => (Ok tt, f s)).
Definition lift {S A} (r : result A) : M S A := mkM (fun s => (r, s)).

(** [for x in l: body(x)] *)
Fixpoint for_each {S A} (l : list A) (body : A -> M S unit) : M S unit :=
  match l with
  | [] => mret tt
  | x :: l' => body x;; for_each l' body
  end.

(** *** Strings *)

(** [sub in s] *)
Fixpoint contains (sub s : string) : bool :=
  String.prefix sub s ||
  match s with
  | EmptyString => false
  | String _ s' => contains sub s'
  end.

Fixpoint str_map (f : ascii -> ascii) (s : string) : string :=
  match s with
  | EmptyString => EmptyString
  | String c s' => String (f c) (str_map f s')
  end.

Definition lower_ascii (c : ascii) : ascii :=
  let n := nat_of_ascii c in
  if (65 <=? n)%nat && (n <=? 90)%nat then ascii_of_nat (n + 32) else c.

(** [s.lower()], on ASCII text. *)
Definition lower : string -> string := str_map lower_ascii.

(** Text of ASCII characters only. *)
Fixpoint is_ascii (s : string) : bool :=
  match s with
  | EmptyString => true
  | String c s' => (nat_of_ascii c <? 128)%nat && is_ascii s'
  end.

(** [s.replace(a, b)] for one-character [a] and [b]. *)
Definition replace (a b : ascii) : string -> string :=
  str_map (fun c => if Ascii.eqb c a then b else c).

(** [s.split(sep)] for a one-character separator: never empty. *)
Fixpoint split (sep : ascii) (s : string) : list string :=
  match s with
  | EmptyString => [EmptyString]
  | String c s' =>
      if Ascii.eqb c sep then EmptyString :: split sep s'
      else match split sep s' with
           | [] => [String c EmptyString]
           | w :: ws => String c w :: ws
           end
  end.

(** [s.rfind(c)] *)
Fixpoint rfind (c : ascii) (s : string) : option nat :=
  match s with
  | EmptyString => None
  | String a s' =>
      match rfind c s' with
      | Some k => Some (S k)
      | None => if Ascii.eqb a c then Some 0%nat else None
      end
  end.

(** [a < b] *)
Definition Qlt_bool (a b : Q) : bool := negb (Qle_bool b a).

(** [max(l, key=key)]: the first element with the greatest key. *)
Fixpoint max_from {A} (key : A -> Q) (best : A) (l : list A) : A :=
  match l with
  | [] => best
  | x :: l' => max_from key (if Qlt_bool (key best) (key x) then x else best) l'
  end.

Definition max_by {A} (key : A -> Q) (l : list A) : result A :=
  match l with
  | [] => Raise (ValueError "max() arg is an empty sequence")
  | x :: l' => Ok (max_from key x l')
  end.

(** [l[i]] for [0 <= i] *)
Definition getitem {A} (l : list A) (i : nat) : result A :=
  match nth_error l i with
  | Some x => Ok x
  | None => Raise IndexError
  end.

(** [l[-1]] *)
Definition getitem_last {A} (l : list A) : result A :=
  match last l with
  | Some x => Ok x
  | None => Raise IndexError
  end.

End Py.
Import Py.

(** ** Tables (the part of pandas the pipeline uses) *)

Module Pandas.

(** A cell holds a number, a text token or the null marker [np.nan]. *)
Inductive cell :=
| Num (q : Q)
| Str (s : string)
| NaN.

Definition Series := list cell.

(** A table: the number of rows of its index, and its labelled columns in
    order.  Labels are distinct, as [pd.read_csv] and the [DataFrame]
    constructor from a dict produce them. *)
Record DataFrame := mkDF {
  index : nat;
  columns : list (string * Series)
}.

Definition labels (df : DataFrame) : list string := map fst (columns df).

(** [df.shape] *)
Definition shape (df : DataFrame) : nat * nat := (index df, length (columns df)).

(** [name in idx] *)
Definition has_label (name : string) (idx : list string) : bool :=
  existsb (String.eqb name) idx.

(** [idx.is_unique] *)
Fixpoint is_unique (idx : list string) : bool :=
  match idx with
  | [] => true
  | n :: idx' => negb (has_label n idx') && is_unique idx'
  end.

Fixpoint assoc (name : string) (cols : list (string * Series)) : option Series :=
  match cols with
  | [] => None
  | (n, s) :: cols' => if String.eqb n name then Some s else assoc name cols'
  end.

(** [df[name]] *)
Definition df_get (name : string) (df : DataFrame) : result Series :=
  match assoc name (columns df) with
  | Some s => Ok s
  | None => Raise (KeyError name)
  end.

(** [df[name] = s]: overwrites the column, or appends a new one. *)
Definition df_set (name : string) (s : Series) (df : DataFrame) : DataFrame :=
  mkDF (index df)
    (if has_label name (labels df)
     then map (fun c => if String.eqb (fst c) name then (fst c, s) else c) (columns df)
     else columns df ++ [(name, s)]).

(** [df.drop(name, axis=1)] *)
Definition df_drop (name : string) (df : DataFrame) : result DataFrame :=
  if has_label name (labels df)
  then Ok (mkDF (index df)
             (List.filter (fun c => negb (String.eqb (fst c) name)) (columns df)))
  else Raise (KeyError name).

(** [idx.drop(name)] on a column index. *)
Definition index_drop (name : string) (idx : list string) : list string :=
  List.filter (fun n => negb (String.eqb n name)) idx.

(** [c > 0] for one cell: a text token cannot be ordered against a number. *)
Definition cell_gt_zero (c : cell) : result bool :=
  match c with
  | Num q => Ok (Qlt_bool 0 q)
  | NaN => Ok false
  | Str _ => Raise TypeError
  end.

(** [s > 0] *)
Fixpoint series_gt_zero (s : Series) : result (list bool) :=
  match s with
  | [] => Ok []
  | c :: s' =>
      b ← cell_gt_zero c;
      bs ← series_gt_zero s';
      mret (b :: bs)
  end.

(** [mask.astype(int)] *)
Definition astype_int (mask : list bool) : Series :=
  map (fun b : bool => if b then Num 1 else Num 0) mask.

(** [replace([-9.0, -9, '?'], np.nan)] on one cell. *)
Definition replace_cell (c : cell) : cell :=
  match c with
  | Num q => if Qeq_bool q (-9) then NaN else c
  | Str s => if String.eqb s "?" then NaN else c
  | NaN => NaN
  end.

(** [df.replace([-9.0, -9, '?'], np.nan)] *)
Definition df_replace (df : DataFrame) : DataFrame :=
  mkDF (index df) (map (fun c => (fst c, map replace_cell (snd c))) (columns df)).

Section ToNumeric.

(** The float grammar of [pd.to_numeric]: the number a text token denotes, if
    it denotes one. *)
Variable parse_float : string -> option Q.

Definition to_numeric_cell (c : cell) : cell :=
  match c with
  | Num q => Num q
  | NaN => NaN
  | Str s => match parse_float s with
             | Some q => Num q
             | None => NaN
             end
  end.

(** [pd.to_numeric(s, errors='coerce')] *)
Definition to_numeric (s : Series) : Series := map to_numeric_cell s.

End ToNumeric.

(** *** Tables as objects

    A [DataFrame] variable holds a reference; methods either allocate a new
    table ([copy], [drop], [replace]) or update the one referred to
    ([df[name] = s]). *)

Definition loc := nat.
Abbreviation heap := (gmap loc DataFrame).

Definition alloc (df : DataFrame) : M heap loc :=
  mkM (fun h => let l := fresh (dom h) in (Ok l, <[l := df]> h)).

(** Reading through a reference that holds no table fails as an attribute
    access on a value that is not a table does. *)
Definition deref (l : loc) : M heap DataFrame :=
  mkM (fun h => match h !! l with
                | Some df => (Ok df, h)
                | None => (Raise AttributeError, h)
                end).

Definition assign (l : loc) (df : DataFrame) : M heap unit :=
  modify (fun h => <[l := df]> h).

Definition copy (l : loc) : M heap loc :=
  df ← deref l; alloc df.

Definition drop (l : loc) (name : string) : M heap loc :=
  df ← deref l; df' ← lift (df_drop name df); alloc df'.

Definition get_columns (l : loc) : M heap (list string) :=
  df ← deref l; mret (labels df).

Definition getitem_col (l : loc) (name : string) : M heap Series :=
  df ← deref l; lift (df_get name df).

Definition setitem_col (l : loc) (name : string) (s : Series) : M heap unit :=
  df ← deref l; assign l (df_set name s df).

Definition replace_sentinels (l : loc) : M heap loc :=
  df ← deref l; alloc (df_replace df).

End Pandas.
Import Pandas.

(** ** Estimators (the part of scikit-learn the pipeline uses) *)

Module Sklearn.

(** A dense numeric array of shape [(m_rows, length m_cols)], stored by
    column. *)
Record Matrix := mkMat {
  m_rows : nat;
  m_cols : list (list Q)
}.

Definition m_shape (X : Matrix) : nat * nat := (m_rows X, length (m_cols X)).

(** [SimpleImputer(strategy='median')]: unfitted, or holding one statistic per
    fitted column; a column with no observed value has the statistic NaN
    ([None] here). *)
Record SimpleImputer := mkImputer {
  statistics_ : option (list (option Q))
}.

(** [StandardScaler()]: unfitted, or holding [mean_] and [scale_]. *)
Record StandardScaler := mkScaler {
  params_ : option (list Q * list Q)
}.

(** A fitted classifier, seen through the two methods the loader calls. *)
Record Classifier := mkClassifier {
  clf_predict : Matrix -> result (list Z);
  clf_predict_proba : Matrix -> result (list (list Q))
}.

Definition numeric_cell (c : cell) : bool :=
  match c with
  | Str _ => false
  | _ => true
  end.

Definition numeric_frame (df : DataFrame) : bool :=
  forallb (fun c => forallb numeric_cell (snd c)) (columns df).

(** Input validation shared by the estimators: numeric data, at least one
    sample and one feature.  The texts of the library's errors are
    abbreviated.  The comparison of column labels with those seen by [fit],
    which newer versions of the library add, is not modelled: the properties
    below that need a successful [transform] ask for equal labels.  Nor is
    the library's conversion of text: it accepts a column of text whose
    every token reads as a number, and refuses other text; here every text
    cell is refused, and the properties below that rest on the outcome of
    the validation ask for a table of numbers and nulls. *)
Definition check_array (df : DataFrame) : result unit :=
  if negb (numeric_frame df) then Raise (ValueError "non-numeric data")
  else if (index df =? 0)%nat then Raise (ValueError "0 sample(s)")
  else if (length (columns df) =? 0)%nat then Raise (ValueError "0 feature(s)")
  else Ok tt.

Definition check_matrix (X : Matrix) : result unit :=
  if (m_rows X =? 0)%nat then Raise (ValueError "0 sample(s)")
  else if (length (m_cols X) =? 0)%nat then Raise (ValueError "0 feature(s)")
  else Ok tt.

Definition impute_column (m : Q) (s : Series) : list Q :=
  map (fun c => match c with Num q => q | _ => m end) s.

(** Columns whose statistic is NaN are left out of the result. *)
Fixpoint impute_columns (stats : list (option Q)) (cols : list Series)
  : list (list Q) :=
  match stats, cols with
  | Some m :: stats', s :: cols' => impute_column m s :: impute_columns stats' cols'
  | None :: stats', _ :: cols' => impute_columns stats' cols'
  | _, _ => []
  end.

(** [imputer.transform(X)] *)
Definition imputer_transform (imp : SimpleImputer) (df : DataFrame)
  : result Matrix :=
  match statistics_ imp with
  | None => Raise NotFittedError
  | Some stats =>
      check_array df;;
      if (length (columns df) =? length stats)%nat
      then Ok (mkMat (index df) (impute_columns stats (map snd (columns df))))
      else Raise (ValueError "number of features differs from fit")
  end.

Definition scale_column (m s : Q) (col : list Q) : list Q :=
  map (fun x => (x - m) / s)%Q col.

Fixpoint scale_columns (means scales : list Q) (cols : list (list Q))
  : list (list Q) :=
  match means, scales, cols with
  | m :: means', s :: scales', col :: cols' =>
      scale_column m s col :: scale_columns means' scales' cols'
  | _, _, _ => []
  end.

(** [scaler.transform(X)] *)
Definition scaler_transform (sc : StandardScaler) (X : Matrix) : result Matrix :=
  match params_ sc with
  | None => Raise NotFittedError
  | Some (means, scales) =>
      check_matrix X;;
      if (length (m_cols X) =? length means)%nat
      then Ok (mkMat (m_rows X) (scale_columns means scales (m_cols X)))
      else Raise (ValueError "number of features differs from fit")
  end.

Section Fit.

(** The statistics kernels: the median and the mean of a non-empty sample, and
    the scale (standard deviation, with zero replaced by one). *)
Variables median mean scale : list Q -> Q.

Definition observed (s : Series) : list Q :=
  omap (fun c => match c with Num q => Some q | _ => None end) s.

Definition column_statistic (s : Series) : option Q :=
  match observed s with
  | [] => None
  | qs => Some (median qs)
  end.

(** [imputer.fit_transform(X)]: the fitted imputer and the imputed data. *)
Definition imputer_fit_transform (df : DataFrame)
  : result (SimpleImputer * Matrix) :=
  check_array df;;
  let imp := mkImputer (Some (map column_statistic (map snd (columns df)))) in
  X ← imputer_transform imp df;
  mret (imp, X).

(** [scaler.fit(X)] *)
Definition scaler_fit (X : Matrix) : result StandardScaler :=
  check_matrix X;;
  mret (mkScaler (Some (map mean (m_cols X), map scale (m_cols X)))).

End Fit.

End Sklearn.
Import Sklearn.

(** ** Python objects, pickles and the file system *)

Module Store.

(** The objects that reach the loader: JSON-like data and the pickled
    estimators. *)
#[local] Unset Elimination Schemes.
Inductive pyval :=
| VNone
| VBool (b : bool)
| VNum (q : Q)
| VStr (s : string)
| VList (l : list pyval)
| VDict (d : list (string * pyval))
| VImputer (i : SimpleImputer)
| VScaler (s : StandardScaler)
| VClassifier (c : Classifier).
#[local] Set Elimination Schemes.

Fixpoint dict_lookup (key : string) (d : list (string * pyval)) : option pyval :=
  match d with
  | [] => None
  | (k, v) :: d' => if String.eqb k key then Some v else dict_lookup key d'
  end.

(** [v[key]] for a text key. *)
Definition py_getitem (v : pyval) (key : string) : result pyval :=
  match v with
  | VDict d => match dict_lookup key d with
               | Some x => Ok x
               | None => Raise (KeyError key)
               end
  | _ => Raise TypeError
  end.

(** [v.get(key, default)]: only a dict has the method. *)
Definition py_get (v : pyval) (key : string) (default : pyval) : result pyval :=
  match v with
  | VDict d => match dict_lookup key d with
               | Some x => Ok x
               | None => Ok default
               end
  | _ => Raise AttributeError
  end.

Fixpoint chars (s : string) : list pyval :=
  match s with
  | EmptyString => []
  | String c s' => VStr (String c EmptyString) :: chars s'
  end.

(** [for x in v]: the keys of a dict, the items of a list, the characters of
    a text; nothing else is iterable. *)
Definition py_iter (v : pyval) : result (list pyval) :=
  match v with
  | VDict d => Ok (map (fun kv => VStr (fst kv)) d)
  | VList l => Ok l
  | VStr s => Ok (chars s)
  | _ => Raise TypeError
  end.

(** What a file holds: a pickle of an object, the text of a JSON document
    (given by the value it parses to), or bytes that are neither. *)
Inductive content :=
| Pickle (v : pyval)
| Json (v : pyval)
| Garbage.

Definition pickle_load (c : content) : result pyval :=
  match c with
  | Pickle v => Ok v
  | _ => Raise UnpicklingError
  end.

Definition json_load (c : content) : result pyval :=
  match c with
  | Json v => Ok v
  | _ => Raise JSONDecodeError
  end.

(** A directory entry. *)
Record file := mkFile {
  fname : string;
  st_mtime : Q;
  fcontent : content
}.

(** The file system: the entries of each directory, in the order the
    directory is scanned. *)
Definition FileSystem := string -> list file.

Record Path := mkPath {
  parent : string;
  name : string
}.

(** [str(path)] *)
Definition path_str (p : Path) : string := parent p +:+ "/" +:+ name p.

(** [dir / entry.name] *)
Definition entry_path (dir : string) (f : file) : Path := mkPath dir (fname f).

Definition lookup_file (fs : FileSystem) (p : Path) : option file :=
  List.find (fun f => String.eqb (fname f) (name p)) (fs (parent p)).

(** [path.exists()] *)
Definition path_exists (fs : FileSystem) (p : Path) : bool :=
  match lookup_file fs p with
  | Some _ => true
  | None => false
  end.

(** [open(path, 'rb')] followed by reading the whole file. *)
Definition open_read (fs : FileSystem) (p : Path) : result content :=
  match lookup_file fs p with
  | Some f => Ok (fcontent f)
  | None => Raise (FileNotFoundError (path_str p))
  end.

Fixpoint upsert (n : string) (now : Q) (c : content) (entries : list file)
  : list file :=
  match entries with
  | [] => [mkFile n now c]
  | f :: entries' =>
      if String.eqb (fname f) n then mkFile n now c :: entries'
      else f :: upsert n now c entries'
  end.

(** [open(path, 'wb')] followed by writing [c], at time [now]. *)
Definition write_file (p : Path) (now : Q) (c : content) (fs : FileSystem)
  : FileSystem :=
  fun dir => if String.eqb dir (parent p)
             then upsert (name p) now c (fs dir)
             else fs dir.

(** *** Paths and patterns *)

(** [path.stem]: the name without its last suffix; a leading or a trailing
    dot starts no suffix. *)
Definition stem_of (n : string) : string :=
  match rfind "." n with
  | Some i =>
      if (0 <? i)%nat && (i <? String.length n - 1)%nat
      then substring 0 i n
      else n
  | None => n
  end.

Definition stem (p : Path) : string := stem_of (name p).

(** Shell patterns, as [glob] reads them: [*], [?], a bracketed class
    (optionally negated by [!], with ranges), and literal characters. *)
Inductive class_item :=
| Single (c : ascii)
| Range (lo hi : ascii).

Inductive token :=
| TStar
| TAny
| TClass (negated : bool) (items : list class_item)
| TLit (c : ascii).

Fixpoint class_items (body : list ascii) : list class_item :=
  match body with
  | [] => []
  | lo :: body' =>
      match body' with
      | "-"%char :: hi :: body'' => Range lo hi :: class_items body''
      | _ => Single lo :: class_items body'
      end
  end.

(** The text up to the first ["]"], and the text after it. *)
Fixpoint until_close (s : string) : option (list ascii * string) :=
  match s with
  | EmptyString => None
  | String c s' =>
      if Ascii.eqb c "]" then Some ([], s')
      else match until_close s' with
           | Some (body, rest) => Some (c :: body, rest)
           | None => None
           end
  end.

(** The class that follows an opening bracket, and the rest of the pattern;
    [None] when the bracket is never closed.  A ["]"] met first belongs to
    the class. *)
Definition parse_class (s : string) : option (token * string) :=
  let '(neg, s1) := match s with
                    | String "!" s' => (true, s')
                    | _ => (false, s)
                    end in
  let '(first, s2) := match s1 with
                      | String "]" s' => (["]"%char], s')
                      | _ => ([], s1)
                      end in
  match until_close s2 with
  | Some (body, rest) => Some (TClass neg (class_items (first ++ body)), rest)
  | None => None
  end.

Fixpoint parse_pattern (fuel : nat) (pat : string) : list token :=
  match fuel, pat with
  | S fuel', String c pat' =>
      if Ascii.eqb c "*" then TStar :: parse_pattern fuel' pat'
      else if Ascii.eqb c "?" then TAny :: parse_pattern fuel' pat'
      else if Ascii.eqb c "[" then
        match parse_class pat' with
        | Some (cls, rest) => cls :: parse_pattern fuel' rest
        | None => TLit c :: parse_pattern fuel' pat'
        end
      else TLit c :: parse_pattern fuel' pat'
  | _, _ => []
  end.

Definition item_matches (c : ascii) (it : class_item) : bool :=
  match it with
  | Single a => Ascii.eqb a c
  | Range lo hi =>
      (nat_of_ascii lo <=? nat_of_ascii c)%nat && (nat_of_ascii c <=? nat_of_ascii hi)%nat
  end.

Definition token_matches (t : token) (c : ascii) : bool :=
  match t with
  | TStar | TAny => true
  | TClass neg items => xorb neg (existsb (item_matches c) items)
  | TLit a => Ascii.eqb a c
  end.

Fixpoint match_tokens (ts : list token) (s : string) : bool :=
  match ts with
  | [] => match s with EmptyString => true | _ => false end
  | TStar :: ts' =>
      (fix star (s : string) : bool :=
         match_tokens ts' s ||
         match s with
         | EmptyString => false
         | String _ s' => star s'
         end) s
  | t :: ts' =>
      match s with
      | EmptyString => false
      | String c s' => token_matches t c && match_tokens ts' s'
      end
  end.

(** Whether a file name matches a one-component pattern (case-sensitive). *)
Definition fnmatch (pat n : string) : bool :=
  match_tokens (parse_pattern (String.length pat) pat) n.

(** Whether a text holds no occurrence of a character. *)
Definition no_char (c : ascii) (s : string) : bool :=
  match rfind c s with
  | None => true
  | Some _ => false
  end.

(** A pattern of one path component: it holds no path separator and no
    doubled star. *)
Definition one_component (pat : string) : bool :=
  no_char "/" pat && negb (contains "**" pat).

(** [list(dir.glob(pattern))] for a pattern of one component: the matching
    entries of the directory, in scan order.  Other patterns are outside the
    model: the library matches a pattern with path separators component by
    component, below the directory, and refuses a doubled star inside a
    component.  The properties below on the outcome of the search for a
    model kind ask for [one_component]. *)
Definition glob (fs : FileSystem) (dir pat : string) : list file :=
  List.filter (fun f => fnmatch pat (fname f)) (fs dir).

End Store.
Import Store.

(** ** [src/data/preprocessing.py] *)

Module Preprocessing.

(** The attributes of a [HeartDiseasePreprocessor].  They are typed here: a
    pickled mapping whose entries are objects of other classes has no
    counterpart, and [load] reads it as a [TypeError]. *)
Record HeartDiseasePreprocessor := mkPreprocessor {
  scaler : StandardScaler;
  imputer : SimpleImputer;
  is_fitted : bool
}.

(** [__init__] *)
Definition init : HeartDiseasePreprocessor :=
  mkPreprocessor (mkScaler None) (mkImputer None) false.

Definition set_imputer (i : SimpleImputer) (self : HeartDiseasePreprocessor) :=
  mkPreprocessor (scaler self) i (is_fitted self).
Definition set_scaler (s : StandardScaler) (self : HeartDiseasePreprocessor) :=
  mkPreprocessor s (imputer self) (is_fitted self).
Definition set_is_fitted (b : bool) (self : HeartDiseasePreprocessor) :=
  mkPreprocessor (scaler self) (imputer self) b.

Definition not_fitted_error : exn :=
  ValueError "Preprocessor must be fitted before transform!".

(** [transform] *)
Definition transform (self : HeartDiseasePreprocessor) (X : DataFrame)
  : result Matrix :=
  if negb (is_fitted self) then Raise not_fitted_error
  else
    X_imputed ← imputer_transform (imputer self) X;
    X_scaled ← scaler_transform (scaler self) X_imputed;
    mret X_scaled.

Section Fit.

Variables median mean scale : list Q -> Q.

(** [fit] *)
Definition fit (X : DataFrame) : M HeartDiseasePreprocessor unit :=
  fitted ← lift (imputer_fit_transform median X);
  modify (set_imputer (fst fitted));;
  sc ← lift (scaler_fit mean scale (snd fitted));
  modify (set_scaler sc);;
  modify (set_is_fitted true).

(** [fit_transform] *)
Definition fit_transform (X : DataFrame) : M HeartDiseasePreprocessor Matrix :=
  fit X;;
  self ← get;
  lift (transform self X).

End Fit.

(** The mapping that [save] pickles. *)
Definition saved_state (self : HeartDiseasePreprocessor) : pyval :=
  VDict [("scaler", VScaler (scaler self));
         ("imputer", VImputer (imputer self));
         ("is_fitted", VBool (is_fitted self))].

(** [save], at time [now]. *)
Definition save (self : HeartDiseasePreprocessor) (filepath : Path) (now : Q)
  : M FileSystem unit :=
  modify (write_file filepath now (Pickle (saved_state self))).

(** [load] *)
Definition load (fs : FileSystem) (filepath : Path)
  : result HeartDiseasePreprocessor :=
  c ← open_read fs filepath;
  data ← pickle_load c;
  s ← py_getitem data "scaler";
  i ← py_getitem data "imputer";
  b ← py_getitem data "is_fitted";
  match s, i, b with
  | VScaler s, VImputer i, VBool b => Ok (mkPreprocessor s i b)
  | _, _, _ => Raise TypeError
  end.

(** [clean_data], by the blocks of its body. *)

(** Remove the source column if present. *)
Definition drop_source (df_clean : loc) : M heap loc :=
  cols ← get_columns df_clean;
  if has_label "source" cols
  then drop df_clean "source"
  else mret df_clean.

(** Convert the target to binary, in place. *)
Definition binarize_target (df_clean : loc) : M heap unit :=
  cols ← get_columns df_clean;
  if has_label "target" cols
  then
    target ← getitem_col df_clean "target";
    mask ← lift (series_gt_zero target);
    setitem_col df_clean "target" (astype_int mask)
  else mret tt.

Section Clean.

Variable parse_float : string -> option Q.

(** Make every column but the target numeric, in place. *)
Definition coerce_numeric (df_clean : loc) : M heap unit :=
  cols ← get_columns df_clean;
  let numeric_cols :=
    if has_label "target" cols then index_drop "target" cols else cols in
  for_each numeric_cols
    (fun col =>
       s ← getitem_col df_clean col;
       setitem_col df_clean col (to_numeric parse_float s)).

Definition clean_data (df : loc) : M heap loc :=
  df_clean ← copy df;
  df_clean ← drop_source df_clean;
  binarize_target df_clean;;
  df_clean ← replace_sentinels df_clean;
  coerce_numeric df_clean;;
  mret df_clean.

End Clean.

(** [prepare_features_target] *)
Definition prepare_features_target (df : DataFrame) : result (DataFrame * Series) :=
  if negb (has_label "target" (labels df))
  then Raise (ValueError "Target column 'target' not found in dataframe")
  else
    X ← df_drop "target" df;
    y ← df_get "target" df;
    mret (X, y).

(** [get_feature_names] *)
Definition get_feature_names : list string :=
  ["age"; "sex"; "cp"; "trestbps"; "chol"; "fbs"; "restecg";
   "thalach"; "exang"; "oldpeak"; "slope"; "ca"; "thal"].

End Preprocessing.
Import Preprocessing.

(** ** [src/models/load_model.py] *)

Module LoadModel.

(** [MODELS_DIR], relative to the project root. *)
Definition MODELS_DIR : string := "models".

(** The attributes of a [ModelLoader]; [VNone] is Python's [None]. *)
Record ModelLoader := mkLoader {
  model_dir : string;
  model_name : string;
  model : pyval;
  preprocessor : option HeartDiseasePreprocessor;
  model_info : pyval
}.

(** The normal form of a model kind: lower case, spaces as underscores. *)
Definition normalize (s : string) : string := replace " " "_" (lower s).

(** [__init__] *)
Definition init (model_name : string) (model_dir : option string) : ModelLoader :=
  mkLoader (match model_dir with Some d => d | None => MODELS_DIR end)
           (normalize model_name) VNone None VNone.

Definition set_model (m : pyval) (self : ModelLoader) : ModelLoader :=
  mkLoader (model_dir self) (model_name self) m (preprocessor self) (model_info self).
Definition set_preprocessor (p : HeartDiseasePreprocessor) (self : ModelLoader)
  : ModelLoader :=
  mkLoader (model_dir self) (model_name self) (model self) (Some p) (model_info self).
Definition set_model_info (i : pyval) (self : ModelLoader) : ModelLoader :=
  mkLoader (model_dir self) (model_name self) (model self) (preprocessor self) i.

Definition is_empty {A} (l : list A) : bool :=
  match l with
  | [] => true
  | _ => false
  end.

(** The preprocessor file paired with a model: the first one whose stem
    contains the model's timestamp token, else the most recently modified. *)
Definition matching_preprocessor (model_timestamp : string)
    (preprocessor_files : list file) : result file :=
  match List.find (fun pp_file => contains model_timestamp (stem_of (fname pp_file)))
                  preprocessor_files with
  | Some pp_file => Ok pp_file
  | None => max_by st_mtime preprocessor_files
  end.

(** The loop over the keys of the summary's models: the entry of the first
    key whose normal form contains the model name. *)
Fixpoint find_model_info (model_name : string) (summary : pyval)
    (keys : list pyval) : result (option pyval) :=
  match keys with
  | [] => Ok None
  | model_key :: keys' =>
      match model_key with
      | VStr k =>
          if contains model_name (normalize k)
          then
            models ← py_getitem summary "models";
            info ← py_getitem models k;
            mret (Some info)
          else find_model_info model_name summary keys'
      | _ => Raise AttributeError
      end
  end.

(** The last part of [load_model]: the metrics of the newest summary. *)
Definition load_model_info (fs : FileSystem) : M ModelLoader unit :=
  self ← get;
  let summary_files := glob fs (model_dir self) "training_summary_*.json" in
  if is_empty summary_files then mret tt
  else
    latest_summary ← lift (max_by st_mtime summary_files);
    c ← lift (open_read fs (entry_path (model_dir self) latest_summary));
    summary ← lift (json_load c);
    models ← lift (py_get summary "models" (VDict []));
    keys ← lift (py_iter models);
    info ← lift (find_model_info (model_name self) summary keys);
    match info with
    | Some i => modify (set_model_info i)
    | None => mret tt
    end.

(** [load_model(model_path)] for a given path. *)
Definition load_model_from (fs : FileSystem) (model_path : Path)
  : M ModelLoader unit :=
  if negb (path_exists fs model_path)
  then raise (FileNotFoundError ("Model file not found: " +:+ path_str model_path))
  else
    c ← lift (open_read fs model_path);
    m ← lift (pickle_load c);
    modify (set_model m);;
    self ← get;
    let preprocessor_files := glob fs (model_dir self) "preprocessor_*.pkl" in
    if is_empty preprocessor_files
    then raise (FileNotFoundError ("No preprocessor found in " +:+ model_dir self))
    else
      model_timestamp ← lift (getitem_last (split "_" (stem model_path)));
      pp_file ← lift (matching_preprocessor model_timestamp preprocessor_files);
      p ← lift (load fs (entry_path (model_dir self) pp_file));
      modify (set_preprocessor p);;
      load_model_info fs.

(** [load_latest_model] *)
Definition load_latest_model (fs : FileSystem) : M ModelLoader unit :=
  self ← get;
  let pattern := model_name self +:+ "_*.pkl" in
  let model_files := glob fs (model_dir self) pattern in
  if is_empty model_files
  then raise (FileNotFoundError
                ("No " +:+ model_name self +:+ " model found in " +:+ model_dir self))
  else
    latest_model ← lift (max_by st_mtime model_files);
    load_model_from fs (entry_path (model_dir self) latest_model).

(** [load_model] *)
Definition load_model (fs : FileSystem) (model_path : option Path)
  : M ModelLoader unit :=
  match model_path with
  | None => load_latest_model fs
  | Some p => load_model_from fs p
  end.

(** An [np.ndarray] of two dimensions, by column. *)
Record ndarray := mkArray {
  a_rows : nat;
  a_cols : list Series
}.

(** What [predict] accepts: a table, an array, or one record as a dict. *)
Inductive features :=
| XFrame (df : DataFrame)
| XArray (a : ndarray)
| XDict (d : list (string * cell)).

(** [pd.DataFrame(a, columns=names)] *)
Definition frame_of_array (a : ndarray) (names : list string) : DataFrame :=
  mkDF (a_rows a) (zip names (a_cols a)).

(** The default column labels [0 .. n-1]. *)
Definition range_labels (n : nat) : list string := map pretty (seq 0 n).

Definition as_frame (X : features) : DataFrame :=
  match X with
  | XFrame df => df
  | XArray a =>
      let feature_names := get_feature_names in
      if (length (a_cols a) =? length feature_names)%nat
      then frame_of_array a feature_names
      else frame_of_array a (range_labels (length (a_cols a)))
  | XDict d => mkDF 1 (map (fun kv => (fst kv, [snd kv])) d)
  end.

Definition unbound_error : exn :=
  ValueError "Model and preprocessor must be loaded first!".

(** What [predict] returns: probabilities per class, or labels. *)
Definition predict_out (return_proba : bool) : Type :=
  if return_proba then list (list Q) else list Z.

(** [predict] *)
Definition predict (self : ModelLoader) (X : features) (return_proba : bool)
  : result (predict_out return_proba) :=
  match model self, preprocessor self with
  | VNone, _ | _, None => Raise unbound_error
  | m, Some p =>
      X_scaled ← transform p (as_frame X);
      match return_proba return result (predict_out return_proba) with
      | true => match m with
                | VClassifier c => clf_predict_proba c X_scaled
                | _ => Raise AttributeError
                end
      | false => match m with
                 | VClassifier c => clf_predict c X_scaled
                 | _ => Raise AttributeError
                 end
      end
  end.

Record Prediction := mkPrediction {
  prediction : Z;
  prediction_label : string;
  probability : Q;
  confidence : Q
}.

(** The one-row table that [predict_single] builds from its keyword
    arguments. *)
Definition sample_of (kwargs : gmap string cell) : DataFrame :=
  mkDF 1 (map (fun name => (name, [default NaN (kwargs !! name)]))
              get_feature_names).

(** [predict_single] *)
Definition predict_single (self : ModelLoader) (kwargs : gmap string cell)
  : result Prediction :=
  let sample := sample_of kwargs in
  labels ← predict self (XFrame sample) false;
  prediction ← getitem labels 0;
  probas ← predict self (XFrame sample) true;
  probabilities ← getitem probas 0;
  p1 ← getitem probabilities 1;
  pmax ← max_by (fun p => p) probabilities;
  mret (mkPrediction prediction
          (if (prediction =? 1)%Z then "Disease Present" else "No Disease")
          p1 pmax).

(** [load_best_model] *)
Definition load_best_model (fs : FileSystem) (model_dir : option string)
  : result unit * ModelLoader :=
  run (load_latest_model fs) (init "random_forest" model_dir).

End LoadModel.
Import LoadModel.

(** ** [src/models/train.py]: saving the trained models *)

Module Train.

(** The names under which [train_models] files its two classifiers, in the
    order of its dict. *)
Definition model_names : list string := ["Logistic Regression"; "Random Forest"].

(** One value of the results of [train_models]: the fitted model and its
    scores on the test set. *)
Record TrainResult := mkTrainResult {
  model : pyval;
  accuracy : Q;
  precision : Q;
  recall : Q;
  roc_auc : Q;
  cv_mean : Q;
  cv_std : Q;
  confusion_matrix : list (list Z);
  predictions : list Z;
  probabilities : list Q
}.

(** A reading of the clock, as [datetime.now()] gives it, each field in its
    range. *)
Record datetime := mkDatetime {
  year : nat;
  month : nat;
  day : nat;
  hour : nat;
  minute : nat;
  second : nat
}.

Definition digit (n : nat) : ascii := ascii_of_nat (48 + n mod 10).

(** The two digits of [%m], [%d], [%H], [%M] and [%S]. *)
Definition two_digits (n : nat) : string :=
  String (digit (n / 10)) (String (digit n) EmptyString).

(** The four digits of [%Y]. *)
Definition four_digits (n : nat) : string := two_digits (n / 100) +:+ two_digits n.

(** The date and the time of day of a reading. *)
Definition date_token (now : datetime) : string :=
  four_digits (year now) +:+ two_digits (month now) +:+ two_digits (day now).

Definition time_token (now : datetime) : string :=
  two_digits (hour now) +:+ two_digits (minute now) +:+ two_digits (second now).

(** [now.strftime("%Y%m%d_%H%M%S")] *)
Definition strftime (now : datetime) : string :=
  date_token now +:+ "_" +:+ time_token now.

(** [MODELS_DIR / f"{name.lower().replace(' ', '_')}_{timestamp}.pkl"], for
    a name without path separator: with one, the path operator places the
    file below the models directory, which is outside the model. *)
Definition model_filename (name timestamp : string) : Path :=
  mkPath MODELS_DIR (replace " " "_" (lower name) +:+ "_" +:+ timestamp +:+ ".pkl").

Definition preprocessor_filename (timestamp : string) : Path :=
  mkPath MODELS_DIR ("preprocessor_" +:+ timestamp +:+ ".pkl").

Definition summary_filename (timestamp : string) : Path :=
  mkPath MODELS_DIR ("training_summary_" +:+ timestamp +:+ ".json").

(** The loop that pickles each model; [clock k] is the time of the [k]-th
    write of the call. *)
Fixpoint save_each (timestamp : string) (clock : nat -> Q) (k : nat)
    (results : list (string * TrainResult)) : M FileSystem unit :=
  match results with
  | [] => mret tt
  | (name, result) :: results' =>
      modify (write_file (model_filename name timestamp) (clock k)
                (Pickle (model result)));;
      save_each timestamp clock (S k) results'
  end.

(** The scores of one model, as the summary lists them. *)
Definition summary_entry (result : TrainResult) : pyval :=
  VDict [("accuracy", VNum (accuracy result));
         ("precision", VNum (precision result));
         ("recall", VNum (recall result));
         ("roc_auc", VNum (roc_auc result));
         ("cv_mean", VNum (cv_mean result));
         ("cv_std", VNum (cv_std result));
         ("confusion_matrix",
          VList (map (fun row => VList (map (fun n => VNum (inject_Z n)) row))
                     (confusion_matrix result)))].

(** [save_models]: [results] are the items of the results dict, whose names
    are distinct; [now] is the reading of the clock the timestamp is made
    from.  The summary is written as JSON text, which reads back as the same
    value. *)
Definition save_models (results : list (string * TrainResult))
    (preprocessor : HeartDiseasePreprocessor) (now : datetime) (clock : nat -> Q)
  : M FileSystem pyval :=
  let timestamp := strftime now in
  save_each timestamp clock 0 results;;
  save preprocessor (preprocessor_filename timestamp) (clock (length results));;
  let summary :=
    VDict [("timestamp", VStr timestamp);
           ("models",
            VDict (map (fun item => (fst item, summary_entry (snd item))) results))] in
  modify (write_file (summary_filename timestamp) (clock (S (length results)))
            (Json summary));;
  mret summary.

End Train.

(** ** [src/api/app.py]: the prediction service *)

Module Api.

(** The body of a prediction request, after the framework has validated it
    against the schema: every field is present and is a number. *)
Record HeartDiseaseInput := mkInput {
  age : Q;
  sex : Z;
  cp : Z;
  trestbps : Q;
  chol : Q;
  fbs : Z;
  restecg : Z;
  thalach : Q;
  exang : Z;
  oldpeak : Q;
  slope : Z;
  ca : Z;
  thal : Z
}.

(** [input_data.dict()] *)
Definition dict (input_data : HeartDiseaseInput) : gmap string cell :=
  list_to_map
    [("age", Num (age input_data));
     ("sex", Num (inject_Z (sex input_data)));
     ("cp", Num (inject_Z (cp input_data)));
     ("trestbps", Num (trestbps input_data));
     ("chol", Num (chol input_data));
     ("fbs", Num (inject_Z (fbs input_data)));
     ("restecg", Num (inject_Z (restecg input_data)));
     ("thalach", Num (thalach input_data));
     ("exang", Num (inject_Z (exang input_data)));
     ("oldpeak", Num (oldpeak input_data));
     ("slope", Num (inject_Z (slope input_data)));
     ("ca", Num (inject_Z (ca input_data)));
     ("thal", Num (inject_Z (thal input_data)))].

(** The constructor of [PredictionResponse], applied to the fields of a
    result: the response schema bounds the probability and the confidence by
    [0] and [1]; [None] stands for the schema's validation error. *)
Definition PredictionResponse (result : Prediction) : option Prediction :=
  if Qle_bool 0 (probability result) && Qle_bool (probability result) 1 &&
     Qle_bool 0 (confidence result) && Qle_bool (confidence result) 1
  then Some result
  else None.

Record HealthResponse := mkHealth {
  status : string;
  model_loaded : bool;
  message : string
}.

Record BatchResponse := mkBatch {
  predictions : list Prediction;
  count : nat
}.

(** What a handler catches with [except Exception]: an exception of the
    loader, or the validation error of the response schema. *)
Inductive caught :=
| Raised (e : exn)
| ValidationError.

(** The detail of an error response: a fixed text, or a prefix followed by
    the text of the exception that was caught. *)
Inductive detail :=
| Text (s : string)
| Failure (prefix : string) (e : caught).

(** What an endpoint answers: a body, with status 200, or an
    [HTTPException]. *)
Inductive response (A : Type) :=
| Success (body : A)
| HTTPException (status_code : nat) (detail : detail).
Arguments Success {A} body.
Arguments HTTPException {A} status_code detail.

(** The startup handler [load_model]: the value it leaves in the global
    [model_loader]; [None] is Python's [None]. *)
Definition load_model (fs : FileSystem) : option ModelLoader :=
  match load_best_model fs None with
  | (Ok _, loader) => Some loader
  | (Raise _, _) => None
  end.

(** [GET /health] *)
Definition health_check (model_loader : option ModelLoader) : HealthResponse :=
  match model_loader with
  | None => mkHealth "unhealthy" false "Model not loaded"
  | Some _ => mkHealth "healthy" true "API is ready to serve predictions"
  end.

(** [POST /predict] *)
Definition predict (model_loader : option ModelLoader)
    (input_data : HeartDiseaseInput) : response Prediction :=
  match model_loader with
  | None => HTTPException 503 (Text "Model not loaded. Please check /health endpoint.")
  | Some loader =>
      let input_dict := dict input_data in
      match predict_single loader input_dict with
      | Ok result =>
          match PredictionResponse result with
          | Some body => Success body
          | None => HTTPException 500 (Failure "Prediction failed: " ValidationError)
          end
      | Raise e => HTTPException 500 (Failure "Prediction failed: " (Raised e))
      end
  end.

(** The loop of [predict_batch]: the results so far, or the first
    exception. *)
Fixpoint predict_each (loader : ModelLoader) (inputs : list HeartDiseaseInput)
  : result (list Prediction) :=
  match inputs with
  | [] => Ok []
  | input_data :: inputs' =>
      result ← predict_single loader (dict input_data);
      results ← predict_each loader inputs';
      mret (result :: results)
  end.

(** [POST /predict/batch] *)
Definition predict_batch (model_loader : option ModelLoader)
    (inputs : list HeartDiseaseInput) : response BatchResponse :=
  match model_loader with
  | None => HTTPException 503 (Text "Model not loaded. Please check /health endpoint.")
  | Some loader =>
      match predict_each loader inputs with
      | Ok results => Success (mkBatch results (length results))
      | Raise e => HTTPException 500 (Failure "Batch prediction failed: " (Raised e))
      end
  end.

End Api.

(** * Vocabulary of the statements *)

(** ** Tables on the heap *)

(** A computation keeps [h0]: run on any heap that extends [h0], it ends,
    with a result or an exception, on a heap that still extends [h0]; and a
    result satisfies [post]. *)
Definition keeps {A} (h0 : heap) (c : M heap A) (post : A -> Prop) : Prop :=
  forall h, h0 ⊆ h ->
  forall res h', run c h = (res, h') ->
  h0 ⊆ h' /\ (forall a, res = Ok a -> post a).

(** ** The cleaning step, cell by cell *)

(** A number greater than 0. *)
Definition is_positive (c : cell) : bool :=
  match c with
  | Num q => Qlt_bool 0 q
  | _ => false
  end.

Definition is_one (c : cell) : bool :=
  match c with
  | Num q => Qeq_bool q 1
  | _ => false
  end.

(** One of the markers of a missing value: [-9], [-9.0] or ["?"]. *)
Definition sentinel (c : cell) : bool :=
  match c with
  | Num q => Qeq_bool q (-9)
  | Str s => String.eqb s "?"
  | NaN => false
  end.

(** [c'] is the binary target for the raw target [c]. *)
Definition binary_of (c c' : cell) : Prop :=
  c' = if is_positive c then Num 1 else Num 0.

(** [c'] is the cleaned feature for the raw feature [c]: null for a
    sentinel, else [c] made numeric; a number or null in any case. *)
Definition coerced (parse : string -> option Q) (c c' : cell) : Prop :=
  c' = (if sentinel c then NaN else to_numeric_cell parse c) /\
  numeric_cell c' = true.

Definition text_free (s : Series) : bool := forallb numeric_cell s.

(** The target column, if there is one, holds numbers and nulls only. *)
Definition target_numeric (t : DataFrame) : bool :=
  match assoc "target" (columns t) with
  | Some s => text_free s
  | None => true
  end.

(** The cleaned table, column by column: what the blocks of [clean_data]
    amount to on a table with distinct labels. *)
Definition binarize (c : cell) : cell :=
  match c with
  | Num q => if Qlt_bool 0 q then Num 1 else Num 0
  | _ => Num 0
  end.

Definition not_source (c : string * Series) : bool :=
  negb (String.eqb (fst c) "source").

Definition binarize_column (c : string * Series) : string * Series :=
  if String.eqb (fst c) "target" then (fst c, map binarize (snd c)) else c.

Definition coerce_column (parse : string -> option Q) (cols : list string)
    (c : string * Series) : string * Series :=
  if has_label (fst c) cols then (fst c, to_numeric parse (snd c)) else c.

Definition numeric_column (parse : string -> option Q) (c : string * Series)
  : string * Series :=
  if String.eqb (fst c) "target" then c else (fst c, to_numeric parse (snd c)).

Definition clean_column (parse : string -> option Q) (c : string * Series)
  : string * Series :=
  if String.eqb (fst c) "target"
  then (fst c, map binarize (snd c))
  else (fst c, map (fun x => to_numeric_cell parse (replace_cell x)) (snd c)).

Definition cleaned (parse : string -> option Q) (t : DataFrame) : DataFrame :=
  mkDF (index t) (map (clean_column parse) (List.filter not_source (columns t))).

(** ** The preprocessor *)

(** A preprocessor on which [fit] was never called: a new one, or one read
    back from a file such a preprocessor was saved to. *)
Inductive never_fitted : HeartDiseasePreprocessor -> Prop :=
| never_fitted_init : never_fitted Preprocessing.init
| never_fitted_load p filepath now fs p' :
    never_fitted p ->
    load (snd (run (save p filepath now) fs)) filepath = Ok p' ->
    never_fitted p'.

Definition is_num (c : cell) : bool :=
  match c with
  | Num _ => true
  | _ => false
  end.

(** Every column holds at least one number. *)
Definition all_observed (df : DataFrame) : bool :=
  forallb (fun c => existsb is_num (snd c)) (columns df).

(** ** The loader *)

(** [m] is the greatest of [l] by [key], and the first such. *)
Definition first_greatest {A} (key : A -> Q) (l : list A) (m : A) : Prop :=
  exists l1 l2,
    l = (l1 ++ m :: l2)%list /\
    (forall x, In x l1 -> (key x < key m)%Q) /\
    (forall x, In x l2 -> (key x <= key m)%Q).

(** [x] is the first element of [l] that satisfies [p]. *)
Definition first_such {A} (p : A -> bool) (l : list A) (x : A) : Prop :=
  exists l1 l2,
    l = (l1 ++ x :: l2)%list /\ p x = true /\ forall y, In y l1 -> p y = false.

(** The text after the last [sep] of [s], or all of [s] if it holds none. *)
Definition after_last (sep : ascii) (s token : string) : Prop :=
  rfind sep token = None /\
  (s = token \/ exists before, s = before +:+ String sep token).

(** The preprocessor file paired with a timestamp token: the first whose
    stem contains the token, else the first most recently modified one. *)
Definition paired (token : string) (files : list file) (pp : file) : Prop :=
  first_such (fun f => contains token (stem_of (fname f))) files pp \/
  ((forall f, In f files -> contains token (stem_of (fname f)) = false) /\
   first_greatest st_mtime files pp).

(** Whether the normal form of an entry's key contains the model kind. *)
Definition names_kind (kind : string) (entry : string * pyval) : bool :=
  contains kind (normalize (fst entry)).

(** The loader after the metrics step: the metrics of the first entry whose
    key names the kind are attached, if there is one. *)
Definition with_metrics (self : ModelLoader) (entries : list (string * pyval))
  : ModelLoader :=
  match List.find (names_kind (model_name self)) entries with
  | Some entry => set_model_info (snd entry) self
  | None => self
  end.

(** The entries of the ["models"] mapping of a summary, when the summary is
    an object whose ["models"] entry is absent or an object. *)
Definition summary_models (summary : pyval) : option (list (string * pyval)) :=
  match summary with
  | VDict d =>
      match dict_lookup "models" d with
      | None => Some []
      | Some (VDict entries) => Some entries
      | Some _ => None
      end
  | _ => None
  end.

(** A classifier of two classes [0] and [1] over [k] features: on every
    array of [k] columns it gives one label and one pair of probabilities
    per row. *)
Definition binary_classifier (c : Classifier) (k : nat) : Prop :=
  forall X, length (m_cols X) = k -> (0 < m_rows X)%nat ->
  exists ys ps,
    clf_predict c X = Ok ys /\
    clf_predict_proba c X = Ok ps /\
    length ys = m_rows X /\
    length ps = m_rows X /\
    Forall (fun y => y = 0%Z \/ y = 1%Z) ys /\
    Forall (fun pr => length pr = 2%nat) ps.

(** ** Fitting *)

(** A column that holds at least one number. *)
Definition has_observed (c : string * Series) : bool := existsb is_num (snd c).

(** What [fit] needs of a table: numbers and nulls only, at least one row,
    and at least one column with an observed value. *)
Definition fit_ready (X : DataFrame) : bool :=
  numeric_frame X && negb (index X =? 0)%nat && existsb has_observed (columns X).

(** One column after [fit_transform]: its nulls filled with the median of
    its observed values, then centred and scaled by the statistics of the
    filled column. *)
Definition standardized (median mean scale : list Q -> Q) (s : Series) : list Q :=
  let filled := impute_column (median (observed s)) s in
  scale_column (mean filled) (scale filled) filled.

(** ** Cleaning *)

(** A text token that the float grammar reads as the sentinel [-9]. *)
Definition text_sentinel (parse : string -> option Q) (c : cell) : bool :=
  match c with
  | Str s =>
      negb (String.eqb s "?") &&
      match parse s with
      | Some q => Qeq_bool q (-9)
      | None => false
      end
  | _ => false
  end.

(** No feature column holds a text form of the sentinel. *)
Definition no_text_sentinel (parse : string -> option Q) (t : DataFrame) : bool :=
  forallb (fun c : string * Series =>
             String.eqb (fst c) "target" ||
             forallb (fun x => negb (text_sentinel parse x)) (snd c))
          (columns t).

Definition is_binary (c : cell) : Prop := c = Num 0 \/ c = Num 1.

(** ** Records *)

(** Two sets of keyword arguments agree on a field: the same value, an
    absent field counting as a null. *)
Definition same_field (kw1 kw2 : gmap string cell) (name : string) : Prop :=
  default NaN (kw1 !! name) = default NaN (kw2 !! name).

(** ** File names and patterns *)

(** No opening bracket: the one character of a pattern that does not match
    itself. *)
Definition bracket_free (s : string) : bool :=
  match rfind "[" s with
  | None => true
  | Some _ => false
  end.

(** The tokens of a pattern without brackets, character by character. *)
Definition literal_token (c : ascii) : token :=
  if Ascii.eqb c "*" then TStar
  else if Ascii.eqb c "?" then TAny
  else TLit c.

Fixpoint literal_tokens (s : string) : list token :=
  match s with
  | EmptyString => []
  | String c s' => literal_token c :: literal_tokens s'
  end.

(** ** Artifact stores before a training run *)

(** Every entry was last modified before [t]. *)
Definition older_than (t : Q) (entries : list file) : bool :=
  forallb (fun f => Qlt_bool (st_mtime f) t) entries.

(** No preprocessor file carries [token] in its stem. *)
Definition no_preprocessor_with (token : string) (entries : list file) : bool :=
  forallb (fun f => negb (fnmatch "preprocessor_*.pkl" (fname f) &&
                          contains token (stem_of (fname f))))
          entries.

(** The items of the results of [train_models]: its two classifiers under
    their names. *)
Definition trained (logistic forest : Train.TrainResult)
  : list (string * Train.TrainResult) :=
  zip Train.model_names [logistic; forest].

(** ** The service *)

(** A classifier whose probabilities lie between [0] and [1]. *)
Definition calibrated (c : Classifier) : Prop :=
  forall X ps, clf_predict_proba c X = Ok ps ->
  Forall (Forall (fun q => 0 <= q /\ q <= 1)%Q) ps.

Definition not_loaded : Api.detail :=
  Api.Text "Model not loaded. Please check /health endpoint.".

(** * Example data *)

(** ** Tables *)

(** A float grammar in which no text denotes a number. *)
Definition no_parse (s : string) : option Q := None.

(** Raw data with a source column, sentinels and a stray token among the
    features, and the targets 0, 1, 2, 3. *)
Definition raw_frame : DataFrame :=
  mkDF 4 [("age", [Num 63; Num (-9); Str "?"; Str "sixty"]);
          ("source", [Str "cleveland"; Str "hungarian"; Str "va"; Str "va"]);
          ("target", [Num 0; Num 1; Num 2; Num 3])].

Definition sentinel_target_frame : DataFrame :=
  mkDF 1 [("age", [Num 63]); ("target", [Num (-9)])].

Definition text_target_frame : DataFrame :=
  mkDF 1 [("age", [Num 63]); ("target", [Str "?"])].

Definition empty_frame : DataFrame := mkDF 0 [].

Definition train_frame : DataFrame :=
  mkDF 3 [("age", [Num 63; NaN; Num 37]); ("sex", [Num 1; Num 1; Num 0])].

Definition test_frame : DataFrame :=
  mkDF 2 [("age", [Num 50; NaN]); ("sex", [Num 1; Num 0])].

Definition narrow_frame : DataFrame :=
  mkDF 2 [("age", [Num 50; Num 60])].

Definition rowless_frame : DataFrame :=
  mkDF 0 [("age", []); ("sex", [])].

(** A training table whose second column holds no value at all. *)
Definition hollow_frame : DataFrame :=
  mkDF 2 [("age", [Num 63; Num 37]); ("ca", [NaN; NaN])].

(** A training table over the thirteen fields. *)
Definition schema_frame : DataFrame :=
  mkDF 2 (map (fun n => (n, [Num 1; Num 3])) get_feature_names).

(** ** Preprocessors and classifiers *)

(** A stand-in for a statistics kernel: shapes and errors do not depend on
    the kernels. *)
Definition unit_kernel (l : list Q) : Q := 1.

Definition fitted_on (df : DataFrame) : HeartDiseasePreprocessor :=
  snd (run (fit unit_kernel unit_kernel unit_kernel df) Preprocessing.init).

(** A classifier that answers class [1] with probabilities [0.3] and [0.7]
    for every row. *)
Definition mock_classifier : Classifier :=
  mkClassifier (fun X => Ok (repeat 1%Z (m_rows X)))
               (fun X => Ok (repeat [3 # 10; 7 # 10] (m_rows X))).

(** A classifier of the five severity grades of the raw data, answering
    grade [2] for every row. *)
Definition graded_classifier : Classifier :=
  mkClassifier (fun X => Ok (repeat 2%Z (m_rows X)))
               (fun X => Ok (repeat [1 # 10; 1 # 10; 6 # 10; 1 # 10; 1 # 10] (m_rows X))).

(** ** Loaders *)

Definition fresh_loader : ModelLoader := LoadModel.init "Random Forest" None.

Definition summary_loader : ModelLoader := LoadModel.init "Training Summary" None.

Definition bound_loader : ModelLoader :=
  mkLoader "models" "random_forest" (VClassifier mock_classifier)
           (Some (fitted_on schema_frame)) VNone.

Definition graded_loader : ModelLoader :=
  mkLoader "models" "random_forest" (VClassifier graded_classifier)
           (Some (fitted_on schema_frame)) VNone.

(** A loader whose preprocessor was fitted on a table of two columns. *)
Definition mispaired_loader : ModelLoader :=
  mkLoader "models" "random_forest" (VClassifier mock_classifier)
           (Some (fitted_on train_frame)) VNone.

(** The record of the specification's example, without its [thal] field. *)
Definition sample_kwargs : gmap string cell :=
  list_to_map
    [("age", Num 63); ("sex", Num 1); ("cp", Num 1); ("trestbps", Num 145);
     ("chol", Num 233); ("fbs", Num 1); ("restecg", Num 2); ("thalach", Num 150);
     ("exang", Num 0); ("oldpeak", Num (23 # 10)); ("slope", Num 3); ("ca", Num 0)].

(** ** Artifact stores *)

Definition fitted_pickle : content :=
  Pickle (saved_state (fitted_on schema_frame)).

Definition model_pickle : content := Pickle (VClassifier mock_classifier).

Definition metrics (accuracy : Q) : pyval := VDict [("accuracy", VNum accuracy)].

Definition summary_entries : list (string * pyval) :=
  [("Logistic Regression", metrics (8 # 10)); ("Random Forest", metrics (9 # 10))].

Definition summary_json : content :=
  Json (VDict [("timestamp", VStr "20240102_111111");
               ("models", VDict summary_entries)]).

(** A file system whose only directory with entries is [models]. *)
Definition on_models (entries : list file) : FileSystem :=
  fun dir => if String.eqb dir "models" then entries else [].

Definition first_run_model : Path :=
  mkPath "models" "random_forest_20240101_000000.pkl".

Definition first_run_preprocessor (mtime : Q) : file :=
  mkFile "preprocessor_20240101_000000.pkl" mtime fitted_pickle.

Definition second_run_summary : file :=
  mkFile "training_summary_20240102_111111.json" 20 summary_json.

(** One training run. *)
Definition one_run : FileSystem :=
  on_models
    [mkFile "random_forest_20240101_000000.pkl" 10 model_pickle;
     first_run_preprocessor 10;
     mkFile "training_summary_20240101_000000.json" 10 summary_json].

(** Two training runs; the files of the first run were touched last. *)
Definition two_runs : FileSystem :=
  on_models
    [mkFile "random_forest_20240101_000000.pkl" 50 model_pickle;
     mkFile "random_forest_20240102_111111.pkl" 20 model_pickle;
     first_run_preprocessor 50;
     mkFile "preprocessor_20240102_111111.pkl" 20 fitted_pickle;
     second_run_summary].

(** A model and a preprocessor, but no training summary. *)
Definition no_summary : FileSystem :=
  on_models
    [mkFile "random_forest_20240101_000000.pkl" 10 model_pickle;
     first_run_preprocessor 10].

(** Files that carry the artifact prefixes but not the pickle suffix, next
    to an older model. *)
Definition notes_only : FileSystem :=
  on_models
    [mkFile "random_forest_notes.txt" 10 Garbage;
     mkFile "random_forest_20240101_000000.pkl" 5 model_pickle;
     mkFile "preprocessor_notes.txt" 10 Garbage].

Definition no_pickled_model : FileSystem :=
  on_models [mkFile "random_forest_notes.txt" 10 Garbage].

(** A store whose training summary cannot be parsed. *)
Definition broken_summary : FileSystem :=
  on_models
    [mkFile "random_forest_20240101_000000.pkl" 10 model_pickle;
     first_run_preprocessor 10;
     mkFile "training_summary_20240101_000000.json" 10 Garbage].

(** A store whose training summary is a JSON list. *)
Definition listed_summary : FileSystem :=
  on_models
    [mkFile "random_forest_20240101_000000.pkl" 10 model_pickle;
     first_run_preprocessor 10;
     mkFile "training_summary_20240101_000000.json" 10 (Json (VList []))].

(** ** More tables *)

(** A table whose only column holds no value at all. *)
Definition unobserved_frame : DataFrame := mkDF 2 [("ca", [NaN; NaN])].

(** ** A training run *)

(** The results of a run: a classifier and its scores for each of the two
    kinds. *)
Definition logistic_result : Train.TrainResult :=
  Train.mkTrainResult (VClassifier graded_classifier)
    (8 # 10) (8 # 10) (8 # 10) (8 # 10) (8 # 10) (1 # 10)
    [[20; 5]; [7; 29]]%Z [] [].

Definition forest_result : Train.TrainResult :=
  Train.mkTrainResult (VClassifier mock_classifier)
    (9 # 10) (9 # 10) (9 # 10) (9 # 10) (9 # 10) (1 # 10)
    [[22; 3]; [3; 33]]%Z [] [].

(** The second of January 2024, at 11:11:11. *)
Definition second_run_time : Train.datetime := Train.mkDatetime 2024 1 2 11 11 11.

(** A clock that stands at 100 during the run. *)
Definition run_clock (k : nat) : Q := 100.

(** ** Requests *)

(** The example of the request schema. *)
Definition sample_input : Api.HeartDiseaseInput :=
  Api.mkInput 63 1 1 145 233 1 2 150 0 (23 # 10) 3 0 6.

(** * Properties *)

#[local] Opaque String.eqb.

(** ** The cleaning step *)

Lemma run_bind {S A B} (c : M S A) (f : A -> M S B) (s : S) :
  run (c ≫= f) s =
  match run c s with
  | (Ok a, s') => run (f a) s'
  | (Raise e, s') => (Raise e, s')
  end.
Proof. reflexivity. Qed.

(** Run the first computation of a sequence when it is a pure step. *)
Ltac run_step := rewrite run_bind; cbn [lift run].

Lemma keeps_bind {A B} h0 (c : M heap A) (f : A -> M heap B) post post' :
  keeps h0 c post ->
  (forall a, post a -> keeps h0 (f a) post') ->
  keeps h0 (c ≫= f) post'.
Proof.
  intros Hc Hf h Hsub res h' Hrun. rewrite run_bind in Hrun.
  destruct (run c h) as [[a|e] h1] eqn:E.
  - destruct (Hc h Hsub _ _ E) as [Hsub1 Hpost].
    exact (Hf a (Hpost a eq_refl) h1 Hsub1 res h' Hrun).
  - destruct (Hc h Hsub _ _ E) as [Hsub1 _].
    inversion Hrun; subst. split; [assumption | discriminate].
Qed.

Lemma keeps_ret {A} h0 (a : A) (post : A -> Prop) :
  post a -> keeps h0 (mret a) post.
Proof.
  intros Hp h Hsub res h' Hrun. inversion Hrun; subst.
  split; [assumption|]. intros a' [= <-]. exact Hp.
Qed.

Lemma keeps_lift {A} h0 (r : result A) :
  keeps h0 (lift r) (fun _ => True).
Proof.
  intros h Hsub res h' Hrun. inversion Hrun; subst. split; auto.
Qed.

Lemma keeps_deref h0 l : keeps h0 (deref l) (fun _ => True).
Proof.
  intros h Hsub res h' Hrun. cbn in Hrun.
  destruct (h !! l); inversion Hrun; subst; split; auto.
Qed.

Lemma keeps_alloc h0 df : keeps h0 (alloc df) (fun l => h0 !! l = None).
Proof.
  intros h Hsub res h' Hrun. cbn in Hrun. inversion Hrun; subst.
  assert (Hfresh : h !! fresh (dom h) = None).
  { apply not_elem_of_dom. apply is_fresh. }
  assert (H0 : h0 !! fresh (dom h) = None).
  { destruct (h0 !! fresh (dom h)) eqn:E; [|reflexivity].
    eapply lookup_weaken in E; [|exact Hsub]. congruence. }
  split.
  - apply insert_subseteq_r; assumption.
  - intros a [= <-]. exact H0.
Qed.

Lemma keeps_assign h0 l df :
  h0 !! l = None -> keeps h0 (assign l df) (fun _ => True).
Proof.
  intros Hl h Hsub res h' Hrun. cbn in Hrun. inversion Hrun; subst.
  split; [|auto]. apply insert_subseteq_r; assumption.
Qed.

Lemma keeps_for_each {A} h0 (l : list A) (body : A -> M heap unit) :
  (forall x, keeps h0 (body x) (fun _ => True)) ->
  keeps h0 (for_each l body) (fun _ => True).
Proof.
  intros Hbody. induction l as [|x l IH]; cbn [for_each].
  - apply keeps_ret. exact I.
  - eapply keeps_bind; [apply Hbody|]. intros _ _. exact IH.
Qed.

Create HintDb frame.
#[local] Hint Resolve keeps_deref keeps_alloc keeps_lift keeps_assign : frame.

(** One step of a sequence: the first computation by the hints, then the
    rest with its result. *)
Ltac keeps_step :=
  eapply keeps_bind; [solve [eauto with frame] | intros ? ?].

Lemma keeps_setitem_col h0 l name s :
  h0 !! l = None -> keeps h0 (setitem_col l name s) (fun _ => True).
Proof. intros Hl. unfold setitem_col. keeps_step. auto with frame. Qed.

Lemma keeps_getitem_col h0 l name :
  keeps h0 (getitem_col l name) (fun _ => True).
Proof. unfold getitem_col. keeps_step. auto with frame. Qed.

Lemma keeps_get_columns h0 l : keeps h0 (get_columns l) (fun _ => True).
Proof. unfold get_columns. keeps_step. apply keeps_ret. exact I. Qed.

Lemma keeps_copy h0 l : keeps h0 (copy l) (fun r => h0 !! r = None).
Proof. unfold copy. keeps_step. auto with frame. Qed.

Lemma keeps_drop h0 l name : keeps h0 (drop l name) (fun r => h0 !! r = None).
Proof. unfold drop. do 2 keeps_step. auto with frame. Qed.

Lemma keeps_replace_sentinels h0 l :
  keeps h0 (replace_sentinels l) (fun r => h0 !! r = None).
Proof. unfold replace_sentinels. keeps_step. auto with frame. Qed.

#[local] Hint Resolve keeps_setitem_col keeps_getitem_col keeps_get_columns
  keeps_copy keeps_drop keeps_replace_sentinels : frame.

Lemma keeps_drop_source h0 l :
  h0 !! l = None -> keeps h0 (drop_source l) (fun r => h0 !! r = None).
Proof.
  intros Hl. unfold drop_source. keeps_step.
  destruct (has_label "source" _); [auto with frame | apply keeps_ret; exact Hl].
Qed.

Lemma keeps_binarize_target h0 l :
  h0 !! l = None -> keeps h0 (binarize_target l) (fun _ => True).
Proof.
  intros Hl. unfold binarize_target. keeps_step.
  destruct (has_label "target" _); [|apply keeps_ret; exact I].
  do 2 keeps_step. auto with frame.
Qed.

Lemma keeps_coerce_numeric parse h0 l :
  h0 !! l = None -> keeps h0 (coerce_numeric parse l) (fun _ => True).
Proof.
  intros Hl. unfold coerce_numeric. keeps_step.
  apply keeps_for_each. intros col. keeps_step. auto with frame.
Qed.

#[local] Hint Resolve keeps_drop_source keeps_binarize_target
  keeps_coerce_numeric : frame.

Lemma keeps_clean_data parse h0 df :
  keeps h0 (clean_data parse df) (fun r => h0 !! r = None).
Proof.
  unfold clean_data. do 5 keeps_step. apply keeps_ret. assumption.
Qed.

(** C9: [clean_data] works on a copy.  Whatever it returns or raises, the
    table passed to it, and every other table that existed before the call,
    holds what it held; the table returned is another object. *)
Theorem clean_data_keeps_argument (parse : string -> option Q) (h : heap)
    (df : loc) (t : DataFrame) (res : result loc) (h' : heap) :
  h !! df = Some t ->
  run (clean_data parse df) h = (res, h') ->
  h' !! df = Some t /\
  (forall l t', h !! l = Some t' -> h' !! l = Some t') /\
  (forall r, res = Ok r -> r <> df).
Proof.
  intros Hdf Hrun.
  destruct (keeps_clean_data parse h df h (reflexivity h) res h' Hrun) as [Hsub Hpost].
  split; [|split].
  - eapply lookup_weaken; eassumption.
  - intros l t' Hl. eapply lookup_weaken; eassumption.
  - intros r -> ->. specialize (Hpost _ eq_refl). congruence.
Qed.

Lemma clean_data_keeps_argument_witness :
  ({[0%nat := raw_frame]} : heap) !! 0%nat = Some raw_frame /\
  run (clean_data no_parse 0%nat) {[0%nat := raw_frame]}
    = (fst (run (clean_data no_parse 0%nat) {[0%nat := raw_frame]}),
       snd (run (clean_data no_parse 0%nat) {[0%nat := raw_frame]})) /\
  (snd (run (clean_data no_parse 0%nat) {[0%nat := raw_frame]}) !! 0%nat
     = Some raw_frame /\
   (forall l t', ({[0%nat := raw_frame]} : heap) !! l = Some t' ->
      snd (run (clean_data no_parse 0%nat) {[0%nat := raw_frame]}) !! l = Some t') /\
   (forall r, fst (run (clean_data no_parse 0%nat) {[0%nat := raw_frame]}) = Ok r ->
      r <> 0%nat)).
Proof.
  assert (H1 : ({[0%nat := raw_frame]} : heap) !! 0%nat = Some raw_frame)
    by (vm_compute; reflexivity).
  assert (H2 : run (clean_data no_parse 0%nat) {[0%nat := raw_frame]}
               = (fst (run (clean_data no_parse 0%nat) {[0%nat := raw_frame]}),
                  snd (run (clean_data no_parse 0%nat) {[0%nat := raw_frame]})))
    by (vm_compute; reflexivity).
  split; [assumption|]. split; [assumption|].
  exact (clean_data_keeps_argument no_parse {[0%nat := raw_frame]} 0%nat raw_frame
           _ _ H1 H2).
Defined.

Lemma has_label_In name idx : has_label name idx = true <-> In name idx.
Proof.
  unfold has_label. rewrite existsb_exists. split.
  - intros [x [Hin Heq]]. apply String.eqb_eq in Heq. subst. exact Hin.
  - intros Hin. exists name. split; [exact Hin | apply String.eqb_refl].
Qed.

Lemma assoc_In name cols s :
  assoc name cols = Some s -> In (name, s) cols.
Proof.
  induction cols as [|[n c] cols IH]; cbn; [discriminate|].
  destruct (String.eqb n name) eqn:E.
  - apply String.eqb_eq in E. intros [= ->]. left. congruence.
  - intros H. right. exact (IH H).
Qed.

Lemma assoc_None name cols :
  assoc name cols = None <-> ~ In name (map fst cols).
Proof.
  induction cols as [|[n c] cols IH]; cbn; [tauto|].
  destruct (String.eqb n name) eqn:E.
  - apply String.eqb_eq in E. split; [discriminate | intros H; exfalso; apply H; auto].
  - apply String.eqb_neq in E. rewrite IH. tauto.
Qed.

Lemma assoc_unique name cols s c :
  List.NoDup (map fst cols) -> assoc name cols = Some s ->
  In c cols -> fst c = name -> snd c = s.
Proof.
  induction cols as [|[n x] cols IH]; cbn; [tauto|].
  intros Hnd Hassoc Hin Hfst. inversion Hnd as [|? ? Hnotin Hnd']; subst.
  destruct (String.eqb n (fst c)) eqn:E.
  - apply String.eqb_eq in E. injection Hassoc as <-.
    destruct Hin as [<-|Hin]; [reflexivity|].
    exfalso. apply Hnotin. rewrite E. apply in_map. exact Hin.
  - apply String.eqb_neq in E. destruct Hin as [<-|Hin]; [cbn in E; congruence|].
    eapply IH; eauto.
Qed.

Lemma series_gt_zero_text_free s :
  text_free s = true ->
  exists mask, series_gt_zero s = Ok mask /\ astype_int mask = map binarize s.
Proof.
  induction s as [|c s IH]; cbn; intros H.
  - exists []. split; reflexivity.
  - apply andb_true_iff in H as [Hc Hs]. destruct (IH Hs) as [mask [E1 E2]].
    destruct c as [q| |]; cbn in Hc; [|discriminate|]; cbn; rewrite E1; cbn.
    + exists (Qlt_bool 0 q :: mask). split; [reflexivity|].
      unfold astype_int in *. cbn [map binarize]. rewrite E2.
      destruct (Qlt_bool 0 q); reflexivity.
    + exists (false :: mask). split; [reflexivity|].
      unfold astype_int in *. cbn [map binarize]. rewrite E2. reflexivity.
Qed.

Lemma series_gt_zero_text s :
  text_free s = false -> series_gt_zero s = Raise TypeError.
Proof.
  induction s as [|c s IH]; cbn; [discriminate|]. intros H.
  apply andb_false_iff in H. destruct c as [q| |]; cbn in *.
  - destruct H as [H|H]; [discriminate|]. rewrite (IH H). reflexivity.
  - reflexivity.
  - destruct H as [H|H]; [discriminate|]. rewrite (IH H). reflexivity.
Qed.

(** The operations on tables, run on a heap where the reference is bound. *)

Lemma run_deref (h : heap) l t :
  h !! l = Some t -> run (deref l) h = (Ok t, h).
Proof. intros H. cbn. rewrite H. reflexivity. Qed.

Lemma run_get_columns (h : heap) l t :
  h !! l = Some t -> run (get_columns l) h = (Ok (labels t), h).
Proof. intros H. unfold get_columns. rewrite run_bind, (run_deref _ _ _ H). reflexivity. Qed.

Lemma run_copy (h : heap) l t :
  h !! l = Some t ->
  run (copy l) h = (Ok (fresh (dom h)), <[fresh (dom h) := t]> h).
Proof. intros H. unfold copy. rewrite run_bind, (run_deref _ _ _ H). reflexivity. Qed.

Lemma run_getitem_col (h : heap) l t name :
  h !! l = Some t -> run (getitem_col l name) h = (df_get name t, h).
Proof. intros H. unfold getitem_col. rewrite run_bind, (run_deref _ _ _ H). reflexivity. Qed.

Lemma run_setitem_col (h : heap) l t name s :
  h !! l = Some t ->
  run (setitem_col l name s) h = (Ok tt, <[l := df_set name s t]> h).
Proof. intros H. unfold setitem_col. rewrite run_bind, (run_deref _ _ _ H). reflexivity. Qed.

Lemma filter_not_source_id cols :
  has_label "source" (map fst cols) = false ->
  List.filter not_source cols = cols.
Proof.
  intros H. induction cols as [|c cols IH]; cbn in *; [reflexivity|].
  apply orb_false_iff in H as [H1 H2]. unfold not_source at 1.
  rewrite String.eqb_sym, H1. cbn. rewrite (IH H2). reflexivity.
Qed.

Lemma run_drop_source (h : heap) l t :
  h !! l = Some t ->
  exists r h', run (drop_source l) h = (Ok r, h') /\
    h' !! r = Some (mkDF (index t) (List.filter not_source (columns t))).
Proof.
  intros H. unfold drop_source. rewrite run_bind, (run_get_columns _ _ _ H).
  destruct (has_label "source" (labels t)) eqn:E.
  - unfold drop. rewrite run_bind, (run_deref _ _ _ H), run_bind. cbn [lift run].
    unfold df_drop. rewrite E. cbn.
    eexists _, _. split; [reflexivity|]. apply lookup_insert_eq.
  - exists l, h. split; [reflexivity|].
    rewrite (filter_not_source_id _ E). destruct t; exact H.
Qed.

Lemma map_id_in {A} (f : A -> A) (l : list A) :
  (forall x, In x l -> f x = x) -> map f l = l.
Proof.
  intros H. induction l as [|x l IH]; cbn; [reflexivity|].
  rewrite H by (left; reflexivity). f_equal. apply IH. intros; apply H; right; assumption.
Qed.

Lemma run_binarize_target (h : heap) l t :
  h !! l = Some t -> List.NoDup (labels t) -> target_numeric t = true ->
  exists h', run (binarize_target l) h = (Ok tt, h') /\
    h' !! l = Some (mkDF (index t) (map binarize_column (columns t))) /\
    forall l', l' <> l -> h' !! l' = h !! l'.
Proof.
  intros H Hnd Hnum. unfold binarize_target.
  rewrite run_bind, (run_get_columns _ _ _ H).
  destruct (has_label "target" (labels t)) eqn:E.
  - rewrite run_bind, (run_getitem_col _ _ _ _ H). unfold df_get.
    unfold target_numeric in Hnum.
    destruct (assoc "target" (columns t)) as [s|] eqn:Ea.
    + destruct (series_gt_zero_text_free s Hnum) as [mask [E1 E2]].
      run_step. rewrite E1.
      rewrite (run_setitem_col _ _ _ _ _ H).
      eexists. split; [reflexivity|]. split.
      * rewrite lookup_insert_eq. f_equal. unfold df_set. rewrite E. f_equal.
        apply map_ext_in. intros c Hc. unfold binarize_column.
        destruct (String.eqb (fst c) "target") eqn:Ec; [|reflexivity].
        apply String.eqb_eq in Ec.
        rewrite E2, (assoc_unique _ _ _ _ Hnd Ea Hc Ec). reflexivity.
      * intros l' Hl'. apply lookup_insert_ne. congruence.
    + apply has_label_In in E. apply assoc_None in Ea. contradiction.
  - exists h. split; [reflexivity|]. split; [|reflexivity].
    rewrite H. f_equal. destruct t as [i cols]. cbn. f_equal. symmetry.
    apply map_id_in. intros c Hc. unfold binarize_column.
    destruct (String.eqb (fst c) "target") eqn:Ec; [|reflexivity].
    apply String.eqb_eq in Ec. exfalso.
    assert (Hin : In "target" (labels (mkDF i cols))).
    { unfold labels. cbn. rewrite <- Ec. apply in_map. exact Hc. }
    apply has_label_In in Hin. congruence.
Qed.

Lemma run_replace_sentinels (h : heap) l t :
  h !! l = Some t ->
  exists r h', run (replace_sentinels l) h = (Ok r, h') /\
    h' !! r = Some (df_replace t).
Proof.
  intros H. unfold replace_sentinels. rewrite run_bind, (run_deref _ _ _ H).
  eexists _, _. split; [reflexivity|]. apply lookup_insert_eq.
Qed.

Lemma labels_map_fst (f : string * Series -> string * Series) i cols :
  (forall c, fst (f c) = fst c) ->
  labels (mkDF i (map f cols)) = map fst cols.
Proof.
  intros Hf. unfold labels. cbn. rewrite map_map. apply map_ext. exact Hf.
Qed.

Lemma run_coerce_loop parse l (cols : list string) :
  forall (h : heap) t,
  h !! l = Some t -> List.NoDup (labels t) -> List.NoDup cols ->
  (forall n, In n cols -> In n (labels t)) ->
  exists h',
    run (for_each cols
           (fun col => s ← getitem_col l col;
                       setitem_col l col (to_numeric parse s))) h = (Ok tt, h') /\
    h' !! l = Some (mkDF (index t) (map (coerce_column parse cols) (columns t))).
Proof.
  induction cols as [|x cols IH]; intros h t H Hnd Hndc Hsub.
  - exists h. split; [reflexivity|]. rewrite H. f_equal. destruct t as [i cs]. cbn.
    f_equal. symmetry. apply map_id_in. intros c _. reflexivity.
  - cbn [for_each]. rewrite run_bind, run_bind, (run_getitem_col _ _ _ _ H).
    unfold df_get.
    destruct (assoc x (columns t)) as [s|] eqn:Ea.
    2:{ apply assoc_None in Ea. exfalso. apply Ea. apply Hsub. left. reflexivity. }
    cbn [lift run]. rewrite (run_setitem_col _ _ _ _ _ H).
    inversion Hndc as [|? ? Hx Hndc']; subst.
    assert (Hx' : has_label x (labels t) = true).
    { apply has_label_In. apply Hsub. left. reflexivity. }
    set (t1 := df_set x (to_numeric parse s) t).
    assert (Hlab : labels t1 = labels t).
    { unfold t1, df_set. rewrite Hx'. apply labels_map_fst.
      intros c. destruct (String.eqb (fst c) x); reflexivity. }
    destruct (IH (<[l := t1]> h) t1) as [h' [Hrun Hres]].
    + apply lookup_insert_eq.
    + rewrite Hlab. exact Hnd.
    + exact Hndc'.
    + intros n Hn. rewrite Hlab. apply Hsub. right. exact Hn.
    + exists h'. split; [exact Hrun|]. rewrite Hres. f_equal.
      unfold t1, df_set. rewrite Hx'. cbn [index columns]. f_equal.
      rewrite map_map. apply map_ext_in. intros c Hc.
      unfold coerce_column. cbn [has_label existsb].
      destruct (String.eqb (fst c) x) eqn:Ec.
      * apply String.eqb_eq in Ec. cbn [fst snd orb].
        assert (Hnot : has_label (fst c) cols = false).
        { destruct (has_label (fst c) cols) eqn:Eh; [|reflexivity].
          apply has_label_In in Eh. rewrite Ec in Eh. contradiction. }
        rewrite Hnot. f_equal. f_equal. symmetry.
        exact (assoc_unique _ _ _ _ Hnd Ea Hc Ec).
      * fold (has_label (fst c) cols). reflexivity.
Qed.

Lemma NoDup_index_drop name idx :
  List.NoDup idx -> List.NoDup (index_drop name idx).
Proof. intros H. unfold index_drop. apply List.NoDup_filter. exact H. Qed.

Lemma has_label_index_drop name idx n :
  has_label n (index_drop name idx) = has_label n idx && negb (String.eqb n name).
Proof.
  unfold index_drop, has_label. induction idx as [|a idx IH]; [reflexivity|].
  cbn [List.filter existsb].
  destruct (String.eqb a name) eqn:Ea; cbn [negb existsb].
  - rewrite IH. apply String.eqb_eq in Ea. subst a.
    destruct (String.eqb n name) eqn:En; cbn [negb orb andb]; [|reflexivity].
    rewrite andb_false_r. reflexivity.
  - rewrite IH.
    destruct (String.eqb n a) eqn:En; cbn [orb andb]; [|reflexivity].
    apply String.eqb_eq in En. subst a. rewrite Ea. reflexivity.
Qed.

Lemma run_coerce_numeric parse (h : heap) l t :
  h !! l = Some t -> List.NoDup (labels t) ->
  exists h', run (coerce_numeric parse l) h = (Ok tt, h') /\
    h' !! l = Some (mkDF (index t) (map (numeric_column parse) (columns t))).
Proof.
  intros H Hnd. unfold coerce_numeric.
  rewrite run_bind, (run_get_columns _ _ _ H).
  set (cols := if has_label "target" (labels t)
               then index_drop "target" (labels t) else labels t).
  destruct (run_coerce_loop parse l cols h t H Hnd) as [h' [Hrun Hres]].
  - unfold cols. destruct (has_label "target" (labels t));
      [apply NoDup_index_drop|]; exact Hnd.
  - unfold cols. intros n Hn. destruct (has_label "target" (labels t)); [|exact Hn].
    unfold index_drop in Hn. apply filter_In in Hn. tauto.
  - exists h'. split; [exact Hrun|]. rewrite Hres. f_equal. f_equal.
    apply map_ext_in. intros c Hc. unfold coerce_column, numeric_column.
    assert (Hin : has_label (fst c) (labels t) = true).
    { apply has_label_In. unfold labels. apply in_map. exact Hc. }
    unfold cols. destruct (has_label "target" (labels t)) eqn:Et.
    + rewrite has_label_index_drop, Hin. cbn.
      destruct (String.eqb (fst c) "target"); reflexivity.
    + rewrite Hin. destruct (String.eqb (fst c) "target") eqn:Ec; [|reflexivity].
      apply String.eqb_eq in Ec. rewrite Ec in Hin. congruence.
Qed.

Lemma assoc_filter_not_source n cols :
  n <> "source" -> assoc n (List.filter not_source cols) = assoc n cols.
Proof.
  intros Hn. induction cols as [|[a x] cols IH]; [reflexivity|].
  cbn [List.filter]. unfold not_source at 1. cbn [fst].
  destruct (String.eqb a "source") eqn:Ea; cbn [negb assoc].
  - apply String.eqb_eq in Ea. subst a.
    destruct (String.eqb "source" n) eqn:En; [|exact IH].
    apply String.eqb_eq in En. congruence.
  - rewrite IH. reflexivity.
Qed.

Lemma assoc_map_fst (f : string * Series -> string * Series) n cols s :
  (forall c, fst (f c) = fst c) ->
  assoc n cols = Some s -> assoc n (map f cols) = Some (snd (f (n, s))).
Proof.
  intros Hf. induction cols as [|[a x] cols IH]; [discriminate|].
  cbn [map assoc]. specialize (Hf (a, x)) as Ha. cbn [fst] in Ha.
  destruct (f (a, x)) as [a' x'] eqn:Ef. cbn [fst] in Ha. subst a'.
  destruct (String.eqb a n) eqn:Ea.
  - apply String.eqb_eq in Ea. subst a. intros [= ->]. rewrite Ef. reflexivity.
  - exact IH.
Qed.

Lemma NoDup_filter_labels (p : string * Series -> bool) cols :
  List.NoDup (map fst cols) -> List.NoDup (map fst (List.filter p cols)).
Proof.
  induction cols as [|c cols IH]; cbn [map List.filter]; intros H; [constructor|].
  inversion H as [|? ? Hc Hnd]; subst. destruct (p c); cbn [map].
  - constructor; [|exact (IH Hnd)]. intros Hin. apply Hc.
    apply in_map_iff in Hin as [d [Hd Hin]]. apply filter_In in Hin as [Hin _].
    rewrite <- Hd. apply in_map. exact Hin.
  - exact (IH Hnd).
Qed.

Lemma binarize_column_fst c : fst (binarize_column c) = fst c.
Proof. unfold binarize_column. destruct (String.eqb (fst c) "target"); reflexivity. Qed.

Lemma replace_cell_binarize c : replace_cell (binarize c) = binarize c.
Proof.
  destruct c as [q| |]; cbn; [|reflexivity|reflexivity].
  destruct (Qlt_bool 0 q); reflexivity.
Qed.

Lemma clean_columns_compose parse cols :
  map (numeric_column parse)
      (map (fun c => (fst c, map replace_cell (snd c))) (map binarize_column cols)) =
  map (clean_column parse) cols.
Proof.
  rewrite !map_map. apply map_ext. intros [n s].
  unfold numeric_column, binarize_column, clean_column. cbn [fst snd].
  destruct (String.eqb n "target") eqn:En; cbn [fst snd]; rewrite En.
  - f_equal. rewrite map_map. apply map_ext. exact replace_cell_binarize.
  - f_equal. unfold to_numeric. rewrite map_map. reflexivity.
Qed.

Lemma clean_data_run parse (h : heap) df t :
  h !! df = Some t -> List.NoDup (labels t) -> target_numeric t = true ->
  exists r h', run (clean_data parse df) h = (Ok r, h') /\
    h' !! r = Some (cleaned parse t).
Proof.
  intros H Hnd Hnum. unfold clean_data.
  rewrite run_bind, (run_copy _ _ _ H).
  destruct (run_drop_source (<[fresh (dom h) := t]> h) (fresh (dom h)) t)
    as [r2 [h2 [E2 H2]]]; [apply lookup_insert_eq|].
  rewrite run_bind, E2.
  set (t2 := mkDF (index t) (List.filter not_source (columns t))) in *.
  assert (Hnd2 : List.NoDup (labels t2)).
  { unfold t2, labels. cbn. apply NoDup_filter_labels. exact Hnd. }
  assert (Hnum2 : target_numeric t2 = true).
  { unfold target_numeric, t2 in *. cbn [columns].
    rewrite assoc_filter_not_source by discriminate. exact Hnum. }
  destruct (run_binarize_target h2 r2 t2 H2 Hnd2 Hnum2) as [h3 [E3 [H3 _]]].
  rewrite run_bind, E3.
  destruct (run_replace_sentinels h3 r2 _ H3) as [r4 [h4 [E4 H4]]].
  rewrite run_bind, E4.
  destruct (run_coerce_numeric parse h4 r4 _ H4) as [h5 [E5 H5]].
  { unfold df_replace. cbn [index columns]. rewrite labels_map_fst by reflexivity.
    rewrite map_map.
    rewrite (map_ext _ fst binarize_column_fst). exact Hnd2. }
  rewrite run_bind, E5.
  exists r4, h5. split; [reflexivity|]. rewrite H5. f_equal.
  unfold cleaned, df_replace. cbn [index columns]. f_equal.
  apply clean_columns_compose.
Qed.

Lemma clean_data_text_target parse (h : heap) df t :
  h !! df = Some t -> target_numeric t = false ->
  exists h', run (clean_data parse df) h = (Raise TypeError, h').
Proof.
  intros H Hnum. unfold clean_data.
  rewrite run_bind, (run_copy _ _ _ H).
  destruct (run_drop_source (<[fresh (dom h) := t]> h) (fresh (dom h)) t)
    as [r2 [h2 [E2 H2]]]; [apply lookup_insert_eq|].
  rewrite run_bind, E2, run_bind.
  unfold binarize_target. rewrite run_bind, (run_get_columns _ _ _ H2).
  unfold target_numeric in Hnum.
  destruct (assoc "target" (columns t)) as [s|] eqn:Ea; [|discriminate].
  assert (Ea2 : assoc "target" (List.filter not_source (columns t)) = Some s).
  { rewrite assoc_filter_not_source by discriminate. exact Ea. }
  assert (Hlab : has_label "target"
            (labels (mkDF (index t) (List.filter not_source (columns t)))) = true).
  { apply has_label_In. unfold labels. cbn [columns].
    apply assoc_In in Ea2. apply (in_map fst) in Ea2. exact Ea2. }
  rewrite Hlab, run_bind, (run_getitem_col _ _ _ _ H2).
  unfold df_get. cbn [columns]. rewrite Ea2, run_bind. cbn [lift run].
  rewrite (series_gt_zero_text s Hnum). eexists. reflexivity.
Qed.

Lemma labels_cleaned parse t :
  labels (cleaned parse t) = index_drop "source" (labels t).
Proof.
  unfold labels, cleaned, index_drop. cbn [columns].
  induction (columns t) as [|[n s] cols IH]; [reflexivity|].
  cbn [map List.filter]. unfold not_source at 1. cbn [fst].
  destruct (String.eqb n "source"); cbn [negb map]; rewrite IH; [reflexivity|].
  f_equal. unfold clean_column. cbn [fst].
  destruct (String.eqb n "target"); reflexivity.
Qed.

Lemma clean_column_fst parse c : fst (clean_column parse c) = fst c.
Proof. unfold clean_column. destruct (String.eqb (fst c) "target"); reflexivity. Qed.

Lemma binary_of_binarize s : Forall2 binary_of s (map binarize s).
Proof.
  induction s as [|c s IH]; cbn [map]; constructor; [|exact IH].
  unfold binary_of. destruct c; reflexivity.
Qed.

Lemma count_binarize s :
  length (List.filter is_one (map binarize s)) = length (List.filter is_positive s).
Proof.
  induction s as [|c s IH]; [reflexivity|]. cbn [map List.filter].
  assert (E : is_one (binarize c) = is_positive c).
  { destruct c as [q| |]; cbn; [|reflexivity|reflexivity].
    destruct (Qlt_bool 0 q); reflexivity. }
  rewrite E. destruct (is_positive c); cbn [length]; rewrite IH; reflexivity.
Qed.

Lemma coerced_cell parse c :
  coerced parse c (to_numeric_cell parse (replace_cell c)).
Proof.
  unfold coerced. destruct c as [q|s|]; cbn.
  - destruct (Qeq_bool q (-9)); split; reflexivity.
  - destruct (String.eqb s "?"); cbn; [split; reflexivity|].
    destruct (parse s); split; reflexivity.
  - split; reflexivity.
Qed.

Lemma coerced_series parse s :
  Forall2 (coerced parse) s (map (fun c => to_numeric_cell parse (replace_cell c)) s).
Proof.
  induction s as [|c s IH]; cbn [map]; constructor; [apply coerced_cell | exact IH].
Qed.

Lemma is_unique_NoDup idx : is_unique idx = true -> List.NoDup idx.
Proof.
  induction idx as [|n idx IH]; cbn [is_unique]; intros H; constructor.
  - apply andb_true_iff in H as [H _]. intros Hin. apply has_label_In in Hin.
    rewrite Hin in H. discriminate.
  - apply andb_true_iff in H as [_ H]. exact (IH H).
Qed.

(** C4 (amended): on a table with distinct labels whose target column, if
    there is one, holds no text, [clean_data] returns a new table with the
    rows of its argument and its columns but the source column; the target
    holds 1 where the original value is greater than 0 and 0 elsewhere, so
    that as many cells hold 1 as were greater than 0; in every other column a
    sentinel ([-9] or ["?"]) becomes null, any other token is made numeric,
    and a token that denotes no number becomes null. *)
Theorem clean_data_spec (parse : string -> option Q) (h : heap) (df : loc)
    (t : DataFrame) :
  h !! df = Some t ->
  is_unique (labels t) = true ->
  target_numeric t = true ->
  exists r h' t',
    run (clean_data parse df) h = (Ok r, h') /\
    h' !! r = Some t' /\
    index t' = index t /\
    labels t' = index_drop "source" (labels t) /\
    (forall s, assoc "target" (columns t) = Some s ->
       exists s', assoc "target" (columns t') = Some s' /\
         Forall2 binary_of s s' /\
         length (List.filter is_one s') = length (List.filter is_positive s)) /\
    (forall n s, n <> "target" -> n <> "source" ->
       assoc n (columns t) = Some s ->
       exists s', assoc n (columns t') = Some s' /\ Forall2 (coerced parse) s s').
Proof.
  intros H Hnd Hnum. apply is_unique_NoDup in Hnd.
  destruct (clean_data_run parse h df t H Hnd Hnum) as [r [h' [Hrun Hres]]].
  exists r, h', (cleaned parse t).
  split; [exact Hrun|]. split; [exact Hres|]. split; [reflexivity|].
  split; [apply labels_cleaned|]. split.
  - intros s Hs. exists (map binarize s). split; [|split].
    + unfold cleaned. cbn [columns].
      rewrite (assoc_map_fst _ "target" _ s (clean_column_fst parse)).
      * reflexivity.
      * rewrite assoc_filter_not_source by discriminate. exact Hs.
    + apply binary_of_binarize.
    + apply count_binarize.
  - intros n s Hn1 Hn2 Hs.
    exists (map (fun c => to_numeric_cell parse (replace_cell c)) s). split.
    + unfold cleaned. cbn [columns].
      rewrite (assoc_map_fst _ n _ s (clean_column_fst parse)).
      * unfold clean_column. cbn [fst snd].
        apply String.eqb_neq in Hn1. rewrite Hn1. reflexivity.
      * rewrite assoc_filter_not_source by exact Hn2. exact Hs.
    + apply coerced_series.
Qed.

Lemma clean_data_spec_witness :
  ({[0%nat := raw_frame]} : heap) !! 0%nat = Some raw_frame /\
  is_unique (labels raw_frame) = true /\
  target_numeric raw_frame = true /\
  exists r h' t',
    run (clean_data no_parse 0%nat) {[0%nat := raw_frame]} = (Ok r, h') /\
    h' !! r = Some t' /\
    index t' = index raw_frame /\
    labels t' = index_drop "source" (labels raw_frame) /\
    (forall s, assoc "target" (columns raw_frame) = Some s ->
       exists s', assoc "target" (columns t') = Some s' /\
         Forall2 binary_of s s' /\
         length (List.filter is_one s') = length (List.filter is_positive s)) /\
    (forall n s, n <> "target" -> n <> "source" ->
       assoc n (columns raw_frame) = Some s ->
       exists s', assoc n (columns t') = Some s' /\ Forall2 (coerced no_parse) s s').
Proof.
  assert (H1 : ({[0%nat := raw_frame]} : heap) !! 0%nat = Some raw_frame)
    by (vm_compute; reflexivity).
  assert (H2 : is_unique (labels raw_frame) = true) by (vm_compute; reflexivity).
  assert (H3 : target_numeric raw_frame = true) by (vm_compute; reflexivity).
  repeat (split; [assumption|]).
  exact (clean_data_spec no_parse {[0%nat := raw_frame]} 0%nat raw_frame H1 H2 H3).
Defined.

(** The table of the cleaning test: the targets 0, 1, 2, 3 become 0, 1, 1, 1,
    and the argument is left as it was. *)
Example clean_data_raw_frame :
  exists r h',
    run (clean_data no_parse 0%nat) {[0%nat := raw_frame]} = (Ok r, h') /\
    h' !! r = Some (mkDF 4 [("age", [Num 63; NaN; NaN; NaN]);
                            ("target", [Num 0; Num 1; Num 1; Num 1])]) /\
    h' !! 0%nat = Some raw_frame.
Proof.
  remember (run (clean_data no_parse 0%nat) {[0%nat := raw_frame]}) as o eqn:E.
  vm_compute in E. subst o. eexists _, _. split; [reflexivity|].
  split; vm_compute; reflexivity.
Qed.

(** C4 as stated fails: a sentinel in the target column becomes 0, not null,
    and a text token in the target column makes [clean_data] raise. *)
Lemma clean_data_sentinel_target_counterexample :
  (exists r h',
     run (clean_data no_parse 0%nat) {[0%nat := sentinel_target_frame]} = (Ok r, h') /\
     exists t', h' !! r = Some t' /\
       assoc "target" (columns sentinel_target_frame) = Some [Num (-9)] /\
       sentinel (Num (-9)) = true /\
       assoc "target" (columns t') = Some [Num 0] /\
       Num 0 <> NaN) /\
  (exists h',
     run (clean_data no_parse 0%nat) {[0%nat := text_target_frame]}
     = (Raise TypeError, h')).
Proof.
  split.
  - remember (run (clean_data no_parse 0%nat) {[0%nat := sentinel_target_frame]})
      as o eqn:E.
    vm_compute in E. subst o. eexists _, _. split; [reflexivity|].
    eexists. split; [vm_compute; reflexivity|].
    repeat split; try (vm_compute; reflexivity). discriminate.
  - apply (clean_data_text_target no_parse _ 0%nat text_target_frame);
      vm_compute; reflexivity.
Qed.


(** ** The preprocessor *)

Lemma find_upsert n now c entries :
  List.find (fun f => String.eqb (fname f) n) (upsert n now c entries)
  = Some (mkFile n now c).
Proof.
  induction entries as [|f entries IH]; cbn [upsert List.find].
  - cbn [fname]. rewrite String.eqb_refl. reflexivity.
  - destruct (String.eqb (fname f) n) eqn:E; cbn [List.find fname].
    + rewrite String.eqb_refl. reflexivity.
    + rewrite E. exact IH.
Qed.

Lemma lookup_write_file p now c fs :
  lookup_file (write_file p now c fs) p = Some (mkFile (name p) now c).
Proof.
  unfold lookup_file, write_file. rewrite String.eqb_refl. apply find_upsert.
Qed.

Lemma open_read_write_file p now c fs :
  open_read (write_file p now c fs) p = Ok c.
Proof. unfold open_read. rewrite lookup_write_file. reflexivity. Qed.

Lemma load_save p filepath now fs :
  load (snd (run (save p filepath now) fs)) filepath = Ok p.
Proof.
  unfold save. cbn [run modify snd]. unfold load.
  rewrite open_read_write_file. destruct p as [s i b]. reflexivity.
Qed.

Lemma never_fitted_flag p : never_fitted p -> is_fitted p = false.
Proof.
  induction 1 as [|p filepath now fs p' Hp IH Hload]; [reflexivity|].
  rewrite load_save in Hload. injection Hload as <-. exact IH.
Qed.

(** C6: on a preprocessor on which [fit] was never called, [transform] raises
    the must-be-fitted error for every table, and returns no result. *)
Theorem transform_before_fit (p : HeartDiseasePreprocessor) (X : DataFrame) :
  never_fitted p ->
  transform p X = Raise (ValueError "Preprocessor must be fitted before transform!") /\
  forall X_scaled, transform p X <> Ok X_scaled.
Proof.
  intros Hp. apply never_fitted_flag in Hp.
  assert (E : transform p X = Raise not_fitted_error).
  { unfold transform. rewrite Hp. reflexivity. }
  split; [exact E|]. intros X_scaled. rewrite E. discriminate.
Qed.

Lemma transform_before_fit_witness :
  never_fitted Preprocessing.init /\
  (transform Preprocessing.init empty_frame
   = Raise (ValueError "Preprocessor must be fitted before transform!") /\
   forall X_scaled, transform Preprocessing.init empty_frame <> Ok X_scaled).
Proof.
  split; [exact never_fitted_init|].
  exact (transform_before_fit Preprocessing.init empty_frame never_fitted_init).
Defined.

(** C5: a preprocessor read back from the file it was saved to is the same
    preprocessor, so that loading it and transforming a table gives what the
    saved preprocessor gives for that table, entry by entry; the file holds
    exactly the scaler, the imputer and the fitted flag. *)
Theorem save_load_roundtrip (P : HeartDiseasePreprocessor) (filepath : Path)
    (now : Q) (fs : FileSystem) (X : DataFrame) :
  let fs' := snd (run (save P filepath now) fs) in
  open_read fs' filepath
  = Ok (Pickle (VDict [("scaler", VScaler (scaler P));
                       ("imputer", VImputer (imputer P));
                       ("is_fitted", VBool (is_fitted P))])) /\
  load fs' filepath = Ok P /\
  (load fs' filepath ≫= fun P' => transform P' X) = transform P X.
Proof.
  cbn zeta. split; [|split].
  - unfold save. cbn [run modify snd]. apply open_read_write_file.
  - apply load_save.
  - rewrite load_save. reflexivity.
Qed.

(** A fitted preprocessor, saved and read back, transforms as before. *)
Example save_load_fitted :
  let P := fitted_on train_frame in
  let fs' := snd (run (save P (mkPath "models" "preprocessor_1.pkl") 1) (on_models [])) in
  is_fitted P = true /\
  (load fs' (mkPath "models" "preprocessor_1.pkl") ≫= fun P' => transform P' test_frame)
  = Ok (mkMat 2 [[49 # 1; 0 # 1]; [0 # 1; (-1) # 1]]).
Proof. split; vm_compute; reflexivity. Qed.

Lemma length_impute_columns stats cols :
  forallb (fun o : option Q => match o with Some _ => true | None => false end) stats = true ->
  length stats = length cols ->
  length (impute_columns stats cols) = length cols.
Proof.
  revert cols. induction stats as [|[m|] stats IH]; intros [|s cols] Hall Hlen;
    cbn in *; try reflexivity; try discriminate.
  f_equal. apply IH; [exact Hall | congruence].
Qed.

Lemma length_scale_columns means scales cols :
  length means = length cols -> length scales = length cols ->
  length (scale_columns means scales cols) = length cols.
Proof.
  revert scales cols. induction means as [|m means IH];
    intros [|s scales] [|c cols] H1 H2; cbn in *; try reflexivity; try discriminate.
  f_equal. apply IH; congruence.
Qed.

Lemma statistics_all_observed median cols :
  forallb (fun c : string * Series => existsb is_num (snd c)) cols = true ->
  forallb (fun o : option Q => match o with Some _ => true | None => false end)
    (map (column_statistic median) (map snd cols)) = true.
Proof.
  induction cols as [|[n s] cols IH]; cbn [forallb map snd]; [reflexivity|].
  intros H. apply andb_true_iff in H as [Hs Hcols]. rewrite (IH Hcols), andb_true_r.
  unfold column_statistic.
  assert (Hobs : observed s <> []).
  { clear -Hs. induction s as [|c s IH]; cbn in Hs; [discriminate|].
    destruct c as [q| |]; cbn in *; try exact (IH Hs). discriminate. }
  destruct (observed s); [contradiction | reflexivity].
Qed.

Lemma check_array_ok df :
  check_array df = Ok tt ->
  numeric_frame df = true /\ (0 < index df)%nat /\ (0 < length (columns df))%nat.
Proof.
  unfold check_array. destruct (numeric_frame df); cbn [negb]; [|discriminate].
  destruct (Nat.eqb_spec (index df) 0); [discriminate|].
  destruct (Nat.eqb_spec (length (columns df)) 0); [discriminate|].
  intros _. repeat split; lia.
Qed.

Lemma check_array_intro df :
  numeric_frame df = true -> (0 < index df)%nat -> (0 < length (columns df))%nat ->
  check_array df = Ok tt.
Proof.
  intros H1 H2 H3. unfold check_array. rewrite H1. cbn [negb].
  destruct (Nat.eqb_spec (index df) 0); [lia|].
  destruct (Nat.eqb_spec (length (columns df)) 0); [lia|]. reflexivity.
Qed.

(** What a successful [fit] leaves in the preprocessor. *)
Lemma fit_ok median mean scale X0 p0 p :
  run (fit median mean scale X0) p0 = (Ok tt, p) ->
  check_array X0 = Ok tt /\
  is_fitted p = true /\
  imputer p = mkImputer (Some (map (column_statistic median) (map snd (columns X0)))) /\
  exists means scales,
    scaler p = mkScaler (Some (means, scales)) /\
    length means = length (impute_columns
                             (map (column_statistic median) (map snd (columns X0)))
                             (map snd (columns X0))) /\
    length scales = length means.
Proof.
  unfold fit. run_step.
  unfold imputer_fit_transform.
  destruct (check_array X0) as [[]|e] eqn:Ec; cbn [mbind result_bind]; [|discriminate].
  unfold imputer_transform. cbn [statistics_]. rewrite Ec. cbn [mbind result_bind].
  rewrite !length_map, Nat.eqb_refl. cbn [mbind result_bind mret result_ret].
  rewrite !run_bind. cbn [modify run fst snd lift].
  unfold scaler_fit.
  destruct (check_matrix _) as [[]|e] eqn:Em; cbn [mbind result_bind mret result_ret];
    [|discriminate].
  cbn [m_cols]. intros [= <-]. split; [reflexivity|]. split; [reflexivity|].
  split; [reflexivity|]. eexists _, _. split; [reflexivity|].
  rewrite !length_map. split; reflexivity.
Qed.

Lemma transform_fitted (median mean scale : list Q -> Q)
    (X0 : DataFrame) (p0 p : HeartDiseasePreprocessor) (X : DataFrame) :
  run (fit median mean scale X0) p0 = (Ok tt, p) ->
  all_observed X0 = true ->
  numeric_frame X = true ->
  (0 < index X)%nat ->
  labels X = labels X0 ->
  exists X_imputed X_scaled,
    imputer_transform (imputer p) X = Ok X_imputed /\
    scaler_transform (scaler p) X_imputed = Ok X_scaled /\
    transform p X = Ok X_scaled /\
    m_shape X_scaled = shape X.
Proof.
  intros Hfit Hobs Hnum Hrows Hlabels.
  assert (Hcols : length (columns X) = length (columns X0)).
  { unfold labels in Hlabels. apply (f_equal (@length string)) in Hlabels.
    rewrite !length_map in Hlabels. exact Hlabels. }
  destruct (fit_ok _ _ _ _ _ _ Hfit)
    as [Hc0 [Hfitted [Himp [means [scales [Hsc [Hlm Hls]]]]]]].
  apply check_array_ok in Hc0 as [_ [_ Hc0]].
  pose proof (statistics_all_observed median _ Hobs) as Hall.
  set (stats := map (column_statistic median) (map snd (columns X0))) in *.
  assert (Hlen0 : length stats = length (columns X0)).
  { unfold stats. rewrite !length_map. reflexivity. }
  assert (Hl0 : length (impute_columns stats (map snd (columns X0)))
                = length (columns X0)).
  { rewrite length_impute_columns; rewrite ?length_map; try assumption; congruence. }
  rewrite Hl0 in Hlm.
  assert (Hi : imputer_transform (imputer p) X
               = Ok (mkMat (index X) (impute_columns stats (map snd (columns X))))).
  { unfold imputer_transform. rewrite Himp. cbn [statistics_].
    rewrite check_array_intro by (try assumption; lia).
    cbn [mbind result_bind]. rewrite Hlen0, Hcols, Nat.eqb_refl. reflexivity. }
  assert (Hli : length (impute_columns stats (map snd (columns X)))
                = length (columns X)).
  { rewrite length_impute_columns; rewrite ?length_map; try assumption; congruence. }
  assert (Hs : scaler_transform (scaler p)
                 (mkMat (index X) (impute_columns stats (map snd (columns X))))
               = Ok (mkMat (index X)
                       (scale_columns means scales
                          (impute_columns stats (map snd (columns X)))))).
  { unfold scaler_transform. rewrite Hsc. cbn [params_].
    unfold check_matrix. cbn [m_rows m_cols]. rewrite Hli.
    destruct (Nat.eqb_spec (index X) 0); [lia|].
    destruct (Nat.eqb_spec (length (columns X)) 0); [lia|].
    cbn [mbind result_bind]. rewrite Hlm, Hcols, Nat.eqb_refl. reflexivity. }
  eexists _, _. split; [exact Hi|]. split; [exact Hs|]. split.
  - unfold transform. rewrite Hfitted. cbn [negb]. rewrite Hi. cbn [mbind result_bind].
    rewrite Hs. reflexivity.
  - unfold m_shape, shape. cbn [m_rows m_cols]. f_equal.
    rewrite length_scale_columns; congruence.
Qed.

(** C8 (amended): after a successful [fit] on a table in which every column
    holds a value, [transform] of a numeric table with at least one row and
    the columns of the fitted one applies the imputation, then the scaling,
    and returns a matrix of the shape of its input. *)
Theorem transform_shape (median mean scale : list Q -> Q)
    (X0 : DataFrame) (p0 p : HeartDiseasePreprocessor) (X : DataFrame) :
  run (fit median mean scale X0) p0 = (Ok tt, p) ->
  all_observed X0 = true ->
  numeric_frame X = true ->
  (0 < index X)%nat ->
  labels X = labels X0 ->
  exists X_imputed X_scaled,
    imputer_transform (imputer p) X = Ok X_imputed /\
    scaler_transform (scaler p) X_imputed = Ok X_scaled /\
    transform p X = Ok X_scaled /\
    m_shape X_scaled = shape X.
Proof. exact (transform_fitted median mean scale X0 p0 p X). Qed.

Lemma transform_shape_witness :
  run (fit unit_kernel unit_kernel unit_kernel train_frame) Preprocessing.init
    = (Ok tt, fitted_on train_frame) /\
  all_observed train_frame = true /\
  numeric_frame test_frame = true /\
  (0 < index test_frame)%nat /\
  labels test_frame = labels train_frame /\
  exists X_imputed X_scaled,
    imputer_transform (imputer (fitted_on train_frame)) test_frame = Ok X_imputed /\
    scaler_transform (scaler (fitted_on train_frame)) X_imputed = Ok X_scaled /\
    transform (fitted_on train_frame) test_frame = Ok X_scaled /\
    m_shape X_scaled = shape test_frame.
Proof.
  assert (H1 : run (fit unit_kernel unit_kernel unit_kernel train_frame)
                 Preprocessing.init = (Ok tt, fitted_on train_frame))
    by (vm_compute; reflexivity).
  assert (H2 : all_observed train_frame = true) by reflexivity.
  assert (H3 : numeric_frame test_frame = true) by reflexivity.
  assert (H4 : (0 < index test_frame)%nat) by (cbn; lia).
  assert (H5 : labels test_frame = labels train_frame) by reflexivity.
  repeat (split; [assumption|]).
  exact (transform_shape unit_kernel unit_kernel unit_kernel train_frame
           Preprocessing.init (fitted_on train_frame) test_frame H1 H2 H3 H4 H5).
Defined.

(** C8 as stated fails: a table with another number of columns than the
    fitted one is refused, a table without rows is refused, and a column that
    held no value at fit time is left out of the result. *)
Lemma transform_shape_counterexample :
  run (fit unit_kernel unit_kernel unit_kernel train_frame) Preprocessing.init
    = (Ok tt, fitted_on train_frame) /\
  transform (fitted_on train_frame) narrow_frame
    = Raise (ValueError "number of features differs from fit") /\
  transform (fitted_on train_frame) rowless_frame
    = Raise (ValueError "0 sample(s)") /\
  run (fit unit_kernel unit_kernel unit_kernel hollow_frame) Preprocessing.init
    = (Ok tt, fitted_on hollow_frame) /\
  exists X_scaled,
    transform (fitted_on hollow_frame) hollow_frame = Ok X_scaled /\
    shape hollow_frame = (2%nat, 2%nat) /\
    m_shape X_scaled = (2%nat, 1%nat).
Proof.
  repeat (split; [vm_compute; reflexivity|]).
  eexists. split; [vm_compute; reflexivity|]. split; reflexivity.
Qed.


(** ** The model loader *)

Lemma Qlt_bool_true a b : Qlt_bool a b = true -> (a < b)%Q.
Proof.
  unfold Qlt_bool. intros H. apply negb_true_iff in H.
  apply Qnot_le_lt. intros Hle. apply Qle_bool_iff in Hle. congruence.
Qed.

Lemma Qlt_bool_false a b : Qlt_bool a b = false -> (b <= a)%Q.
Proof.
  unfold Qlt_bool. intros H. apply negb_false_iff in H.
  apply Qle_bool_iff. exact H.
Qed.

Lemma max_from_first_greatest {A} (key : A -> Q) (l : list A) :
  forall best, first_greatest key (best :: l) (max_from key best l).
Proof.
  induction l as [|x l IH]; intros best; cbn [max_from].
  - exists [], []. split; [reflexivity|]. split; intros ? [].
  - destruct (Qlt_bool (key best) (key x)) eqn:E.
    + apply Qlt_bool_true in E.
      pose proof (IH x) as IHx. remember (max_from key x l) as m eqn:Hm. clear Hm.
      destruct IHx as [l1 [l2 [Heq [H1 H2]]]].
      exists (best :: l1), l2. split; [cbn; rewrite Heq; reflexivity|].
      split; [|exact H2]. intros y [<-|Hy]; [|exact (H1 y Hy)].
      destruct l1 as [|z l1]; cbn in Heq; injection Heq as Hz Hrest.
      * rewrite <- Hz. exact E.
      * subst z. eapply Qlt_trans; [exact E|]. apply H1. left. reflexivity.
    + apply Qlt_bool_false in E.
      pose proof (IH best) as IHb. remember (max_from key best l) as m eqn:Hm. clear Hm.
      destruct IHb as [l1 [l2 [Heq [H1 H2]]]].
      destruct l1 as [|z l1]; cbn in Heq; injection Heq as Hz Hrest.
      * exists [], (x :: l2). split; [cbn; rewrite <- Hz, Hrest; reflexivity|].
        split; [intros ? []|]. intros y [<-|Hy]; [|exact (H2 y Hy)].
        rewrite <- Hz. exact E.
      * subst z. exists (best :: x :: l1), l2.
        split; [cbn; rewrite Hrest; reflexivity|]. split; [|exact H2].
        intros y [<-|[<-|Hy]].
        -- apply H1. left. reflexivity.
        -- eapply Qle_lt_trans; [exact E|]. apply H1. left. reflexivity.
        -- apply H1. right. exact Hy.
Qed.

Lemma max_by_first_greatest {A} (key : A -> Q) (l : list A) m :
  max_by key l = Ok m -> first_greatest key l m.
Proof.
  destruct l as [|x l]; cbn [max_by]; [discriminate|].
  intros [= <-]. apply max_from_first_greatest.
Qed.

Lemma max_by_nonempty {A} (key : A -> Q) (l : list A) :
  l <> [] -> exists m, max_by key l = Ok m.
Proof. destruct l as [|x l]; [congruence|]. intros _. eexists. reflexivity. Qed.

Lemma first_greatest_ge {A} (key : A -> Q) (l : list A) m :
  first_greatest key l m -> In m l /\ forall x, In x l -> (key x <= key m)%Q.
Proof.
  intros [l1 [l2 [-> [H1 H2]]]]. split.
  - apply in_or_app. right. left. reflexivity.
  - intros x Hx. apply in_app_or in Hx as [Hx|[<-|Hx]].
    + apply Qlt_le_weak, H1, Hx.
    + apply Qle_refl.
    + apply H2, Hx.
Qed.

Lemma getitem_In {A} (l : list A) i x : getitem l i = Ok x -> In x l.
Proof.
  unfold getitem. destruct (nth_error l i) eqn:E; [|discriminate].
  intros [= <-]. eapply nth_error_In. exact E.
Qed.

(** C10: in every result of [predict_single] the confidence is at least the
    probability, and the label text is a function of the label. *)
Theorem predict_single_confidence (self : ModelLoader) (kwargs : gmap string cell)
    (r : Prediction) :
  predict_single self kwargs = Ok r ->
  (probability r <= confidence r)%Q /\
  prediction_label r
  = (if (prediction r =? 1)%Z then "Disease Present" else "No Disease").
Proof.
  unfold predict_single.
  destruct (predict self _ false) as [labels|e]; cbn [mbind result_bind]; [|discriminate].
  destruct (getitem labels 0) as [y|e]; cbn [mbind result_bind]; [|discriminate].
  destruct (predict self _ true) as [probas|e]; cbn [mbind result_bind]; [|discriminate].
  destruct (getitem probas 0) as [pr|e]; cbn [mbind result_bind]; [|discriminate].
  destruct (getitem pr 1) as [p1|e] eqn:E1; cbn [mbind result_bind]; [|discriminate].
  destruct (max_by (fun p => p) pr) as [pmax|e] eqn:Em; cbn [mbind result_bind];
    [|discriminate].
  intros [= <-]. cbn [probability confidence prediction prediction_label].
  split; [|reflexivity].
  apply max_by_first_greatest, first_greatest_ge in Em as [_ Hmax].
  apply (Hmax p1). eapply getitem_In. exact E1.
Qed.

(** The example of the specification, without its [thal] field. *)
Example predict_single_sample :
  predict_single bound_loader sample_kwargs
  = Ok (mkPrediction 1 "Disease Present" (7 # 10) (7 # 10)).
Proof. vm_compute. reflexivity. Qed.

Lemma predict_single_confidence_witness :
  predict_single bound_loader sample_kwargs
    = Ok (mkPrediction 1 "Disease Present" (7 # 10) (7 # 10)) /\
  ((7 # 10 <= 7 # 10)%Q /\
   "Disease Present" = (if (1 =? 1)%Z then "Disease Present" else "No Disease")).
Proof.
  split; [vm_compute; reflexivity|].
  apply (predict_single_confidence bound_loader sample_kwargs
           (mkPrediction 1 "Disease Present" (7 # 10) (7 # 10))).
  vm_compute. reflexivity.
Defined.

Lemma predict_unbound self X return_proba :
  model self = VNone \/ preprocessor self = None ->
  predict self X return_proba = Raise unbound_error.
Proof.
  unfold predict. intros [H|H]; rewrite H.
  - reflexivity.
  - destruct (model self); reflexivity.
Qed.

Lemma sample_of_get kwargs name :
  In name get_feature_names ->
  df_get name (sample_of kwargs) = Ok [default NaN (kwargs !! name)].
Proof.
  unfold df_get, sample_of. cbn [columns].
  induction get_feature_names as [|n names IH]; [intros []|].
  cbn [map assoc]. destruct (String.eqb n name) eqn:E.
  - apply String.eqb_eq in E. subst n. reflexivity.
  - intros [->|Hin]; [rewrite String.eqb_refl in E; discriminate|]. exact (IH Hin).
Qed.

Lemma length_one {A} (l : list A) : length l = 1%nat -> exists x, l = [x].
Proof. destruct l as [|x [|y l]]; try discriminate. intros _. exists x. reflexivity. Qed.

(** C7: [predict_single] fails with the unbound error when the model or the
    preprocessor is missing.  It builds a table of one row over the thirteen
    fields, with null for an absent field.  On a loader bound to a binary
    classifier over thirteen features and to a preprocessor fitted on a
    table of the thirteen fields, it returns for every mapping to numbers or
    nulls, whichever fields are absent:
    the label the model predicts, which is 0 or 1; "Disease Present" for 1
    and "No Disease" otherwise; as probability the second entry of the
    model's probabilities; as confidence their maximum. *)
Theorem predict_single_spec (kwargs : gmap string cell) :
  (forall self,
     model self = VNone \/ preprocessor self = None ->
     predict_single self kwargs
     = Raise (ValueError "Model and preprocessor must be loaded first!")) /\
  (shape (sample_of kwargs) = (1%nat, 13%nat) /\
   labels (sample_of kwargs) = get_feature_names /\
   forall name, In name get_feature_names ->
     df_get name (sample_of kwargs) = Ok [default NaN (kwargs !! name)]) /\
  (forall self c p median mean scale X0 p0,
     model self = VClassifier c ->
     preprocessor self = Some p ->
     run (fit median mean scale X0) p0 = (Ok tt, p) ->
     all_observed X0 = true ->
     labels X0 = get_feature_names ->
     binary_classifier c 13 ->
     numeric_frame (sample_of kwargs) = true ->
     exists X_scaled y pr r,
       transform p (sample_of kwargs) = Ok X_scaled /\
       clf_predict c X_scaled = Ok [y] /\
       clf_predict_proba c X_scaled = Ok [pr] /\
       predict_single self kwargs = Ok r /\
       prediction r = y /\
       (y = 0 \/ y = 1)%Z /\
       prediction_label r
         = (if (y =? 1)%Z then "Disease Present" else "No Disease") /\
       getitem pr 1 = Ok (probability r) /\
       first_greatest (fun q => q) pr (confidence r)).
Proof.
  split; [|split].
  - intros self H. unfold predict_single.
    rewrite (predict_unbound self _ false H). reflexivity.
  - split; [reflexivity|]. split; [reflexivity|]. apply sample_of_get.
  - intros self c p median mean scale X0 p0 Hm Hp Hfit Hobs H13 Hbin Hnum.
    destruct (transform_fitted median mean scale X0 p0 p (sample_of kwargs)
                Hfit Hobs Hnum) as [Xi [Xs [_ [_ [Ht Hshape]]]]].
    { cbn. lia. }
    { rewrite H13. reflexivity. }
    unfold m_shape, shape in Hshape. injection Hshape as Hrows Hcols.
    cbn in Hrows, Hcols.
    destruct (Hbin Xs Hcols) as [ys [ps [Hys [Hps [Hly [Hlp [Hbinary Hpairs]]]]]]];
      [lia|].
    rewrite Hrows in Hly, Hlp.
    apply length_one in Hly as [y ->]. apply length_one in Hlp as [pr ->].
    apply Forall_inv in Hbinary, Hpairs.
    destruct pr as [|q0 [|q1 [|q2 pr]]]; try discriminate.
    exists Xs, y, [q0; q1].
    assert (Hpl : predict self (XFrame (sample_of kwargs)) false = Ok [y]).
    { unfold predict. rewrite Hm, Hp. cbn [as_frame]. rewrite Ht. exact Hys. }
    assert (Hpp : predict self (XFrame (sample_of kwargs)) true = Ok [[q0; q1]]).
    { unfold predict. rewrite Hm, Hp. cbn [as_frame]. rewrite Ht. exact Hps. }
    unfold predict_single. rewrite Hpl, Hpp.
    cbn [mbind result_bind getitem nth_error mret result_ret].
    eexists. split; [exact Ht|]. split; [exact Hys|]. split; [exact Hps|].
    split; [reflexivity|]. cbn [prediction prediction_label probability confidence].
    split; [reflexivity|]. split; [exact Hbinary|]. split; [reflexivity|].
    split; [reflexivity|].
    apply (max_from_first_greatest (fun q : Q => q) [q1] q0).
Qed.

(** [load_model_from], step by step. *)
Lemma run_load_model_from fs model_path self :
  run (load_model_from fs model_path) self =
  if negb (path_exists fs model_path)
  then (Raise (FileNotFoundError ("Model file not found: " +:+ path_str model_path)),
        self)
  else
    match open_read fs model_path ≫= pickle_load with
    | Raise e => (Raise e, self)
    | Ok m =>
        let self1 := set_model m self in
        let preprocessor_files := glob fs (model_dir self) "preprocessor_*.pkl" in
        if is_empty preprocessor_files
        then (Raise (FileNotFoundError ("No preprocessor found in " +:+ model_dir self)),
              self1)
        else
          match getitem_last (split "_" (stem model_path)) ≫=
                (fun token => matching_preprocessor token preprocessor_files) with
          | Raise e => (Raise e, self1)
          | Ok pp_file =>
              match load fs (entry_path (model_dir self) pp_file) with
              | Raise e => (Raise e, self1)
              | Ok p => run (load_model_info fs) (set_preprocessor p self1)
              end
          end
    end.
Proof.
  unfold load_model_from. destruct (negb (path_exists fs model_path)); [reflexivity|].
  run_step.
  destruct (open_read fs model_path) as [c|e]; cbn [mbind result_bind]; [|reflexivity].
  run_step.
  destruct (pickle_load c) as [m|e]; [|reflexivity].
  rewrite run_bind. cbn [modify run]. rewrite run_bind. cbn [get run].
  cbn [set_model model_dir].
  destruct (is_empty _); [reflexivity|].
  run_step.
  destruct (getitem_last _) as [token|e]; cbn [mbind result_bind]; [|reflexivity].
  run_step.
  destruct (matching_preprocessor _ _) as [pp|e]; [|reflexivity].
  run_step.
  destruct (load _ _) as [p|e]; [|reflexivity].
  rewrite run_bind. reflexivity.
Qed.

Lemma run_load_latest_model fs self :
  run (load_latest_model fs) self =
  let model_files := glob fs (model_dir self) (model_name self +:+ "_*.pkl") in
  match max_by st_mtime model_files with
  | Raise _ =>
      (Raise (FileNotFoundError
                ("No " +:+ model_name self +:+ " model found in " +:+ model_dir self)),
       self)
  | Ok latest_model =>
      run (load_model_from fs (entry_path (model_dir self) latest_model)) self
  end.
Proof.
  unfold load_latest_model. rewrite run_bind. cbn [get run].
  destruct (glob fs (model_dir self) (model_name self +:+ "_*.pkl")) as [|f files];
    cbn [is_empty max_by]; [reflexivity|].
  rewrite run_bind. reflexivity.
Qed.

Lemma normalize_no_space s : rfind " " (normalize s) = None.
Proof.
  unfold normalize, replace. induction (lower s) as [|c t IH]; [reflexivity|].
  cbn [str_map rfind]. rewrite IH.
  destruct (Ascii.eqb c " ") eqn:E; [reflexivity|]. rewrite E. reflexivity.
Qed.

Lemma lower_normalize_ascii c :
  lower_ascii (if Ascii.eqb (lower_ascii c) " " then "_"%char else lower_ascii c)
  = (if Ascii.eqb (lower_ascii c) " " then "_"%char else lower_ascii c).
Proof. destruct c as [[] [] [] [] [] [] [] []]; vm_compute; reflexivity. Qed.

Lemma lower_normalize s : lower (normalize s) = normalize s.
Proof.
  unfold normalize, replace, lower. induction s as [|c s IH]; [reflexivity|].
  cbn [str_map]. rewrite IH, lower_normalize_ascii. reflexivity.
Qed.

(** C2 (amended): the kind is put in lower case with underscores for
    spaces (for a kind of ASCII text), and the model files are those
    matching ["{kind}_*.pkl"].  When that pattern is one path component,
    with no path separator and no doubled star: without such a file
    [load_latest_model] fails with a not-found error that names the kind and
    the directory; otherwise it loads the most recently modified one, the
    first such in scan order, whatever the timestamps in the names. *)
Theorem load_latest_model_spec (fs : FileSystem) (self : ModelLoader) :
  let pattern := model_name self +:+ "_*.pkl" in
  let model_files := glob fs (model_dir self) pattern in
  (forall kind dir,
     is_ascii kind = true ->
     model_name (LoadModel.init kind dir) = replace " " "_" (lower kind) /\
     rfind " " (model_name (LoadModel.init kind dir)) = None /\
     lower (model_name (LoadModel.init kind dir)) = model_name (LoadModel.init kind dir)) /\
  (one_component pattern = true ->
   (model_files = [] ->
    run (load_latest_model fs) self
    = (Raise (FileNotFoundError
                ("No " +:+ model_name self +:+ " model found in " +:+ model_dir self)),
       self)) /\
   (model_files <> [] ->
    exists latest,
      first_greatest st_mtime model_files latest /\
      run (load_latest_model fs) self
      = run (load_model fs (Some (entry_path (model_dir self) latest))) self)).
Proof.
  cbn zeta. split; [|intros _; split].
  - intros kind dir _. split; [reflexivity|]. cbn [LoadModel.init model_name].
    split; [apply normalize_no_space | apply lower_normalize].
  - intros Hnil. rewrite run_load_latest_model. cbn zeta. rewrite Hnil. reflexivity.
  - intros Hne. destruct (max_by_nonempty st_mtime _ Hne) as [latest Hmax].
    exists latest. split; [apply max_by_first_greatest; exact Hmax|].
    rewrite run_load_latest_model. cbn zeta. rewrite Hmax. reflexivity.
Qed.

Lemma split_last sep s :
  exists token,
    last (split sep s) = Some token /\
    rfind sep token = None /\
    ((split sep s = [token] /\ s = token) \/
     (exists before, s = before +:+ String sep token) /\
     (2 <= length (split sep s))%nat).
Proof.
  induction s as [|c s IH].
  - exists EmptyString. cbn. auto.
  - destruct IH as [token [Hlast [Hrf Hcase]]]. cbn [split].
    destruct (Ascii.eqb c sep) eqn:Ec.
    + apply Ascii.eqb_eq in Ec. subst c. exists token.
      split; [|split; [exact Hrf|right; split]].
      * destruct (split sep s) as [|w ws]; [discriminate|]. exact Hlast.
      * destruct Hcase as [[_ ->]|[[before ->] _]].
        -- exists EmptyString. reflexivity.
        -- exists (String sep before). reflexivity.
      * destruct (split sep s); [discriminate|]. cbn. lia.
    + destruct Hcase as [[Hs ->]|[[before ->] Hlen]].
      * rewrite Hs. exists (String c token). split; [reflexivity|]. split.
        -- cbn [rfind]. rewrite Hrf, Ec. reflexivity.
        -- left. split; reflexivity.
      * destruct (split sep _) as [|w [|w' ws]]; cbn in Hlen; try lia.
        exists token. split; [exact Hlast|]. split; [exact Hrf|].
        right. split; [|cbn; lia]. exists (String c before). reflexivity.
Qed.

Lemma getitem_last_split sep s :
  exists token, getitem_last (split sep s) = Ok token /\ after_last sep s token.
Proof.
  destruct (split_last sep s) as [token [Hlast [Hrf Hcase]]].
  exists token. unfold getitem_last, after_last. rewrite Hlast.
  split; [reflexivity|]. split; [exact Hrf|].
  destruct Hcase as [[_ ->]|[H _]]; [left; reflexivity | right; exact H].
Qed.

Lemma find_first_such {A} (p : A -> bool) (l : list A) x :
  List.find p l = Some x -> first_such p l x.
Proof.
  induction l as [|y l IH]; cbn [List.find]; [discriminate|].
  destruct (p y) eqn:Ey.
  - intros [= <-]. exists [], l. split; [reflexivity|]. split; [exact Ey|]. intros ? [].
  - intros H. destruct (IH H) as [l1 [l2 [-> [Hx Hl1]]]].
    exists (y :: l1), l2. split; [reflexivity|]. split; [exact Hx|].
    intros z [<-|Hz]; [exact Ey | exact (Hl1 z Hz)].
Qed.

Lemma matching_preprocessor_paired token files :
  files <> [] ->
  exists pp_file,
    matching_preprocessor token files = Ok pp_file /\ paired token files pp_file.
Proof.
  intros Hne. unfold matching_preprocessor, paired.
  destruct (List.find _ files) as [pp|] eqn:Ef.
  - exists pp. split; [reflexivity|]. left. apply find_first_such. exact Ef.
  - destruct (max_by_nonempty st_mtime files Hne) as [pp Hmax].
    exists pp. split; [exact Hmax|]. right. split.
    + intros f Hf. exact (find_none _ _ Ef f Hf).
    + apply max_by_first_greatest. exact Hmax.
Qed.

(** The metrics step touches neither the model nor the preprocessor. *)
Lemma load_model_info_frame fs self res self' :
  run (load_model_info fs) self = (res, self') ->
  model self' = model self /\
  preprocessor self' = preprocessor self /\
  model_dir self' = model_dir self /\
  model_name self' = model_name self.
Proof.
  unfold load_model_info. rewrite run_bind. cbn [get run].
  destruct (is_empty _); [intros [= _ <-]; auto|].
  run_step.
  destruct (max_by _ _) as [latest|e]; [|intros [= _ <-]; auto].
  run_step.
  destruct (open_read _ _) as [c|e]; [|intros [= _ <-]; auto].
  run_step.
  destruct (json_load c) as [summary|e]; [|intros [= _ <-]; auto].
  run_step.
  destruct (py_get _ _ _) as [models|e]; [|intros [= _ <-]; auto].
  run_step.
  destruct (py_iter _) as [keys|e]; [|intros [= _ <-]; auto].
  run_step.
  destruct (find_model_info _ _ _) as [[i|]|e]; intros [= _ <-]; auto.
Qed.

(** C1 (amended): for a model path that exists and holds a pickle, the
    preprocessor files are those matching ["preprocessor_*.pkl"].  Without
    such a file [load_model] fails, with the model already bound.  Otherwise
    the token is the text after the last underscore of the model's stem, and
    the preprocessor bound is read from the first file whose stem contains
    the token or, if no stem contains it, from the most recently modified
    file. *)
Theorem load_model_pairing (fs : FileSystem) (self : ModelLoader)
    (model_path : Path) (m : pyval) :
  path_exists fs model_path = true ->
  open_read fs model_path ≫= pickle_load = Ok m ->
  let preprocessor_files := glob fs (model_dir self) "preprocessor_*.pkl" in
  (preprocessor_files = [] ->
   run (load_model fs (Some model_path)) self
   = (Raise (FileNotFoundError ("No preprocessor found in " +:+ model_dir self)),
      set_model m self)) /\
  (preprocessor_files <> [] ->
   exists token pp_file,
     after_last "_" (stem model_path) token /\
     paired token preprocessor_files pp_file /\
     (forall p, load fs (entry_path (model_dir self) pp_file) = Ok p ->
        exists res self',
          run (load_model fs (Some model_path)) self = (res, self') /\
          model self' = m /\ preprocessor self' = Some p) /\
     (forall e, load fs (entry_path (model_dir self) pp_file) = Raise e ->
        run (load_model fs (Some model_path)) self = (Raise e, set_model m self))).
Proof.
  intros Hex Hm. cbn zeta. cbn [load_model]. rewrite run_load_model_from.
  rewrite Hex, Hm. cbn [negb]. cbn zeta. split.
  - intros ->. reflexivity.
  - intros Hne.
    destruct (getitem_last_split "_" (stem model_path)) as [token [Htok Hafter]].
    destruct (matching_preprocessor_paired token _ Hne) as [pp [Hpp Hpaired]].
    exists token, pp. split; [exact Hafter|]. split; [exact Hpaired|].
    assert (Hemp : is_empty (glob fs (model_dir self) "preprocessor_*.pkl") = false).
    { destruct (glob fs (model_dir self) "preprocessor_*.pkl"); [congruence|reflexivity]. }
    rewrite Hemp, Htok. cbn [mbind result_bind]. rewrite Hpp. split.
    + intros p Hp. rewrite Hp.
      destruct (run (load_model_info fs) (set_preprocessor p (set_model m self)))
        as [res self'] eqn:Erun.
      exists res, self'. split; [reflexivity|].
      apply load_model_info_frame in Erun as [H1 [H2 _]]. split; assumption.
    + intros e He. rewrite He. reflexivity.
Qed.

Lemma dict_lookup_app_fresh k pre post :
  (forall kv, In kv pre -> fst kv <> k) ->
  dict_lookup k (pre ++ post) = dict_lookup k post.
Proof.
  intros H. induction pre as [|[a v] pre IH]; [reflexivity|].
  cbn [app dict_lookup]. destruct (String.eqb a k) eqn:E.
  - apply String.eqb_eq in E. exfalso. apply (H (a, v)); [left; reflexivity | exact E].
  - apply IH. intros kv Hkv. apply H. right. exact Hkv.
Qed.

Lemma find_model_info_entries kind d entries :
  dict_lookup "models" d = Some (VDict entries) ->
  forall pre post,
    entries = (pre ++ post)%list ->
    (forall kv, In kv pre -> names_kind kind kv = false) ->
    find_model_info kind (VDict d) (map (fun kv => VStr (fst kv)) post)
    = Ok (option_map snd (List.find (names_kind kind) post)).
Proof.
  intros Hd pre post. revert pre.
  induction post as [|[k v] post IH]; intros pre Heq Hpre; [reflexivity|].
  cbn [map find_model_info List.find fst].
  replace (names_kind kind (k, v)) with (contains kind (normalize k)) by reflexivity.
  destruct (contains kind (normalize k)) eqn:Ek.
  - cbn [py_getitem]. rewrite Hd. cbn [mbind result_bind py_getitem].
    rewrite Heq, dict_lookup_app_fresh.
    + cbn [dict_lookup]. rewrite String.eqb_refl. reflexivity.
    + intros [a w] Hin Ha. cbn [fst] in Ha. subst a.
      specialize (Hpre _ Hin). unfold names_kind in Hpre. cbn [fst] in Hpre. congruence.
  - apply (IH (pre ++ [(k, v)])%list).
    + rewrite <- app_assoc. exact Heq.
    + intros kv Hin. apply in_app_or in Hin as [Hin|[<-|[]]]; [exact (Hpre _ Hin)|].
      exact Ek.
Qed.

Lemma run_load_model_info fs self latest summary entries :
  max_by st_mtime (glob fs (model_dir self) "training_summary_*.json") = Ok latest ->
  open_read fs (entry_path (model_dir self) latest) = Ok (Json summary) ->
  summary_models summary = Some entries ->
  run (load_model_info fs) self = (Ok tt, with_metrics self entries).
Proof.
  intros Hmax Hopen Hsum. unfold load_model_info. rewrite run_bind. cbn [get run].
  destruct (glob fs (model_dir self) "training_summary_*.json") as [|f files] eqn:Eg;
    [discriminate|].
  cbn [is_empty]. run_step. rewrite Hmax.
  run_step. rewrite Hopen.
  rewrite run_bind. cbn [lift run json_load].
  destruct summary as [| | | | |d| | |]; try discriminate.
  rewrite run_bind. cbn [lift run py_get]. cbn [summary_models] in Hsum.
  unfold with_metrics.
  destruct (dict_lookup "models" d) as [ms|] eqn:Ed.
  - destruct ms as [| | | | |ms| | |]; try discriminate. injection Hsum as ->.
    rewrite run_bind. cbn [lift run py_iter]. run_step.
    rewrite (find_model_info_entries _ d entries Ed [] entries eq_refl)
      by (intros ? []).
    destruct (List.find _ entries) as [[k v]|]; reflexivity.
  - injection Hsum as <-. rewrite run_bind. cbn [lift run py_iter]. reflexivity.
Qed.

Lemma run_load_model_info_none fs self :
  glob fs (model_dir self) "training_summary_*.json" = [] ->
  run (load_model_info fs) self = (Ok tt, self).
Proof.
  intros H. unfold load_model_info. rewrite run_bind. cbn [get run].
  rewrite H. reflexivity.
Qed.

(** C3 (amended): once the model and the preprocessor are bound,
    [load_model] succeeds when there is no training summary, and when the
    newest one is a JSON object whose ["models"] entry is absent or an object;
    it attaches the metrics of the first key whose normal form contains the
    kind, and otherwise leaves the metrics as they were. *)
Theorem load_model_metrics (fs : FileSystem) (self : ModelLoader)
    (model_path : Path) (m : pyval) (token : string) (pp_file : file)
    (p : HeartDiseasePreprocessor) :
  path_exists fs model_path = true ->
  open_read fs model_path ≫= pickle_load = Ok m ->
  getitem_last (split "_" (stem model_path)) = Ok token ->
  matching_preprocessor token (glob fs (model_dir self) "preprocessor_*.pkl")
    = Ok pp_file ->
  load fs (entry_path (model_dir self) pp_file) = Ok p ->
  let bound := set_preprocessor p (set_model m self) in
  let summary_files := glob fs (model_dir self) "training_summary_*.json" in
  (summary_files = [] ->
   run (load_model fs (Some model_path)) self = (Ok tt, bound)) /\
  (forall latest summary entries,
     max_by st_mtime summary_files = Ok latest ->
     open_read fs (entry_path (model_dir self) latest) = Ok (Json summary) ->
     summary_models summary = Some entries ->
     run (load_model fs (Some model_path)) self = (Ok tt, with_metrics bound entries)).
Proof.
  intros Hex Hm Htok Hpp Hp. cbn zeta.
  assert (Hrun : run (load_model fs (Some model_path)) self
                 = run (load_model_info fs) (set_preprocessor p (set_model m self))).
  { cbn [load_model]. rewrite run_load_model_from, Hex, Hm. cbn [negb]. cbn zeta.
    destruct (glob fs (model_dir self) "preprocessor_*.pkl") as [|f files] eqn:Eg.
    - unfold matching_preprocessor in Hpp. cbn in Hpp. discriminate.
    - cbn [is_empty]. rewrite Htok. cbn [mbind result_bind]. rewrite Hpp, Hp.
      reflexivity. }
  rewrite Hrun. split.
  - intros Hnil. apply run_load_model_info_none. exact Hnil.
  - intros latest summary entries Hmax Hopen Hsum.
    apply (run_load_model_info fs _ latest summary entries); assumption.
Qed.

Lemma mock_classifier_binary k : binary_classifier mock_classifier k.
Proof.
  intros X _ _. eexists _, _. split; [reflexivity|]. split; [reflexivity|].
  rewrite !repeat_length. split; [reflexivity|]. split; [reflexivity|].
  split; apply List.Forall_forall; intros x Hx; apply repeat_spec in Hx; subst; auto.
Qed.

Lemma predict_single_spec_witness :
  (model bound_loader = VClassifier mock_classifier /\
   preprocessor bound_loader = Some (fitted_on schema_frame) /\
   run (fit unit_kernel unit_kernel unit_kernel schema_frame) Preprocessing.init
     = (Ok tt, fitted_on schema_frame) /\
   all_observed schema_frame = true /\
   labels schema_frame = get_feature_names /\
   binary_classifier mock_classifier 13 /\
   numeric_frame (sample_of sample_kwargs) = true) /\
  exists X_scaled y pr r,
    transform (fitted_on schema_frame) (sample_of sample_kwargs) = Ok X_scaled /\
    clf_predict mock_classifier X_scaled = Ok [y] /\
    clf_predict_proba mock_classifier X_scaled = Ok [pr] /\
    predict_single bound_loader sample_kwargs = Ok r /\
    prediction r = y /\
    (y = 0 \/ y = 1)%Z /\
    prediction_label r = (if (y =? 1)%Z then "Disease Present" else "No Disease") /\
    getitem pr 1 = Ok (probability r) /\
    first_greatest (fun q => q) pr (confidence r).
Proof.
  assert (H1 : model bound_loader = VClassifier mock_classifier) by reflexivity.
  assert (H2 : preprocessor bound_loader = Some (fitted_on schema_frame))
    by reflexivity.
  assert (H3 : run (fit unit_kernel unit_kernel unit_kernel schema_frame)
                 Preprocessing.init = (Ok tt, fitted_on schema_frame))
    by (vm_compute; reflexivity).
  assert (H4 : all_observed schema_frame = true) by (vm_compute; reflexivity).
  assert (H5 : labels schema_frame = get_feature_names) by reflexivity.
  assert (H6 : binary_classifier mock_classifier 13) by apply mock_classifier_binary.
  assert (H7 : numeric_frame (sample_of sample_kwargs) = true)
    by (vm_compute; reflexivity).
  split; [repeat (split; [assumption|]); assumption|].
  exact (proj2 (proj2 (predict_single_spec sample_kwargs))
           bound_loader mock_classifier (fitted_on schema_frame)
           unit_kernel unit_kernel unit_kernel schema_frame Preprocessing.init
           H1 H2 H3 H4 H5 H6 H7).
Defined.

Lemma load_latest_model_spec_witness :
  (is_ascii "Random Forest" = true /\
   model_name (LoadModel.init "Random Forest" None)
     = replace " " "_" (lower "Random Forest") /\
   rfind " " (model_name (LoadModel.init "Random Forest" None)) = None /\
   lower (model_name (LoadModel.init "Random Forest" None))
     = model_name (LoadModel.init "Random Forest" None)) /\
  (one_component (model_name fresh_loader +:+ "_*.pkl") = true /\
   glob two_runs (model_dir fresh_loader) (model_name fresh_loader +:+ "_*.pkl") <> [] /\
   exists latest,
     first_greatest st_mtime
       (glob two_runs (model_dir fresh_loader) (model_name fresh_loader +:+ "_*.pkl"))
       latest /\
     run (load_latest_model two_runs) fresh_loader
     = run (load_model two_runs (Some (entry_path (model_dir fresh_loader) latest)))
           fresh_loader) /\
  (one_component (model_name fresh_loader +:+ "_*.pkl") = true /\
   glob no_pickled_model (model_dir fresh_loader) (model_name fresh_loader +:+ "_*.pkl")
   = [] /\
   run (load_latest_model no_pickled_model) fresh_loader
   = (Raise (FileNotFoundError
               ("No " +:+ model_name fresh_loader +:+ " model found in "
                +:+ model_dir fresh_loader)),
      fresh_loader)).
Proof.
  assert (H0 : one_component (model_name fresh_loader +:+ "_*.pkl") = true)
    by (vm_compute; reflexivity).
  assert (H1 : glob two_runs (model_dir fresh_loader)
                 (model_name fresh_loader +:+ "_*.pkl") <> [])
    by (vm_compute; discriminate).
  assert (H2 : glob no_pickled_model (model_dir fresh_loader)
                 (model_name fresh_loader +:+ "_*.pkl") = [])
    by (vm_compute; reflexivity).
  split; [|split; (split; [exact H0|]); (split; [assumption|])].
  - split; [reflexivity|].
    exact (proj1 (load_latest_model_spec two_runs fresh_loader)
             "Random Forest" None eq_refl).
  - exact (proj2 (proj2 (load_latest_model_spec two_runs fresh_loader) H0) H1).
  - exact (proj1 (proj2 (load_latest_model_spec no_pickled_model fresh_loader) H0) H2).
Defined.

(** Selection goes by modification time, not by the timestamp in the name:
    of the two runs, the earlier-named model was touched last and is loaded. *)
Example load_latest_model_by_mtime :
  run (load_latest_model two_runs) fresh_loader
  = run (load_model two_runs (Some first_run_model)) fresh_loader.
Proof. vm_compute. reflexivity. Qed.

(** C2 as stated fails.  In a store of well-named artifacts the training
    summary matches ["training_summary_*"], yet a loader of that kind finds
    no model.  A file that matches ["random_forest_*"] without the pickle
    suffix is not found either, and is not the one loaded when it is the most
    recently modified. *)
Lemma load_latest_model_counterexample :
  (glob one_run (model_dir summary_loader) (model_name summary_loader +:+ "_*")
   = [mkFile "training_summary_20240101_000000.json" 10 summary_json] /\
   run (load_latest_model one_run) summary_loader
   = (Raise (FileNotFoundError "No training_summary model found in models"),
      summary_loader)) /\
  (glob no_pickled_model (model_dir fresh_loader) (model_name fresh_loader +:+ "_*")
   = [mkFile "random_forest_notes.txt" 10 Garbage] /\
   run (load_latest_model no_pickled_model) fresh_loader
   = (Raise (FileNotFoundError "No random_forest model found in models"),
      fresh_loader)) /\
  (first_greatest st_mtime
     (glob notes_only (model_dir fresh_loader) (model_name fresh_loader +:+ "_*"))
     (mkFile "random_forest_notes.txt" 10 Garbage) /\
   run (load_latest_model notes_only) fresh_loader
   = run (load_model notes_only (Some first_run_model)) fresh_loader).
Proof.
  split; [|split]; split; try (vm_compute; reflexivity).
  exists [], [mkFile "random_forest_20240101_000000.pkl" 5 model_pickle].
  split; [vm_compute; reflexivity|]. split; [intros ? []|].
  intros x [<-|[]]. vm_compute. discriminate.
Qed.

Lemma load_model_pairing_witness :
  (path_exists two_runs first_run_model = true /\
   open_read two_runs first_run_model ≫= pickle_load = Ok (VClassifier mock_classifier) /\
   glob two_runs (model_dir fresh_loader) "preprocessor_*.pkl" <> [] /\
   exists token pp_file,
     after_last "_" (stem first_run_model) token /\
     paired token (glob two_runs (model_dir fresh_loader) "preprocessor_*.pkl") pp_file /\
     (forall p, load two_runs (entry_path (model_dir fresh_loader) pp_file) = Ok p ->
        exists res self',
          run (load_model two_runs (Some first_run_model)) fresh_loader = (res, self') /\
          model self' = VClassifier mock_classifier /\ preprocessor self' = Some p) /\
     (forall e, load two_runs (entry_path (model_dir fresh_loader) pp_file) = Raise e ->
        run (load_model two_runs (Some first_run_model)) fresh_loader
        = (Raise e, set_model (VClassifier mock_classifier) fresh_loader))) /\
  (path_exists notes_only first_run_model = true /\
   open_read notes_only first_run_model ≫= pickle_load
     = Ok (VClassifier mock_classifier) /\
   glob notes_only (model_dir fresh_loader) "preprocessor_*.pkl" = [] /\
   run (load_model notes_only (Some first_run_model)) fresh_loader
   = (Raise (FileNotFoundError ("No preprocessor found in " +:+ model_dir fresh_loader)),
      set_model (VClassifier mock_classifier) fresh_loader)).
Proof.
  assert (H1 : path_exists two_runs first_run_model = true) by (vm_compute; reflexivity).
  assert (H2 : open_read two_runs first_run_model ≫= pickle_load
               = Ok (VClassifier mock_classifier)) by (vm_compute; reflexivity).
  assert (H3 : glob two_runs (model_dir fresh_loader) "preprocessor_*.pkl" <> [])
    by (vm_compute; discriminate).
  assert (H4 : path_exists notes_only first_run_model = true)
    by (vm_compute; reflexivity).
  assert (H5 : open_read notes_only first_run_model ≫= pickle_load
               = Ok (VClassifier mock_classifier)) by (vm_compute; reflexivity).
  assert (H6 : glob notes_only (model_dir fresh_loader) "preprocessor_*.pkl" = [])
    by (vm_compute; reflexivity).
  split; (split; [assumption|]); (split; [assumption|]); (split; [assumption|]).
  - exact (proj2 (load_model_pairing two_runs fresh_loader first_run_model
                    (VClassifier mock_classifier) H1 H2) H3).
  - exact (proj1 (load_model_pairing notes_only fresh_loader first_run_model
                    (VClassifier mock_classifier) H4 H5) H6).
Defined.

(** On the two runs, the token of the loaded model is its time of day, and
    the preprocessor of the same run is paired with it. *)
Example load_model_pairs_first_run :
  getitem_last (split "_" (stem first_run_model)) = Ok "000000" /\
  matching_preprocessor "000000"
    (glob two_runs (model_dir fresh_loader) "preprocessor_*.pkl")
  = Ok (first_run_preprocessor 50).
Proof. split; vm_compute; reflexivity. Qed.

(** C1 as stated fails: a file matches ["preprocessor_*"], yet the loader
    finds no preprocessor. *)
Lemma load_model_pairing_counterexample :
  path_exists notes_only first_run_model = true /\
  open_read notes_only first_run_model ≫= pickle_load
    = Ok (VClassifier mock_classifier) /\
  glob notes_only (model_dir fresh_loader) "preprocessor_*"
    = [mkFile "preprocessor_notes.txt" 10 Garbage] /\
  run (load_model notes_only (Some first_run_model)) fresh_loader
  = (Raise (FileNotFoundError "No preprocessor found in models"),
     set_model (VClassifier mock_classifier) fresh_loader).
Proof. repeat split; vm_compute; reflexivity. Qed.

Lemma load_model_metrics_witness :
  (path_exists two_runs first_run_model = true /\
   open_read two_runs first_run_model ≫= pickle_load = Ok (VClassifier mock_classifier) /\
   getitem_last (split "_" (stem first_run_model)) = Ok "000000" /\
   matching_preprocessor "000000"
     (glob two_runs (model_dir fresh_loader) "preprocessor_*.pkl")
     = Ok (first_run_preprocessor 50) /\
   load two_runs (entry_path (model_dir fresh_loader) (first_run_preprocessor 50))
     = Ok (fitted_on schema_frame) /\
   max_by st_mtime (glob two_runs (model_dir fresh_loader) "training_summary_*.json")
     = Ok second_run_summary /\
   open_read two_runs (entry_path (model_dir fresh_loader) second_run_summary)
     = Ok summary_json /\
   summary_models
     (VDict [("timestamp", VStr "20240102_111111"); ("models", VDict summary_entries)])
     = Some summary_entries /\
   run (load_model two_runs (Some first_run_model)) fresh_loader
   = (Ok tt,
      with_metrics
        (set_preprocessor (fitted_on schema_frame)
           (set_model (VClassifier mock_classifier) fresh_loader))
        summary_entries)) /\
  (path_exists no_summary first_run_model = true /\
   open_read no_summary first_run_model ≫= pickle_load
     = Ok (VClassifier mock_classifier) /\
   getitem_last (split "_" (stem first_run_model)) = Ok "000000" /\
   matching_preprocessor "000000"
     (glob no_summary (model_dir fresh_loader) "preprocessor_*.pkl")
     = Ok (first_run_preprocessor 10) /\
   load no_summary (entry_path (model_dir fresh_loader) (first_run_preprocessor 10))
     = Ok (fitted_on schema_frame) /\
   glob no_summary (model_dir fresh_loader) "training_summary_*.json" = [] /\
   run (load_model no_summary (Some first_run_model)) fresh_loader
   = (Ok tt,
      set_preprocessor (fitted_on schema_frame)
        (set_model (VClassifier mock_classifier) fresh_loader))).
Proof.
  assert (A1 : path_exists two_runs first_run_model = true) by (vm_compute; reflexivity).
  assert (A2 : open_read two_runs first_run_model ≫= pickle_load
               = Ok (VClassifier mock_classifier)) by (vm_compute; reflexivity).
  assert (A3 : getitem_last (split "_" (stem first_run_model)) = Ok "000000")
    by (vm_compute; reflexivity).
  assert (A4 : matching_preprocessor "000000"
                 (glob two_runs (model_dir fresh_loader) "preprocessor_*.pkl")
               = Ok (first_run_preprocessor 50)) by (vm_compute; reflexivity).
  assert (A5 : load two_runs
                 (entry_path (model_dir fresh_loader) (first_run_preprocessor 50))
               = Ok (fitted_on schema_frame)) by (vm_compute; reflexivity).
  assert (A6 : max_by st_mtime
                 (glob two_runs (model_dir fresh_loader) "training_summary_*.json")
               = Ok second_run_summary)
    by (vm_compute; reflexivity).
  assert (A7 : open_read two_runs
                 (entry_path (model_dir fresh_loader) second_run_summary)
               = Ok summary_json) by (vm_compute; reflexivity).
  assert (A8 : summary_models
                 (VDict [("timestamp", VStr "20240102_111111");
                         ("models", VDict summary_entries)])
               = Some summary_entries) by (vm_compute; reflexivity).
  assert (B1 : path_exists no_summary first_run_model = true)
    by (vm_compute; reflexivity).
  assert (B2 : open_read no_summary first_run_model ≫= pickle_load
               = Ok (VClassifier mock_classifier)) by (vm_compute; reflexivity).
  assert (B4 : matching_preprocessor "000000"
                 (glob no_summary (model_dir fresh_loader) "preprocessor_*.pkl")
               = Ok (first_run_preprocessor 10)) by (vm_compute; reflexivity).
  assert (B5 : load no_summary
                 (entry_path (model_dir fresh_loader) (first_run_preprocessor 10))
               = Ok (fitted_on schema_frame)) by (vm_compute; reflexivity).
  assert (B6 : glob no_summary (model_dir fresh_loader) "training_summary_*.json" = [])
    by (vm_compute; reflexivity).
  split.
  - repeat (split; [assumption|]).
    exact (proj2 (load_model_metrics two_runs fresh_loader first_run_model
                    (VClassifier mock_classifier) "000000" (first_run_preprocessor 50)
                    (fitted_on schema_frame) A1 A2 A3 A4 A5)
             _ _ summary_entries A6 A7 A8).
  - repeat (split; [assumption|]).
    exact (proj1 (load_model_metrics no_summary fresh_loader first_run_model
                    (VClassifier mock_classifier) "000000" (first_run_preprocessor 10)
                    (fitted_on schema_frame) B1 B2 A3 B4 B5) B6).
Defined.

(** The metrics attached on the two runs are those of the random forest. *)
Example load_model_attaches_metrics :
  model_info (with_metrics
                (set_preprocessor (fitted_on schema_frame)
                   (set_model (VClassifier mock_classifier) fresh_loader))
                summary_entries)
  = metrics (9 # 10).
Proof. vm_compute. reflexivity. Qed.

(** C3 as stated fails: a training summary that does not parse, or that is
    not a JSON object, makes [load_model] raise after the model and the
    preprocessor are bound. *)
Lemma load_model_metrics_counterexample :
  (exists self',
     run (load_model broken_summary None) fresh_loader = (Raise JSONDecodeError, self') /\
     model self' = VClassifier mock_classifier /\
     preprocessor self' = Some (fitted_on schema_frame)) /\
  (exists self',
     run (load_model listed_summary None) fresh_loader = (Raise AttributeError, self') /\
     model self' = VClassifier mock_classifier /\
     preprocessor self' = Some (fitted_on schema_frame)).
Proof.
  split.
  - remember (run (load_model broken_summary None) fresh_loader) as o eqn:E.
    vm_compute in E. subst o. eexists. split; [reflexivity|].
    split; vm_compute; reflexivity.
  - remember (run (load_model listed_summary None) fresh_loader) as o eqn:E.
    vm_compute in E. subst o. eexists. split; [reflexivity|].
    split; vm_compute; reflexivity.
Qed.

(** C7 as stated fails: bound to a classifier of more than two classes,
    [predict_single] returns a label that is neither 0 nor 1; bound to a
    preprocessor fitted on other columns, it raises. *)
Lemma predict_single_counterexample :
  (model graded_loader = VClassifier graded_classifier /\
   preprocessor graded_loader = Some (fitted_on schema_frame) /\
   predict_single graded_loader sample_kwargs
   = Ok (mkPrediction 2 "No Disease" (1 # 10) (6 # 10))) /\
  (model mispaired_loader = VClassifier mock_classifier /\
   preprocessor mispaired_loader = Some (fitted_on train_frame) /\
   predict_single mispaired_loader sample_kwargs
   = Raise (ValueError "number of features differs from fit")).
Proof. repeat split; vm_compute; reflexivity. Qed.

(** ** Fitting the preprocessor *)

Lemma observed_nil s : existsb is_num s = false -> observed s = [].
Proof.
  induction s as [|c s IH]; [reflexivity|].
  destruct c as [q|t|]; cbn; try discriminate; exact IH.
Qed.

Lemma observed_cons s : existsb is_num s = true -> observed s <> [].
Proof.
  induction s as [|c s IH]; cbn; [discriminate|].
  destruct c as [q|t|]; cbn; try exact IH. discriminate.
Qed.

Lemma impute_columns_observed median cols :
  impute_columns (map (column_statistic median) (map snd cols)) (map snd cols)
  = map (fun c => impute_column (median (observed (snd c))) (snd c))
        (List.filter has_observed cols).
Proof.
  induction cols as [|[n s] cols IH]; [reflexivity|].
  cbn [map snd List.filter impute_columns]. unfold has_observed at 1, column_statistic at 1.
  cbn [snd]. destruct (existsb is_num s) eqn:E.
  - apply observed_cons in E. destruct (observed s) eqn:Eo; [contradiction|].
    cbn [map snd]. rewrite IH, Eo. reflexivity.
  - rewrite (observed_nil _ E). exact IH.
Qed.

Lemma scale_columns_map (mean scale : list Q -> Q) cols :
  scale_columns (map mean cols) (map scale cols) cols
  = map (fun col => scale_column (mean col) (scale col) col) cols.
Proof. induction cols as [|c cols IH]; cbn; [reflexivity|]. rewrite IH. reflexivity. Qed.

Lemma filter_nonempty {A} (p : A -> bool) (l : list A) :
  existsb p l = true -> List.filter p l <> [].
Proof.
  induction l as [|x l IH]; cbn; [discriminate|].
  destruct (p x); [discriminate | exact IH].
Qed.

Lemma filter_empty {A} (p : A -> bool) (l : list A) :
  existsb p l = false -> List.filter p l = [].
Proof.
  induction l as [|x l IH]; cbn; [reflexivity|].
  destruct (p x); [discriminate | exact IH].
Qed.

Lemma fit_ready_check X :
  fit_ready X = true ->
  check_array X = Ok tt /\ (index X =? 0)%nat = false /\
  List.filter has_observed (columns X) <> [].
Proof.
  unfold fit_ready. intros H.
  apply andb_true_iff in H as [H Hobs]. apply andb_true_iff in H as [Hnum Hrows].
  apply negb_true_iff in Hrows. split; [|split].
  - apply check_array_intro; [exact Hnum | apply Nat.eqb_neq in Hrows; lia |].
    destruct (columns X); [discriminate | cbn; lia].
  - exact Hrows.
  - apply filter_nonempty. exact Hobs.
Qed.

(** The state and the data after the two library calls of [fit], on a table
    that is ready. *)
Lemma run_fit_ready median mean scale X p0 :
  fit_ready X = true ->
  let filled := map (fun c => impute_column (median (observed (snd c))) (snd c))
                    (List.filter has_observed (columns X)) in
  run (fit median mean scale X) p0
  = (Ok tt,
     mkPreprocessor
       (mkScaler (Some (map mean filled, map scale filled)))
       (mkImputer (Some (map (column_statistic median) (map snd (columns X)))))
       true).
Proof.
  intros Hready filled. destruct (fit_ready_check X Hready) as [Hc [Hrows Hne]].
  unfold fit. run_step. unfold imputer_fit_transform. rewrite Hc.
  cbn [mbind result_bind]. unfold imputer_transform. cbn [statistics_]. rewrite Hc.
  cbn [mbind result_bind]. rewrite !length_map, Nat.eqb_refl.
  cbn [mbind result_bind mret result_ret].
  rewrite !run_bind. cbn [modify run fst snd lift].
  unfold scaler_fit, check_matrix. cbn [m_rows m_cols]. rewrite Hrows.
  rewrite impute_columns_observed. fold filled.
  assert (Hf : (length filled =? 0)%nat = false).
  { apply Nat.eqb_neq. unfold filled. rewrite length_map.
    destruct (List.filter has_observed (columns X)); [contradiction | cbn; lia]. }
  rewrite Hf. cbn [mbind result_bind mret result_ret]. reflexivity.
Qed.

(** X1: on a table of numbers and nulls with at least one row and at least
    one column that holds a value, [fit] returns normally and leaves the
    preprocessor fitted; the state it leaves does not depend on the state it
    found, so fitting again discards an earlier fit. *)
Theorem fit_succeeds (median mean scale : list Q -> Q) (X : DataFrame) :
  fit_ready X = true ->
  exists p,
    (forall p0, run (fit median mean scale X) p0 = (Ok tt, p)) /\
    is_fitted p = true /\
    forall X', transform p X' <> Raise not_fitted_error.
Proof.
  intros Hready. eexists. split; [|split].
  - intros p0. apply run_fit_ready. exact Hready.
  - reflexivity.
  - intros X'. unfold transform. cbn [is_fitted negb imputer scaler].
    unfold imputer_transform. cbn [statistics_].
    unfold check_array.
    destruct (numeric_frame X'); cbn [negb]; [|discriminate].
    destruct (index X' =? 0)%nat; [discriminate|].
    destruct (length (columns X') =? 0)%nat; [discriminate|].
    cbn [mbind result_bind].
    destruct (length (columns X') =? _)%nat; [|discriminate].
    cbn [mbind result_bind]. unfold scaler_transform. cbn [params_].
    unfold check_matrix. cbn [m_rows m_cols].
    destruct (index X' =? 0)%nat; [discriminate|].
    destruct (length _ =? 0)%nat; [discriminate|].
    cbn [mbind result_bind].
    destruct (length _ =? _)%nat; discriminate.
Qed.

Lemma fit_succeeds_witness :
  fit_ready hollow_frame = true /\
  exists p,
    (forall p0, run (fit unit_kernel unit_kernel unit_kernel hollow_frame) p0 = (Ok tt, p)) /\
    is_fitted p = true /\
    forall X', transform p X' <> Raise not_fitted_error.
Proof.
  split; [reflexivity|].
  apply (fit_succeeds unit_kernel unit_kernel unit_kernel hollow_frame). reflexivity.
Defined.

(** X2: on a table of numbers and nulls that has no row, or no column that
    holds a value, [fit] raises a [ValueError], and the fitted flag is what
    it was: a failed fit never marks a preprocessor as fitted. *)
Theorem fit_fails (median mean scale : list Q -> Q) (X : DataFrame)
    (p0 : HeartDiseasePreprocessor) :
  numeric_frame X = true ->
  fit_ready X = false ->
  exists msg p,
    run (fit median mean scale X) p0 = (Raise (ValueError msg), p) /\
    is_fitted p = is_fitted p0.
Proof.
  intros Hnum Hready. unfold fit. run_step. unfold imputer_fit_transform.
  unfold check_array at 1. rewrite Hnum. cbn [negb].
  destruct (index X =? 0)%nat eqn:Hrows; [eexists _, _; split; reflexivity|].
  destruct (length (columns X) =? 0)%nat eqn:Hcols; [eexists _, _; split; reflexivity|].
  cbn [mbind result_bind]. unfold imputer_transform. cbn [statistics_].
  unfold check_array. rewrite Hnum, Hrows, Hcols. cbn [negb mbind result_bind].
  rewrite !length_map, Nat.eqb_refl. cbn [mbind result_bind mret result_ret].
  rewrite !run_bind. cbn [modify run fst snd lift].
  unfold scaler_fit, check_matrix. cbn [m_rows m_cols]. rewrite Hrows.
  rewrite impute_columns_observed.
  unfold fit_ready in Hready. rewrite Hnum, Hrows in Hready. cbn in Hready.
  rewrite (filter_empty _ _ Hready). cbn.
  eexists _, _. split; reflexivity.
Qed.

Lemma fit_fails_witness :
  (numeric_frame rowless_frame = true /\
   fit_ready rowless_frame = false /\
   exists msg p,
     run (fit unit_kernel unit_kernel unit_kernel rowless_frame) Preprocessing.init
       = (Raise (ValueError msg), p) /\
     is_fitted p = is_fitted Preprocessing.init) /\
  (numeric_frame unobserved_frame = true /\
   fit_ready unobserved_frame = false /\
   exists msg p,
     run (fit unit_kernel unit_kernel unit_kernel unobserved_frame)
         (fitted_on train_frame)
       = (Raise (ValueError msg), p) /\
     is_fitted p = is_fitted (fitted_on train_frame)).
Proof.
  split; (split; [reflexivity|]); (split; [reflexivity|]).
  - apply (fit_fails unit_kernel unit_kernel unit_kernel rowless_frame); reflexivity.
  - apply (fit_fails unit_kernel unit_kernel unit_kernel unobserved_frame); reflexivity.
Defined.

(** X3: on such a table [fit_transform] returns normally, leaves the
    preprocessor fitted, and returns what [transform] of the fitted
    preprocessor returns: one row per row of the table and, for each column
    that holds a value, in order, that column with its nulls replaced by the
    median of its values and then centred and scaled by the statistics of
    the filled column.  A column that holds no value is left out. *)
Theorem fit_transform_spec (median mean scale : list Q -> Q) (X : DataFrame)
    (p0 : HeartDiseasePreprocessor) :
  fit_ready X = true ->
  exists M p,
    run (fit_transform median mean scale X) p0 = (Ok M, p) /\
    is_fitted p = true /\
    transform p X = Ok M /\
    m_rows M = index X /\
    m_cols M = map (fun c => standardized median mean scale (snd c))
                   (List.filter has_observed (columns X)).
Proof.
  intros Hready. destruct (fit_ready_check X Hready) as [Hc [Hrows Hne]].
  pose proof (run_fit_ready median mean scale X p0 Hready) as Hfit. cbn zeta in Hfit.
  set (filled := map (fun c => impute_column (median (observed (snd c))) (snd c))
                     (List.filter has_observed (columns X))) in *.
  assert (Hf : (length filled =? 0)%nat = false).
  { apply Nat.eqb_neq. unfold filled. rewrite length_map.
    destruct (List.filter has_observed (columns X)); [contradiction | cbn; lia]. }
  assert (Ht : transform
                 (mkPreprocessor
                    (mkScaler (Some (map mean filled, map scale filled)))
                    (mkImputer (Some (map (column_statistic median)
                                          (map snd (columns X)))))
                    true) X
               = Ok (mkMat (index X)
                       (map (fun col => scale_column (mean col) (scale col) col) filled))).
  { unfold transform. cbn [is_fitted negb imputer scaler].
    unfold imputer_transform. cbn [statistics_]. rewrite Hc. cbn [mbind result_bind].
    rewrite !length_map, Nat.eqb_refl. cbn [mbind result_bind].
    rewrite impute_columns_observed. fold filled.
    unfold scaler_transform, check_matrix. cbn [params_ m_rows m_cols].
    rewrite Hrows, Hf. cbn [mbind result_bind]. rewrite length_map, Nat.eqb_refl.
    cbn [mret result_ret]. rewrite scale_columns_map. reflexivity. }
  eexists _, _. split; [|split; [|split; [exact Ht|split]]].
  - unfold fit_transform. rewrite run_bind, Hfit, run_bind. cbn [get run lift].
    rewrite Ht. reflexivity.
  - reflexivity.
  - reflexivity.
  - cbn [m_cols]. unfold filled. rewrite map_map. reflexivity.
Qed.

Lemma fit_transform_spec_witness :
  fit_ready hollow_frame = true /\
  exists M p,
    run (fit_transform unit_kernel unit_kernel unit_kernel hollow_frame) Preprocessing.init
      = (Ok M, p) /\
    is_fitted p = true /\
    transform p hollow_frame = Ok M /\
    m_rows M = index hollow_frame /\
    m_cols M = map (fun c => standardized unit_kernel unit_kernel unit_kernel (snd c))
                   (List.filter has_observed (columns hollow_frame)).
Proof.
  split; [reflexivity|].
  apply (fit_transform_spec unit_kernel unit_kernel unit_kernel hollow_frame). reflexivity.
Defined.

(** ** From the raw table to features and target *)

Lemma labels_filter_name name cols :
  map fst (List.filter (fun c : string * Series => negb (String.eqb (fst c) name)) cols)
  = index_drop name (map fst cols).
Proof.
  unfold index_drop. induction cols as [|[n s] cols IH]; [reflexivity|].
  cbn [map List.filter fst]. destruct (String.eqb n name); cbn [negb map fst];
    rewrite IH; reflexivity.
Qed.

Lemma assoc_filter_name name n cols :
  n <> name ->
  assoc n (List.filter (fun c : string * Series => negb (String.eqb (fst c) name)) cols)
  = assoc n cols.
Proof.
  intros Hn. induction cols as [|[k s] cols IH]; [reflexivity|].
  cbn [List.filter fst assoc]. destruct (String.eqb_spec k name) as [->|Hk]; cbn [negb].
  - destruct (String.eqb_spec name n) as [E|_]; [congruence | exact IH].
  - cbn [assoc]. rewrite IH. reflexivity.
Qed.

Lemma assoc_has_label name cols s :
  assoc name cols = Some s -> has_label name (map fst cols) = true.
Proof.
  intros H. apply has_label_In. apply assoc_In in H.
  apply (in_map fst) in H. exact H.
Qed.

Lemma has_label_assoc name cols :
  has_label name (map fst cols) = false -> assoc name cols = None.
Proof.
  intros H. destruct (assoc name cols) as [s|] eqn:E; [|reflexivity].
  apply assoc_has_label in E. congruence.
Qed.

Lemma prepare_features_target_ok df s :
  assoc "target" (columns df) = Some s ->
  prepare_features_target df
  = Ok (mkDF (index df)
          (List.filter (fun c => negb (String.eqb (fst c) "target")) (columns df)),
        s).
Proof.
  intros H. unfold prepare_features_target, df_drop, df_get, labels.
  rewrite (assoc_has_label _ _ _ H), H. reflexivity.
Qed.

(** X4: [prepare_features_target] raises the [ValueError] of its message on
    a table without a target column.  On a table with one it returns the
    target column, and the table without it: the same rows, the other labels
    in their order, every other column as it was. *)
Theorem prepare_features_target_spec (df : DataFrame) :
  (has_label "target" (labels df) = false ->
   prepare_features_target df
   = Raise (ValueError "Target column 'target' not found in dataframe")) /\
  (forall s, assoc "target" (columns df) = Some s ->
   exists X,
     prepare_features_target df = Ok (X, s) /\
     index X = index df /\
     labels X = index_drop "target" (labels df) /\
     has_label "target" (labels X) = false /\
     forall n, n <> "target" -> assoc n (columns X) = assoc n (columns df)).
Proof.
  split.
  - intros H. unfold prepare_features_target. rewrite H. reflexivity.
  - intros s H. eexists. split; [apply prepare_features_target_ok; exact H|].
    split; [reflexivity|]. unfold labels. cbn [columns]. split; [|split].
    + apply labels_filter_name.
    + rewrite labels_filter_name, has_label_index_drop, String.eqb_refl.
      apply andb_false_r.
    + intros n Hn. apply assoc_filter_name. exact Hn.
Qed.

Lemma prepare_features_target_spec_witness :
  (has_label "target" (labels train_frame) = false /\
   prepare_features_target train_frame
   = Raise (ValueError "Target column 'target' not found in dataframe")) /\
  (assoc "target" (columns raw_frame) = Some [Num 0; Num 1; Num 2; Num 3] /\
   exists X,
     prepare_features_target raw_frame = Ok (X, [Num 0; Num 1; Num 2; Num 3]) /\
     index X = index raw_frame /\
     labels X = index_drop "target" (labels raw_frame) /\
     has_label "target" (labels X) = false /\
     forall n, n <> "target" -> assoc n (columns X) = assoc n (columns raw_frame)).
Proof.
  split.
  - split; [reflexivity|].
    apply (proj1 (prepare_features_target_spec train_frame)). reflexivity.
  - split; [reflexivity|].
    apply (proj2 (prepare_features_target_spec raw_frame)). reflexivity.
Defined.

Lemma assoc_target_cleaned parse t s :
  assoc "target" (columns t) = Some s ->
  assoc "target" (columns (cleaned parse t)) = Some (map binarize s).
Proof.
  intros H. unfold cleaned. cbn [columns].
  rewrite (assoc_map_fst (clean_column parse) "target" _ s).
  - unfold clean_column. cbn [fst snd]. rewrite String.eqb_refl. reflexivity.
  - apply clean_column_fst.
  - rewrite assoc_filter_not_source by discriminate. exact H.
Qed.

Lemma numeric_binarize s : forallb numeric_cell (map binarize s) = true.
Proof.
  induction s as [|c s IH]; [reflexivity|]. cbn [map forallb]. rewrite IH, andb_true_r.
  destruct c as [q|x|]; cbn; try reflexivity. destruct (Qlt_bool 0 q); reflexivity.
Qed.

Lemma numeric_coerce parse s :
  forallb numeric_cell (map (fun x => to_numeric_cell parse (replace_cell x)) s) = true.
Proof.
  induction s as [|c s IH]; [reflexivity|]. cbn [map forallb]. rewrite IH, andb_true_r.
  exact (proj2 (coerced_cell parse c)).
Qed.

Lemma numeric_frame_cleaned parse t : numeric_frame (cleaned parse t) = true.
Proof.
  unfold numeric_frame, cleaned. cbn [columns].
  induction (List.filter not_source (columns t)) as [|c cols IH]; [reflexivity|].
  cbn [map forallb]. rewrite IH, andb_true_r. unfold clean_column.
  destruct (String.eqb (fst c) "target"); cbn [snd];
    [apply numeric_binarize | apply numeric_coerce].
Qed.

Lemma forallb_filter {A} (p q : A -> bool) (l : list A) :
  forallb p l = true -> forallb p (List.filter q l) = true.
Proof.
  induction l as [|x l IH]; [reflexivity|]. cbn [forallb List.filter]. intros H.
  apply andb_true_iff in H as [Hx Hl]. destruct (q x); cbn [forallb]; rewrite ?Hx; auto.
Qed.

Lemma binary_binarize s : Forall is_binary (map binarize s).
Proof.
  induction s as [|c s IH]; constructor; [|exact IH].
  unfold is_binary. destruct c as [q|x|]; cbn; auto. destruct (Qlt_bool 0 q); auto.
Qed.

(** X5: cleaning a raw table and then separating features and target, as
    the preprocessing script does, goes through for every table with
    distinct labels and a target of numbers and nulls.  The features keep
    the rows and hold neither the source nor the target column; they hold
    numbers and nulls only, which is what the estimators' validation asks
    for; the target holds [0] and [1] only. *)
Theorem clean_then_prepare (parse : string -> option Q) (h : heap) (df : loc)
    (t : DataFrame) (s : Series) :
  h !! df = Some t ->
  is_unique (labels t) = true ->
  assoc "target" (columns t) = Some s ->
  text_free s = true ->
  exists df_clean h' t' X y,
    run (clean_data parse df) h = (Ok df_clean, h') /\
    h' !! df_clean = Some t' /\
    prepare_features_target t' = Ok (X, y) /\
    index X = index t /\
    labels X = index_drop "target" (index_drop "source" (labels t)) /\
    numeric_frame X = true /\
    y = map binarize s /\
    Forall is_binary y.
Proof.
  intros H Huniq Ht Hs.
  destruct (clean_data_run parse h df t H) as [r [h' [E Hr]]].
  - apply is_unique_NoDup. exact Huniq.
  - unfold target_numeric. rewrite Ht. exact Hs.
  - pose proof (assoc_target_cleaned parse t s Ht) as Ht'.
    eexists r, h', _, _, _. split; [exact E|]. split; [exact Hr|].
    split; [apply prepare_features_target_ok; exact Ht'|].
    split; [reflexivity|]. split; [|split; [|split]].
    + unfold labels at 1. cbn [columns]. rewrite labels_filter_name.
      fold (labels (cleaned parse t)). rewrite labels_cleaned. reflexivity.
    + unfold numeric_frame. cbn [columns]. apply forallb_filter.
      apply numeric_frame_cleaned.
    + reflexivity.
    + apply binary_binarize.
Qed.

Lemma clean_then_prepare_witness :
  ({[0%nat := raw_frame]} : heap) !! 0%nat = Some raw_frame /\
  is_unique (labels raw_frame) = true /\
  assoc "target" (columns raw_frame) = Some [Num 0; Num 1; Num 2; Num 3] /\
  text_free [Num 0; Num 1; Num 2; Num 3] = true /\
  exists df_clean h' t' X y,
    run (clean_data no_parse 0%nat) {[0%nat := raw_frame]} = (Ok df_clean, h') /\
    h' !! df_clean = Some t' /\
    prepare_features_target t' = Ok (X, y) /\
    index X = index raw_frame /\
    labels X = index_drop "target" (index_drop "source" (labels raw_frame)) /\
    numeric_frame X = true /\
    y = map binarize [Num 0; Num 1; Num 2; Num 3] /\
    Forall is_binary y.
Proof.
  split; [reflexivity|]. split; [reflexivity|]. split; [reflexivity|].
  split; [reflexivity|].
  apply (clean_then_prepare no_parse {[0%nat := raw_frame]} 0%nat raw_frame
           [Num 0; Num 1; Num 2; Num 3]); reflexivity.
Defined.

(** ** Saving next to other files *)

Lemma find_upsert_ne n m now c entries :
  m <> n ->
  List.find (fun f => String.eqb (fname f) m) (upsert n now c entries)
  = List.find (fun f => String.eqb (fname f) m) entries.
Proof.
  intros Hm. induction entries as [|f entries IH]; cbn [upsert List.find].
  - cbn [fname]. destruct (String.eqb_spec n m); [congruence | reflexivity].
  - destruct (String.eqb_spec (fname f) n) as [E|E]; cbn [List.find fname].
    + destruct (String.eqb_spec n m); [congruence|].
      destruct (String.eqb_spec (fname f) m); [congruence | reflexivity].
    + destruct (String.eqb (fname f) m); [reflexivity | exact IH].
Qed.

Lemma lookup_write_file_ne p q now c fs :
  q <> p -> lookup_file (write_file p now c fs) q = lookup_file fs q.
Proof.
  intros Hq. unfold lookup_file, write_file.
  destruct (String.eqb_spec (parent q) (parent p)) as [Ed|Ed]; [|reflexivity].
  apply find_upsert_ne. intros En. apply Hq.
  destruct p, q; cbn in *; congruence.
Qed.

(** X6: [save] touches the file it is given and no other: every other path
    exists, reads and loads after the save as it did before. *)
Theorem save_keeps_other_files (self : HeartDiseasePreprocessor)
    (filepath other : Path) (now : Q) (fs : FileSystem) :
  other <> filepath ->
  let fs' := snd (run (save self filepath now) fs) in
  path_exists fs' other = path_exists fs other /\
  open_read fs' other = open_read fs other /\
  load fs' other = load fs other.
Proof.
  intros Hother fs'. unfold fs', save. cbn [modify run snd].
  unfold path_exists, load, open_read.
  rewrite (lookup_write_file_ne _ _ _ _ _ Hother). repeat split.
Qed.

Lemma save_keeps_other_files_witness :
  mkPath "models" "preprocessor_20240101_000000.pkl"
    <> mkPath "models" "preprocessor_20240102_111111.pkl" /\
  let fs' := snd (run (save Preprocessing.init
                         (mkPath "models" "preprocessor_20240102_111111.pkl") 30)
                      one_run) in
  path_exists fs' (mkPath "models" "preprocessor_20240101_000000.pkl")
    = path_exists one_run (mkPath "models" "preprocessor_20240101_000000.pkl") /\
  open_read fs' (mkPath "models" "preprocessor_20240101_000000.pkl")
    = open_read one_run (mkPath "models" "preprocessor_20240101_000000.pkl") /\
  load fs' (mkPath "models" "preprocessor_20240101_000000.pkl")
    = load one_run (mkPath "models" "preprocessor_20240101_000000.pkl").
Proof.
  split; [discriminate|].
  apply (save_keeps_other_files Preprocessing.init
           (mkPath "models" "preprocessor_20240102_111111.pkl")
           (mkPath "models" "preprocessor_20240101_000000.pkl") 30 one_run).
  discriminate.
Defined.

(** ** Cleaning twice, and cleaning what cannot be cleaned *)

Lemma binarize_idem c : binarize (binarize c) = binarize c.
Proof.
  destruct c as [q|x|]; cbn; try reflexivity. destruct (Qlt_bool 0 q); reflexivity.
Qed.

Lemma coerce_idem parse c :
  text_sentinel parse c = false ->
  to_numeric_cell parse (replace_cell (to_numeric_cell parse (replace_cell c)))
  = to_numeric_cell parse (replace_cell c).
Proof.
  destruct c as [q|x|]; cbn [text_sentinel replace_cell]; intros H.
  - destruct (Qeq_bool q (-9)) eqn:E; cbn [to_numeric_cell replace_cell];
      rewrite ?E; reflexivity.
  - destruct (String.eqb x "?"); cbn [negb andb] in H; [reflexivity|].
    cbn [to_numeric_cell]. destruct (parse x) as [q|]; [|reflexivity].
    cbn [replace_cell]. rewrite H. reflexivity.
  - reflexivity.
Qed.

Lemma filter_not_source_clean parse cols :
  List.filter not_source (map (clean_column parse) (List.filter not_source cols))
  = map (clean_column parse) (List.filter not_source cols).
Proof.
  induction cols as [|c cols IH]; [reflexivity|].
  cbn [List.filter]. destruct (not_source c) eqn:E; [|exact IH].
  cbn [map List.filter]. unfold not_source at 1. rewrite clean_column_fst.
  fold (not_source c). rewrite E, IH. reflexivity.
Qed.

Lemma cleaned_idem parse t :
  no_text_sentinel parse t = true ->
  cleaned parse (cleaned parse t) = cleaned parse t.
Proof.
  unfold no_text_sentinel, cleaned. cbn [index columns]. intros H. f_equal.
  rewrite filter_not_source_clean.
  induction (columns t) as [|c cols IH]; [reflexivity|].
  cbn [forallb] in H. apply andb_true_iff in H as [Hc Hcols].
  cbn [List.filter]. destruct (not_source c); [|exact (IH Hcols)].
  cbn [map]. rewrite (IH Hcols). f_equal.
  unfold clean_column at 1. rewrite clean_column_fst. unfold clean_column.
  destruct (String.eqb (fst c) "target"); cbn [fst snd orb] in *.
  - f_equal. rewrite map_map. apply map_ext. exact binarize_idem.
  - f_equal. rewrite map_map. apply map_ext_in. intros x Hx.
    apply coerce_idem. apply negb_true_iff.
    exact (proj1 (List.forallb_forall _ _) Hc x Hx).
Qed.

Lemma target_numeric_cleaned parse t : target_numeric (cleaned parse t) = true.
Proof.
  unfold target_numeric.
  destruct (assoc "target" (columns (cleaned parse t))) as [s|] eqn:E; [|reflexivity].
  destruct (assoc "target" (columns t)) as [s0|] eqn:E0.
  - rewrite (assoc_target_cleaned parse t s0 E0) in E. injection E as <-.
    apply numeric_binarize.
  - apply assoc_has_label in E. fold (labels (cleaned parse t)) in E.
    rewrite labels_cleaned, has_label_index_drop in E.
    apply andb_true_iff in E as [E _]. apply has_label_In in E.
    apply assoc_None in E0. contradiction.
Qed.

(** X7: cleaning is idempotent on tables with distinct labels and a target
    of numbers and nulls in which no feature holds a text token, other than
    ["?"], that reads as [-9]: cleaning the cleaned table again returns a new
    table equal to it, and leaves it in place.  (The sentinels are replaced
    before text is made numeric, so such a token leaves the first pass as
    the number [-9].) *)
Theorem clean_data_idempotent (parse : string -> option Q) (h : heap) (df : loc)
    (t : DataFrame) :
  h !! df = Some t ->
  is_unique (labels t) = true ->
  target_numeric t = true ->
  no_text_sentinel parse t = true ->
  exists once h' twice h'' t',
    run (clean_data parse df) h = (Ok once, h') /\
    h' !! once = Some t' /\
    run (clean_data parse once) h' = (Ok twice, h'') /\
    h'' !! twice = Some t' /\
    h'' !! once = Some t' /\
    twice <> once.
Proof.
  intros H Huniq Hnum Hsent. apply is_unique_NoDup in Huniq.
  destruct (clean_data_run parse h df t H Huniq Hnum) as [r [h' [E Hr]]].
  destruct (clean_data_run parse h' r (cleaned parse t) Hr) as [r' [h'' [E' Hr']]].
  - rewrite labels_cleaned. apply NoDup_index_drop. exact Huniq.
  - apply target_numeric_cleaned.
  - rewrite (cleaned_idem parse t Hsent) in Hr'.
    destruct (keeps_clean_data parse h' r h' (reflexivity h') _ _ E') as [Hsub Hpost].
    exists r, h', r', h'', (cleaned parse t).
    split; [exact E|]. split; [exact Hr|]. split; [exact E'|]. split; [exact Hr'|].
    split.
    + eapply lookup_weaken; [exact Hr | exact Hsub].
    + intros ->. specialize (Hpost _ eq_refl). cbn in Hpost. congruence.
Qed.

Lemma clean_data_idempotent_witness :
  ({[0%nat := raw_frame]} : heap) !! 0%nat = Some raw_frame /\
  is_unique (labels raw_frame) = true /\
  target_numeric raw_frame = true /\
  no_text_sentinel no_parse raw_frame = true /\
  exists once h' twice h'' t',
    run (clean_data no_parse 0%nat) {[0%nat := raw_frame]} = (Ok once, h') /\
    h' !! once = Some t' /\
    run (clean_data no_parse once) h' = (Ok twice, h'') /\
    h'' !! twice = Some t' /\
    h'' !! once = Some t' /\
    twice <> once.
Proof.
  split; [reflexivity|]. split; [reflexivity|]. split; [reflexivity|].
  split; [reflexivity|].
  apply (clean_data_idempotent no_parse {[0%nat := raw_frame]} 0%nat raw_frame);
    reflexivity.
Defined.

(** X8: on a table whose target column holds a text token, [clean_data]
    raises a [TypeError] where it compares the target with [0], whatever the
    other columns hold; the table it was given is as it was. *)
Theorem clean_data_text_target_raises (parse : string -> option Q) (h : heap)
    (df : loc) (t : DataFrame) :
  h !! df = Some t ->
  target_numeric t = false ->
  exists h',
    run (clean_data parse df) h = (Raise TypeError, h') /\
    h' !! df = Some t.
Proof.
  intros H Hnum.
  destruct (clean_data_text_target parse h df t H Hnum) as [h' E].
  exists h'. split; [exact E|].
  destruct (keeps_clean_data parse h df h (reflexivity h) _ _ E) as [Hsub _].
  eapply lookup_weaken; [exact H | exact Hsub].
Qed.

Lemma clean_data_text_target_raises_witness :
  ({[0%nat := text_target_frame]} : heap) !! 0%nat = Some text_target_frame /\
  target_numeric text_target_frame = false /\
  exists h',
    run (clean_data no_parse 0%nat) {[0%nat := text_target_frame]}
      = (Raise TypeError, h') /\
    h' !! 0%nat = Some text_target_frame.
Proof.
  split; [reflexivity|]. split; [reflexivity|].
  apply (clean_data_text_target_raises no_parse {[0%nat := text_target_frame]} 0%nat
           text_target_frame); reflexivity.
Defined.

(** ** What a load leaves in the loader *)

Lemma load_model_info_raise fs self e self' :
  run (load_model_info fs) self = (Raise e, self') -> self' = self.
Proof.
  unfold load_model_info. rewrite run_bind. cbn [get run].
  destruct (is_empty _); [intros [= _ <-]; auto|].
  run_step.
  destruct (max_by _ _) as [latest|e']; [|intros [= _ <-]; auto].
  run_step.
  destruct (open_read _ _) as [c|e']; [|intros [= _ <-]; auto].
  run_step.
  destruct (json_load c) as [summary|e']; [|intros [= _ <-]; auto].
  run_step.
  destruct (py_get _ _ _) as [models|e']; [|intros [= _ <-]; auto].
  run_step.
  destruct (py_iter _) as [keys|e']; [|intros [= _ <-]; auto].
  run_step.
  destruct (find_model_info _ _ _) as [[i|]|e']; cbn [modify run mret M_ret];
    try discriminate; intros [= _ <-]; auto.
Qed.

Lemma matching_preprocessor_In token files pp_file :
  matching_preprocessor token files = Ok pp_file -> In pp_file files.
Proof.
  unfold matching_preprocessor.
  destruct (List.find _ files) as [f|] eqn:E.
  - intros [= <-]. apply List.find_some in E. tauto.
  - intros H. apply max_by_first_greatest, first_greatest_ge in H. tauto.
Qed.

Lemma open_pickle fs mp m :
  open_read fs mp ≫= pickle_load = Ok m -> open_read fs mp = Ok (Pickle m).
Proof.
  destruct (open_read fs mp) as [c|e]; cbn [mbind result_bind]; [|discriminate].
  destruct c; cbn; try discriminate. intros [= <-]. reflexivity.
Qed.

Lemma load_model_from_outcome fs mp self res self' :
  run (load_model_from fs mp) self = (res, self') ->
  model_dir self' = model_dir self /\
  model_name self' = model_name self /\
  (self' = self \/ open_read fs mp = Ok (Pickle (model self'))) /\
  (forall e, res = Raise e -> model_info self' = model_info self) /\
  (res = Ok tt ->
   open_read fs mp = Ok (Pickle (model self')) /\
   exists pp_file p,
     In pp_file (glob fs (model_dir self) "preprocessor_*.pkl") /\
     load fs (entry_path (model_dir self) pp_file) = Ok p /\
     preprocessor self' = Some p).
Proof.
  rewrite run_load_model_from.
  destruct (negb (path_exists fs mp)).
  { intros [= <- <-]. repeat split; auto; try discriminate; congruence. }
  destruct (open_read fs mp ≫= pickle_load) as [m|e] eqn:Em.
  2:{ intros [= <- <-]. repeat split; auto; try discriminate; congruence. }
  apply open_pickle in Em. cbn zeta.
  destruct (is_empty _).
  { intros [= <- <-]. repeat split; auto; try discriminate; congruence. }
  destruct (getitem_last _) as [token|e]; cbn [mbind result_bind].
  2:{ intros [= <- <-]. repeat split; auto; try discriminate; congruence. }
  destruct (matching_preprocessor _ _) as [pp_file|e] eqn:Epp.
  2:{ intros [= <- <-]. repeat split; auto; try discriminate; congruence. }
  apply matching_preprocessor_In in Epp.
  destruct (load fs _) as [p|e] eqn:Ep.
  2:{ intros [= <- <-]. repeat split; auto; try discriminate; congruence. }
  intros Hrun. pose proof (load_model_info_frame _ _ _ _ Hrun) as [H1 [H2 [H3 H4]]].
  cbn [set_preprocessor set_model model preprocessor model_dir model_name] in *.
  split; [exact H3|]. split; [exact H4|]. rewrite H1. split; [right; exact Em|].
  split.
  - intros e ->. apply load_model_info_raise in Hrun. subst self'. reflexivity.
  - intros _. split; [exact Em|]. exists pp_file, p. rewrite H2. auto.
Qed.

(** X9: whatever [load_model] meets, the loader keeps its directory and its
    model kind, and its metrics change only when the call returns normally.
    When it returns normally, the loader holds a model that was unpickled
    from the given path, or, without a path, from a file of the directory
    that matches the pattern of its kind, and a preprocessor that was loaded
    from a file of the directory that matches ["preprocessor_*.pkl"]. *)
Theorem load_model_outcome (fs : FileSystem) (model_path : option Path)
    (self : ModelLoader) (res : result unit) (self' : ModelLoader) :
  run (load_model fs model_path) self = (res, self') ->
  model_dir self' = model_dir self /\
  model_name self' = model_name self /\
  (forall e, res = Raise e -> model_info self' = model_info self) /\
  (res = Ok tt ->
   exists mp pp_file p,
     match model_path with
     | Some given => mp = given
     | None => exists f, In f (glob fs (model_dir self) (model_name self +:+ "_*.pkl")) /\
                         mp = entry_path (model_dir self) f
     end /\
     open_read fs mp = Ok (Pickle (model self')) /\
     In pp_file (glob fs (model_dir self) "preprocessor_*.pkl") /\
     load fs (entry_path (model_dir self) pp_file) = Ok p /\
     preprocessor self' = Some p).
Proof.
  destruct model_path as [given|]; cbn [load_model].
  - intros Hrun.
    destruct (load_model_from_outcome _ _ _ _ _ Hrun) as [H1 [H2 [_ [H4 H5]]]].
    repeat split; auto. intros Hok. destruct (H5 Hok) as [Hm [pp_file [p Hp]]].
    exists given, pp_file, p. auto.
  - rewrite run_load_latest_model. cbn zeta.
    destruct (max_by st_mtime _) as [latest|e] eqn:El.
    2:{ intros [= <- <-]. repeat split; auto; try discriminate; congruence. }
    intros Hrun.
    destruct (load_model_from_outcome _ _ _ _ _ Hrun) as [H1 [H2 [_ [H4 H5]]]].
    repeat split; auto. intros Hok. destruct (H5 Hok) as [Hm [pp_file [p Hp]]].
    exists (entry_path (model_dir self) latest), pp_file, p. split; [|auto].
    exists latest. split; [|reflexivity].
    apply max_by_first_greatest, first_greatest_ge in El. tauto.
Qed.

Lemma load_model_outcome_witness :
  run (load_model one_run None) fresh_loader
    = (fst (run (load_model one_run None) fresh_loader),
       snd (run (load_model one_run None) fresh_loader)) /\
  model_dir (snd (run (load_model one_run None) fresh_loader)) = "models" /\
  model_name (snd (run (load_model one_run None) fresh_loader)) = "random_forest".
Proof.
  split; [reflexivity|].
  destruct (load_model_outcome one_run None fresh_loader _ _ eq_refl) as [H1 [H2 _]].
  split; [exact H1 | exact H2].
Defined.

(** ** What a prediction depends on *)

(** X10: [predict_single] reads its keyword arguments through the thirteen
    fields only, an absent field counting as a null: two calls whose
    arguments agree on the thirteen fields build the same table and give
    the same result, whatever other keys they carry. *)
Theorem predict_single_fields (self : ModelLoader) (kwargs kwargs' : gmap string cell) :
  Forall (same_field kwargs kwargs') get_feature_names ->
  sample_of kwargs = sample_of kwargs' /\
  predict_single self kwargs = predict_single self kwargs'.
Proof.
  intros H.
  assert (E : sample_of kwargs = sample_of kwargs').
  { unfold sample_of. f_equal. apply map_ext_in. intros n Hn.
    rewrite List.Forall_forall in H. rewrite (H n Hn). reflexivity. }
  split; [exact E|]. unfold predict_single. rewrite E. reflexivity.
Qed.

Lemma predict_single_fields_witness :
  Forall (same_field sample_kwargs
            (<["patient_id" := Str "A-17"]> (<["thal" := NaN]> sample_kwargs)))
         get_feature_names /\
  sample_of sample_kwargs
    = sample_of (<["patient_id" := Str "A-17"]> (<["thal" := NaN]> sample_kwargs)) /\
  predict_single bound_loader sample_kwargs
    = predict_single bound_loader
        (<["patient_id" := Str "A-17"]> (<["thal" := NaN]> sample_kwargs)).
Proof.
  assert (H : Forall (same_field sample_kwargs
                        (<["patient_id" := Str "A-17"]> (<["thal" := NaN]> sample_kwargs)))
                     get_feature_names).
  { repeat constructor; vm_compute; reflexivity. }
  split; [exact H|].
  apply (predict_single_fields bound_loader sample_kwargs
           (<["patient_id" := Str "A-17"]> (<["thal" := NaN]> sample_kwargs)) H).
Defined.

Lemma lookup_list_to_map_fst (d : list (string * cell)) :
  List.NoDup (map fst d) ->
  forall kv, In kv d -> (list_to_map d : gmap string cell) !! fst kv = Some (snd kv).
Proof.
  induction d as [|[k v] d IH]; intros Hnd kv Hin; [destruct Hin|].
  inversion Hnd as [|? ? Hk Hnd']; subst. cbn [list_to_map foldr].
  destruct Hin as [<-|Hin]; cbn [fst snd].
  - apply lookup_insert_eq.
  - rewrite lookup_insert_ne; [apply IH; assumption|].
    intros ->. apply Hk. apply (in_map fst) in Hin. exact Hin.
Qed.

(** X11: given one record as a dict that lists the thirteen fields in the
    order of the schema, [predict] works on the table that [predict_single]
    builds from the same record, and so returns what it returns on that
    table. *)
Theorem predict_dict_record (self : ModelLoader) (d : list (string * cell))
    (return_proba : bool) :
  map fst d = get_feature_names ->
  as_frame (XDict d) = sample_of (list_to_map d) /\
  predict self (XDict d) return_proba
  = predict self (XFrame (sample_of (list_to_map d))) return_proba.
Proof.
  intros Hd.
  assert (E : as_frame (XDict d) = sample_of (list_to_map d)).
  { unfold sample_of. cbn [as_frame]. f_equal. rewrite <- Hd, map_map.
    apply map_ext_in. intros kv Hkv. rewrite lookup_list_to_map_fst; [reflexivity| |exact Hkv].
    rewrite Hd. apply is_unique_NoDup. reflexivity. }
  split; [exact E|]. unfold predict. rewrite E. reflexivity.
Qed.

Lemma predict_dict_record_witness :
  map fst (map (fun n => (n, Num 1)) get_feature_names) = get_feature_names /\
  as_frame (XDict (map (fun n => (n, Num 1)) get_feature_names))
    = sample_of (list_to_map (map (fun n => (n, Num 1)) get_feature_names)) /\
  predict bound_loader (XDict (map (fun n => (n, Num 1)) get_feature_names)) false
  = predict bound_loader
      (XFrame (sample_of (list_to_map (map (fun n => (n, Num 1)) get_feature_names))))
      false.
Proof.
  split; [reflexivity|].
  apply (predict_dict_record bound_loader (map (fun n => (n, Num 1)) get_feature_names)
           false).
  reflexivity.
Defined.

(** ** File names against patterns *)

Lemma match_star ts s :
  match_tokens (TStar :: ts) s
  = match_tokens ts s ||
    match s with
    | EmptyString => false
    | String _ s' => match_tokens (TStar :: ts) s'
    end.
Proof. destruct s; reflexivity. Qed.

Lemma app_nil s : "" +:+ s = s.
Proof. reflexivity. Qed.

Lemma app_cons c s1 s2 : String c s1 +:+ s2 = String c (s1 +:+ s2).
Proof. reflexivity. Qed.

(** Appending to a literal text, character by character. *)
Ltac app_literal := rewrite ?app_cons, ?app_nil.

Lemma match_star_app ts s1 s2 :
  match_tokens ts s2 = true -> match_tokens (TStar :: ts) (s1 +:+ s2) = true.
Proof.
  intros H. induction s1 as [|c s1 IH]; rewrite match_star; app_literal.
  - rewrite H. reflexivity.
  - rewrite IH. apply orb_true_r.
Qed.

Lemma rfind_cons_none c a s :
  rfind c (String a s) = None -> Ascii.eqb a c = false /\ rfind c s = None.
Proof.
  cbn [rfind]. destruct (rfind c s); [discriminate|].
  destruct (Ascii.eqb a c); [discriminate | auto].
Qed.

Lemma rfind_none_cons c a s :
  Ascii.eqb a c = false -> rfind c s = None -> rfind c (String a s) = None.
Proof. intros H1 H2. cbn [rfind]. rewrite H2, H1. reflexivity. Qed.

Lemma length_app_string s1 s2 :
  String.length (s1 +:+ s2) = (String.length s1 + String.length s2)%nat.
Proof.
  induction s1 as [|c s1 IH]; app_literal; cbn [String.length]; [reflexivity|].
  rewrite IH. reflexivity.
Qed.

Lemma app_assoc_string s1 s2 s3 : (s1 +:+ s2) +:+ s3 = s1 +:+ (s2 +:+ s3).
Proof.
  induction s1 as [|c s1 IH]; app_literal; [reflexivity|]. rewrite IH. reflexivity.
Qed.

Lemma parse_pattern_literal s rest :
  bracket_free s = true ->
  forall fuel, (String.length s + String.length rest <= fuel)%nat ->
  parse_pattern fuel (s +:+ rest)
  = (literal_tokens s ++ parse_pattern (fuel - String.length s) rest)%list.
Proof.
  unfold bracket_free. induction s as [|c s IH]; intros Hfree fuel Hfuel.
  - app_literal. cbn [String.length literal_tokens app]. rewrite Nat.sub_0_r. reflexivity.
  - destruct (rfind "[" (String c s)) eqn:E; [discriminate|].
    apply rfind_cons_none in E as [Ec Es].
    destruct fuel as [|fuel]; [cbn in Hfuel; lia|].
    app_literal.
    cbn [parse_pattern literal_tokens String.length Nat.sub].
    unfold literal_token. rewrite Ec.
    rewrite IH; [|rewrite Es; reflexivity | cbn in Hfuel; lia].
    destruct (Ascii.eqb c "*"); [reflexivity|].
    destruct (Ascii.eqb c "?"); reflexivity.
Qed.

Lemma match_literal_tokens s ts str :
  match_tokens ts str = true ->
  match_tokens (literal_tokens s ++ ts) (s +:+ str) = true.
Proof.
  intros H. induction s as [|c s IH]; [exact H|].
  app_literal. cbn [literal_tokens app]. unfold literal_token.
  destruct (Ascii.eqb c "*").
  - rewrite match_star. rewrite (match_star _ (s +:+ str)), IH. apply orb_true_r.
  - destruct (Ascii.eqb c "?"); cbn [match_tokens token_matches andb].
    + exact IH.
    + rewrite Ascii.eqb_refl. exact IH.
Qed.

(** A pattern made of a bracket-free prefix, an underscore, a star and a
    suffix matches the prefix followed by an underscore, any text and the
    suffix. *)
Lemma fnmatch_kind kind text :
  bracket_free kind = true ->
  fnmatch (kind +:+ "_*.pkl") (kind +:+ "_" +:+ text +:+ ".pkl") = true.
Proof.
  intros Hfree. unfold fnmatch.
  rewrite (parse_pattern_literal kind "_*.pkl" Hfree)
    by (rewrite length_app_string; lia).
  rewrite length_app_string.
  replace (String.length kind + String.length "_*.pkl" - String.length kind)%nat
    with 6%nat by (cbn; lia).
  apply match_literal_tokens.
  change (match_tokens (TLit "_" :: TStar :: [TLit "."; TLit "p"; TLit "k"; TLit "l"])
            (String "_" (text +:+ ".pkl")) = true).
  cbn [match_tokens token_matches andb]. rewrite Ascii.eqb_refl. cbn [andb].
  apply (match_star_app [TLit "."; TLit "p"; TLit "k"; TLit "l"] text ".pkl").
  reflexivity.
Qed.

Lemma fnmatch_summary text :
  fnmatch "training_summary_*.json" ("training_summary_" +:+ text +:+ ".json") = true.
Proof.
  unfold fnmatch.
  change (match_tokens
            (literal_tokens "training_summary_" ++
             TStar :: [TLit "."; TLit "j"; TLit "s"; TLit "o"; TLit "n"])
            ("training_summary_" +:+ (text +:+ ".json")) = true).
  apply match_literal_tokens.
  apply (match_star_app [TLit "."; TLit "j"; TLit "s"; TLit "o"; TLit "n"] text ".json").
  reflexivity.
Qed.

(** ** From a training run to a loaded model *)

Lemma digit_cases n :
  In (Train.digit n) ["0"; "1"; "2"; "3"; "4"; "5"; "6"; "7"; "8"; "9"]%char.
Proof.
  unfold Train.digit. pose proof (Nat.mod_upper_bound n 10) as H.
  destruct (n mod 10) as [|m]; [cbn; tauto|].
  do 9 (destruct m as [|m]; [cbn; tauto|]). lia.
Qed.

Lemma digit_not_underscore n : Ascii.eqb (Train.digit n) "_" = false.
Proof.
  pose proof (digit_cases n) as H. cbn [In] in H.
  repeat (destruct H as [<-|H]; [reflexivity|]). destruct H.
Qed.

Lemma time_token_one_word now : rfind "_" (Train.time_token now) = None.
Proof.
  unfold Train.time_token, Train.two_digits. app_literal.
  repeat (apply rfind_none_cons; [apply digit_not_underscore|]). reflexivity.
Qed.

Lemma rfind_dot_pkl s : rfind "." (s +:+ ".pkl") = Some (String.length s).
Proof.
  induction s as [|c s IH]; [reflexivity|].
  app_literal. cbn [rfind String.length]. rewrite IH. reflexivity.
Qed.

Lemma substring_app s t : substring 0 (String.length s) (s +:+ t) = s.
Proof.
  induction s as [|c s IH]; app_literal; cbn [String.length substring].
  - destruct t; reflexivity.
  - rewrite IH. reflexivity.
Qed.

Lemma stem_of_pkl c s : stem_of (String c s +:+ ".pkl") = String c s.
Proof.
  unfold stem_of. rewrite rfind_dot_pkl, length_app_string.
  replace ((0 <? String.length (String c s))%nat) with true by reflexivity.
  replace ((String.length (String c s) <?
            String.length (String c s) + String.length ".pkl" - 1)%nat) with true
    by (symmetry; apply Nat.ltb_lt; cbn; lia).
  cbn [andb]. apply substring_app.
Qed.

Lemma split_one_word sep s : rfind sep s = None -> split sep s = [s].
Proof.
  induction s as [|c s IH]; [reflexivity|]. intros H.
  apply rfind_cons_none in H as [Hc Hs]. cbn [split]. rewrite Hc, (IH Hs). reflexivity.
Qed.

Lemma split_last_word sep pre word :
  rfind sep word = None ->
  exists w ws, split sep (pre +:+ String sep word) = w :: ws /\ last ws = Some word.
Proof.
  intros Hword. induction pre as [|c pre IH]; app_literal; cbn [split].
  - rewrite Ascii.eqb_refl, (split_one_word _ _ Hword). eexists _, _. split; reflexivity.
  - destruct IH as [w [ws [E Hlast]]]. rewrite E.
    destruct (Ascii.eqb c sep); eexists _, _; (split; [reflexivity|]).
    + destruct ws; [discriminate | exact Hlast].
    + exact Hlast.
Qed.

Lemma getitem_last_word sep pre word :
  rfind sep word = None ->
  getitem_last (split sep (pre +:+ String sep word)) = Ok word.
Proof.
  intros H. destruct (split_last_word sep pre word H) as [w [ws [E Hlast]]].
  unfold getitem_last. rewrite E. destruct ws; [discriminate|].
  cbn [last] in *. rewrite Hlast. reflexivity.
Qed.

Lemma prefix_refl s : String.prefix s s = true.
Proof.
  induction s as [|c s IH]; [reflexivity|]. cbn [String.prefix].
  destruct (ascii_dec c c); [exact IH | contradiction].
Qed.

Lemma contains_suffix pre word : contains word (pre +:+ word) = true.
Proof.
  induction pre as [|c pre IH]; app_literal.
  - destruct word; cbn [contains]; rewrite prefix_refl; reflexivity.
  - cbn [contains]. rewrite IH. apply orb_true_r.
Qed.

(** *** Directory entries after a write *)

Lemma In_upsert_new n now c entries : In (mkFile n now c) (upsert n now c entries).
Proof.
  induction entries as [|f entries IH]; cbn [upsert]; [left; reflexivity|].
  destruct (String.eqb (fname f) n); [left; reflexivity | right; exact IH].
Qed.

Lemma In_upsert_old n now c entries f :
  In f entries -> fname f <> n -> In f (upsert n now c entries).
Proof.
  intros Hin Hn. induction entries as [|g entries IH]; [destruct Hin|].
  cbn [upsert]. destruct (String.eqb_spec (fname g) n) as [E|E].
  - destruct Hin as [->|Hin]; [contradiction | right; exact Hin].
  - destruct Hin as [->|Hin]; [left; reflexivity | right; exact (IH Hin)].
Qed.

Lemma In_upsert_inv n now c entries f :
  In f (upsert n now c entries) -> f = mkFile n now c \/ In f entries.
Proof.
  induction entries as [|g entries IH]; cbn [upsert].
  - intros [<-|[]]. left. reflexivity.
  - destruct (String.eqb (fname g) n).
    + intros [<-|Hin]; [left; reflexivity | right; right; exact Hin].
    + intros [<-|Hin]; [right; left; reflexivity|].
      destruct (IH Hin) as [->|H]; [left; reflexivity | right; right; exact H].
Qed.

Lemma max_by_unique {A} (key : A -> Q) (l : list A) (m : A) :
  In m l -> (forall x, In x l -> x = m \/ (key x < key m)%Q) -> max_by key l = Ok m.
Proof.
  intros Hin Hmax.
  destruct (max_by_nonempty key l) as [m' E]; [intros ->; destruct Hin|].
  rewrite E. f_equal.
  apply max_by_first_greatest, first_greatest_ge in E as [Hin' Hge].
  destruct (Hmax m' Hin') as [->|Hlt]; [reflexivity|].
  exfalso. apply (Qlt_not_le _ _ Hlt). apply Hge. exact Hin.
Qed.

Lemma find_unique {A} (p : A -> bool) (l : list A) (x : A) :
  In x l -> p x = true -> (forall y, In y l -> p y = true -> y = x) ->
  List.find p l = Some x.
Proof.
  intros Hin Hp Huniq. destruct (List.find p l) as [y|] eqn:E.
  - apply List.find_some in E as [Hy Hpy]. f_equal. apply Huniq; assumption.
  - rewrite (List.find_none _ _ E x Hin) in Hp. discriminate.
Qed.

(** *** Names that stay inside the models directory *)

Lemma digit_not_slash n : Ascii.eqb (Train.digit n) "/" = false.
Proof.
  pose proof (digit_cases n) as H. cbn [In] in H.
  repeat (destruct H as [<-|H]; [reflexivity|]). destruct H.
Qed.

Lemma strftime_no_slash now : rfind "/" (Train.strftime now) = None.
Proof.
  unfold Train.strftime, Train.date_token, Train.time_token, Train.four_digits,
    Train.two_digits. app_literal.
  repeat (apply rfind_none_cons; [first [apply digit_not_slash | reflexivity]|]).
  reflexivity.
Qed.

Lemma rfind_app_none c s1 s2 :
  rfind c s1 = None -> rfind c s2 = None -> rfind c (s1 +:+ s2) = None.
Proof.
  intros H1 H2. induction s1 as [|a s1 IH]; app_literal; [exact H2|].
  apply rfind_cons_none in H1 as [Ha Hs]. apply rfind_none_cons; auto.
Qed.

Lemma no_char_app c s1 s2 :
  no_char c s1 = true -> no_char c s2 = true -> no_char c (s1 +:+ s2) = true.
Proof.
  unfold no_char. intros H1 H2.
  destruct (rfind c s1) eqn:E1; [discriminate|].
  destruct (rfind c s2) eqn:E2; [discriminate|].
  rewrite (rfind_app_none _ _ _ E1 E2). reflexivity.
Qed.

Lemma prefix_nil s : String.prefix "" s = true.
Proof. destruct s; reflexivity. Qed.

(** A doubled star cannot arise where a kind meets the rest of the
    pattern, which starts with an underscore. *)
Lemma no_doubled_star_pattern kind :
  contains "**" kind = false -> contains "**" (kind +:+ "_*.pkl") = false.
Proof.
  induction kind as [|c kind IH]; [reflexivity|]. cbn [contains]. intros H.
  apply orb_false_iff in H as [Hp Hk]. app_literal. cbn [contains].
  rewrite (IH Hk), orb_false_r. clear IH Hk.
  cbn [String.prefix] in *. destruct (ascii_dec "*" c); [|reflexivity].
  destruct kind as [|d kind]; app_literal; [reflexivity|].
  cbn [String.prefix] in *. destruct (ascii_dec "*" d); [|reflexivity].
  rewrite prefix_nil in *. exact Hp.
Qed.

Lemma one_component_pattern kind :
  one_component kind = true -> one_component (kind +:+ "_*.pkl") = true.
Proof.
  unfold one_component. intros H. apply andb_true_iff in H as [Hs Hd].
  apply negb_true_iff in Hd.
  rewrite (no_char_app "/" kind "_*.pkl" Hs eq_refl), (no_doubled_star_pattern _ Hd).
  reflexivity.
Qed.

Lemma no_slash_saved prefix now suffix :
  no_char "/" prefix = true -> no_char "/" suffix = true ->
  no_char "/" (prefix +:+ Train.strftime now +:+ suffix) = true.
Proof.
  intros Hp Hs. apply no_char_app; [exact Hp|]. apply no_char_app; [|exact Hs].
  unfold no_char. rewrite strftime_no_slash. reflexivity.
Qed.

(** X12: the names [save_models] gives its files are names the loader looks
    for.  Take a model name of ASCII text whose normal form holds no path
    separator, no doubled star and no opening bracket, and the timestamp of
    any reading of the clock.  Then the pattern of a loader created for the
    name is one path component and matches the name of the file the model
    is saved to; the preprocessor and the summary of the run are matched by
    the loader's patterns for them; and the three names hold no path
    separator, so the files lie in the models directory itself. *)
Theorem saved_names_match (display_name : string) (now : Train.datetime)
    (dir : option string) :
  let kind := model_name (LoadModel.init display_name dir) in
  let timestamp := Train.strftime now in
  is_ascii display_name = true ->
  bracket_free kind = true ->
  one_component kind = true ->
  (one_component (kind +:+ "_*.pkl") = true /\
   fnmatch (kind +:+ "_*.pkl") (name (Train.model_filename display_name timestamp))
     = true /\
   no_char "/" (name (Train.model_filename display_name timestamp)) = true /\
   parent (Train.model_filename display_name timestamp)
     = model_dir (LoadModel.init display_name None)) /\
  (fnmatch "preprocessor_*.pkl" (name (Train.preprocessor_filename timestamp)) = true /\
   no_char "/" (name (Train.preprocessor_filename timestamp)) = true /\
   parent (Train.preprocessor_filename timestamp)
     = model_dir (LoadModel.init display_name None)) /\
  (fnmatch "training_summary_*.json" (name (Train.summary_filename timestamp)) = true /\
   no_char "/" (name (Train.summary_filename timestamp)) = true /\
   parent (Train.summary_filename timestamp)
     = model_dir (LoadModel.init display_name None)).
Proof.
  cbn zeta. cbn [LoadModel.init model_name model_dir]. intros _ Hfree Hone.
  split; [|split]; repeat split.
  - apply one_component_pattern. exact Hone.
  - apply (fnmatch_kind (normalize display_name) (Train.strftime now) Hfree).
  - cbn [Train.model_filename name].
    rewrite <- (app_assoc_string (normalize display_name) "_").
    apply no_slash_saved; [|reflexivity].
    apply no_char_app; [|reflexivity].
    unfold one_component in Hone. apply andb_true_iff in Hone as [Hs _]. exact Hs.
  - apply (fnmatch_kind "preprocessor" (Train.strftime now)). reflexivity.
  - apply (no_slash_saved "preprocessor_" now ".pkl"); reflexivity.
  - apply (fnmatch_summary (Train.strftime now)).
  - apply (no_slash_saved "training_summary_" now ".json"); reflexivity.
Qed.

Lemma saved_names_match_witness :
  is_ascii "Random Forest" = true /\
  bracket_free (model_name (LoadModel.init "Random Forest" None)) = true /\
  one_component (model_name (LoadModel.init "Random Forest" None)) = true /\
  (one_component "random_forest_*.pkl" = true /\
   fnmatch "random_forest_*.pkl" "random_forest_20240102_111111.pkl" = true /\
   no_char "/" "random_forest_20240102_111111.pkl" = true /\
   parent (Train.model_filename "Random Forest" (Train.strftime second_run_time))
     = "models") /\
  (fnmatch "preprocessor_*.pkl" "preprocessor_20240102_111111.pkl" = true /\
   no_char "/" "preprocessor_20240102_111111.pkl" = true /\
   parent (Train.preprocessor_filename (Train.strftime second_run_time)) = "models") /\
  (fnmatch "training_summary_*.json" "training_summary_20240102_111111.json" = true /\
   no_char "/" "training_summary_20240102_111111.json" = true /\
   parent (Train.summary_filename (Train.strftime second_run_time)) = "models").
Proof.
  split; [reflexivity|]. split; [reflexivity|]. split; [reflexivity|].
  exact (saved_names_match "Random Forest" second_run_time None
           eq_refl eq_refl eq_refl).
Defined.

(** The store after [save_models] has run for the two classifiers. *)
Lemma run_save_models fs logistic forest preprocessor now clock :
  let timestamp := Train.strftime now in
  let summary :=
    VDict [("timestamp", VStr timestamp);
           ("models", VDict [("Logistic Regression", Train.summary_entry logistic);
                             ("Random Forest", Train.summary_entry forest)])] in
  run (Train.save_models (trained logistic forest) preprocessor now clock) fs
  = (Ok summary,
     write_file (Train.summary_filename timestamp) (clock 3%nat) (Json summary)
       (write_file (Train.preprocessor_filename timestamp) (clock 2%nat)
          (Pickle (saved_state preprocessor))
          (write_file (Train.model_filename "Random Forest" timestamp) (clock 1%nat)
             (Pickle (Train.model forest))
             (write_file (Train.model_filename "Logistic Regression" timestamp)
                (clock 0%nat) (Pickle (Train.model logistic)) fs)))).
Proof. reflexivity. Qed.

(** The token the loader takes from the name of a model file of a run is
    the time of day of the run. *)
Lemma model_token now :
  getitem_last (split "_" (stem (Train.model_filename "Random Forest" (Train.strftime now))))
  = Ok (Train.time_token now).
Proof.
  unfold stem.
  change (name (Train.model_filename "Random Forest" (Train.strftime now)))
    with (String "r" ("andom_forest_" +:+ Train.strftime now) +:+ ".pkl").
  rewrite stem_of_pkl.
  change (String "r" ("andom_forest_" +:+ Train.strftime now))
    with (("random_forest_" +:+ Train.date_token now)
          +:+ String "_" (Train.time_token now)).
  apply getitem_last_word, time_token_one_word.
Qed.

Lemma preprocessor_stem now :
  contains (Train.time_token now)
    (stem_of (name (Train.preprocessor_filename (Train.strftime now)))) = true.
Proof.
  change (name (Train.preprocessor_filename (Train.strftime now)))
    with (String "p" ("reprocessor_" +:+ Train.strftime now) +:+ ".pkl").
  rewrite stem_of_pkl.
  change (String "p" ("reprocessor_" +:+ Train.strftime now))
    with ("preprocessor_" +:+ (Train.date_token now +:+ ("_" +:+ Train.time_token now))).
  rewrite <- !app_assoc_string. apply contains_suffix.
Qed.

Lemma older_than_In t entries f :
  older_than t entries = true -> In f entries -> (st_mtime f < t)%Q.
Proof.
  unfold older_than. intros H Hin.
  apply Qlt_bool_true. exact (proj1 (List.forallb_forall _ _) H f Hin).
Qed.

Lemma load_after_save_models fs logistic forest preprocessor now clock :
  (forall k, older_than (clock k) (fs MODELS_DIR) = true) ->
  no_preprocessor_with (Train.time_token now) (fs MODELS_DIR) = true ->
  load_best_model
    (snd (run (Train.save_models (trained logistic forest) preprocessor now clock) fs))
    None
  = (Ok tt,
     mkLoader MODELS_DIR "random_forest" (Train.model forest) (Some preprocessor)
       (Train.summary_entry forest)).
Proof.
  intros Hold Hpp. rewrite run_save_models. cbn [snd].
  pose proof (model_token now) as Htoken.
  pose proof (preprocessor_stem now) as Hstem.
  set (timestamp := Train.strftime now) in *.
  set (summary := VDict _).
  set (lr := Train.model_filename "Logistic Regression" timestamp).
  set (rf := Train.model_filename "Random Forest" timestamp) in *.
  set (pp := Train.preprocessor_filename timestamp) in *.
  set (sm := Train.summary_filename timestamp).
  set (lrF := mkFile (name lr) (clock 0%nat) (Pickle (Train.model logistic))).
  set (rfF := mkFile (name rf) (clock 1%nat) (Pickle (Train.model forest))).
  set (ppF := mkFile (name pp) (clock 2%nat) (Pickle (saved_state preprocessor))).
  set (smF := mkFile (name sm) (clock 3%nat) (Json summary)).
  set (fs' := write_file sm _ _ _).
  assert (Hentries : fs' MODELS_DIR
            = upsert (name sm) (clock 3%nat) (Json summary)
                (upsert (name pp) (clock 2%nat) (Pickle (saved_state preprocessor))
                   (upsert (name rf) (clock 1%nat) (Pickle (Train.model forest))
                      (upsert (name lr) (clock 0%nat) (Pickle (Train.model logistic))
                         (fs MODELS_DIR))))).
  { unfold fs', write_file. cbn [parent sm pp rf lr Train.summary_filename
      Train.preprocessor_filename Train.model_filename].
    rewrite !String.eqb_refl. reflexivity. }
  assert (Hall : forall x, In x (fs' MODELS_DIR) ->
            x = smF \/ x = ppF \/ x = rfF \/ x = lrF \/ In x (fs MODELS_DIR)).
  { rewrite Hentries. intros x H.
    apply In_upsert_inv in H as [->|H]; [tauto|].
    apply In_upsert_inv in H as [->|H]; [tauto|].
    apply In_upsert_inv in H as [->|H]; [tauto|].
    apply In_upsert_inv in H as [->|H]; tauto. }
  assert (Hin_sm : In smF (fs' MODELS_DIR)).
  { rewrite Hentries. apply In_upsert_new. }
  assert (Hin_pp : In ppF (fs' MODELS_DIR)).
  { rewrite Hentries. apply In_upsert_old; [apply In_upsert_new|].
    intros E. vm_compute in E. discriminate E. }
  assert (Hin_rf : In rfF (fs' MODELS_DIR)).
  { rewrite Hentries. apply In_upsert_old; [apply In_upsert_old; [apply In_upsert_new|]|];
      intros E; vm_compute in E; discriminate E. }
  (* the latest random forest *)
  assert (Hlatest : max_by st_mtime (glob fs' MODELS_DIR "random_forest_*.pkl") = Ok rfF).
  { apply max_by_unique.
    - apply List.filter_In. split; [exact Hin_rf|].
      exact (fnmatch_kind "random_forest" timestamp eq_refl).
    - intros x Hx. apply List.filter_In in Hx as [Hx Hm].
      destruct (Hall x Hx) as [->|[->|[->|[->|Hx_old]]]];
        try (vm_compute in Hm; discriminate Hm).
      + left. reflexivity.
      + right. exact (older_than_In _ _ _ (Hold 1%nat) Hx_old). }
  assert (Hrf : lookup_file fs' rf = Some rfF).
  { unfold fs'.
    rewrite (lookup_write_file_ne sm rf), (lookup_write_file_ne pp rf);
      [apply lookup_write_file| |];
      intros E; apply (f_equal name) in E; vm_compute in E; discriminate E. }
  (* its preprocessor *)
  assert (Hpaired : matching_preprocessor (Train.time_token now)
                      (glob fs' MODELS_DIR "preprocessor_*.pkl") = Ok ppF).
  { unfold matching_preprocessor. rewrite (find_unique _ _ ppF); [reflexivity| | |].
    - apply List.filter_In. split; [exact Hin_pp|].
      exact (fnmatch_kind "preprocessor" timestamp eq_refl).
    - exact Hstem.
    - intros y Hy Hc. apply List.filter_In in Hy as [Hy Hm].
      destruct (Hall y Hy) as [->|[->|[->|[->|Hy_old]]]];
        try (vm_compute in Hm; discriminate Hm); [reflexivity|].
      unfold no_preprocessor_with in Hpp.
      pose proof (proj1 (List.forallb_forall _ _) Hpp y Hy_old) as Hno.
      cbn beta in Hno. rewrite Hm, Hc in Hno. discriminate Hno. }
  assert (Hload : load fs' pp = Ok preprocessor).
  { unfold load, open_read, fs'.
    rewrite (lookup_write_file_ne sm pp), lookup_write_file.
    - destruct preprocessor as [s i b]. reflexivity.
    - intros E. apply (f_equal name) in E. vm_compute in E. discriminate E. }
  (* the summary *)
  assert (Hsummary : max_by st_mtime (glob fs' MODELS_DIR "training_summary_*.json")
                     = Ok smF).
  { apply max_by_unique.
    - apply List.filter_In. split; [exact Hin_sm | exact (fnmatch_summary timestamp)].
    - intros x Hx. apply List.filter_In in Hx as [Hx Hm].
      destruct (Hall x Hx) as [->|[->|[->|[->|Hx_old]]]];
        try (vm_compute in Hm; discriminate Hm).
      + left. reflexivity.
      + right. exact (older_than_In _ _ _ (Hold 3%nat) Hx_old). }
  assert (Hsm : open_read fs' sm = Ok (Json summary)).
  { apply open_read_write_file. }
  unfold load_best_model. rewrite run_load_latest_model. cbn zeta.
  change (model_dir (LoadModel.init "random_forest" None)) with MODELS_DIR.
  change (model_name (LoadModel.init "random_forest" None) +:+ "_*.pkl")
    with "random_forest_*.pkl".
  rewrite Hlatest, run_load_model_from.
  change (entry_path MODELS_DIR rfF) with rf.
  change (model_dir (LoadModel.init "random_forest" None)) with MODELS_DIR.
  unfold path_exists, open_read. rewrite Hrf.
  cbn [negb mbind result_bind fcontent rfF pickle_load]. cbn zeta.
  destruct (glob fs' MODELS_DIR "preprocessor_*.pkl") as [|f files] eqn:Eglob;
    [discriminate Hpaired|]. cbn [is_empty].
  rewrite Htoken. cbn [mbind result_bind]. rewrite Hpaired.
  change (entry_path MODELS_DIR ppF) with pp. rewrite Hload.
  rewrite (run_load_model_info fs' _ smF summary
             [("Logistic Regression", Train.summary_entry logistic);
              ("Random Forest", Train.summary_entry forest)]).
  - reflexivity.
  - exact Hsummary.
  - exact Hsm.
  - reflexivity.
Qed.

(** X13: a training run followed by [load_best_model].  When the files
    already in the models directory are older than those the run writes,
    and no preprocessor file among them carries the run's time of day in
    its stem, [load_best_model] on the store that [save_models] leaves binds
    the random forest of the run, the preprocessor of the run, and the
    scores the run's summary lists for the random forest. *)
Theorem train_then_load (fs : FileSystem) (logistic forest : Train.TrainResult)
    (preprocessor : HeartDiseasePreprocessor) (now : Train.datetime) (clock : nat -> Q) :
  (forall k, older_than (clock k) (fs MODELS_DIR) = true) ->
  no_preprocessor_with (Train.time_token now) (fs MODELS_DIR) = true ->
  exists summary fs',
    run (Train.save_models (trained logistic forest) preprocessor now clock) fs
      = (Ok summary, fs') /\
    load_best_model fs' None
    = (Ok tt,
       mkLoader MODELS_DIR "random_forest" (Train.model forest) (Some preprocessor)
         (Train.summary_entry forest)).
Proof.
  intros Hold Hpp.
  pose proof (load_after_save_models fs logistic forest preprocessor now clock Hold Hpp)
    as H.
  rewrite run_save_models in H. cbn [snd] in H.
  eexists _, _. split; [apply run_save_models | exact H].
Qed.

Lemma train_then_load_witness :
  (forall k, older_than (run_clock k) (one_run MODELS_DIR) = true) /\
  no_preprocessor_with (Train.time_token second_run_time) (one_run MODELS_DIR) = true /\
  exists summary fs',
    run (Train.save_models (trained logistic_result forest_result)
           (fitted_on schema_frame) second_run_time run_clock) one_run
      = (Ok summary, fs') /\
    load_best_model fs' None
    = (Ok tt,
       mkLoader MODELS_DIR "random_forest" (Train.model forest_result)
         (Some (fitted_on schema_frame)) (Train.summary_entry forest_result)).
Proof.
  assert (H1 : forall k, older_than (run_clock k) (one_run MODELS_DIR) = true).
  { intros k. vm_compute. reflexivity. }
  assert (H2 : no_preprocessor_with (Train.time_token second_run_time)
                 (one_run MODELS_DIR) = true).
  { vm_compute. reflexivity. }
  split; [exact H1|]. split; [exact H2|].
  exact (train_then_load one_run logistic_result forest_result (fitted_on schema_frame)
           second_run_time run_clock H1 H2).
Defined.

(** ** The prediction service *)

Lemma load_best_model_needs_files fs dir :
  let self := LoadModel.init "random_forest" dir in
  glob fs (model_dir self) "random_forest_*.pkl" = [] \/
  glob fs (model_dir self) "preprocessor_*.pkl" = [] ->
  exists e, fst (load_best_model fs dir) = Raise e.
Proof.
  cbn zeta. intros H. unfold load_best_model. rewrite run_load_latest_model. cbn zeta.
  change (model_name (LoadModel.init "random_forest" dir) +:+ "_*.pkl")
    with "random_forest_*.pkl".
  destruct H as [H|H].
  - rewrite H. eexists. reflexivity.
  - destruct (max_by st_mtime _) as [latest|e]; [|eexists; reflexivity].
    rewrite run_load_model_from.
    destruct (negb (path_exists fs _)); [eexists; reflexivity|].
    destruct (open_read fs _ ≫= pickle_load) as [m|e]; [|eexists; reflexivity].
    cbn zeta. rewrite H. eexists. reflexivity.
Qed.

(** X14: a service started on a models directory that holds no file
    matching ["random_forest_*.pkl"], or none matching
    ["preprocessor_*.pkl"], starts all the same, with no loader.  It then
    reports itself unhealthy, and answers every prediction request, single
    or batch, with status 503. *)
Theorem service_without_model (fs : FileSystem) :
  glob fs MODELS_DIR "random_forest_*.pkl" = [] \/
  glob fs MODELS_DIR "preprocessor_*.pkl" = [] ->
  Api.load_model fs = None /\
  Api.health_check (Api.load_model fs) = Api.mkHealth "unhealthy" false "Model not loaded" /\
  (forall input_data,
     Api.predict (Api.load_model fs) input_data = Api.HTTPException 503 not_loaded) /\
  (forall inputs,
     Api.predict_batch (Api.load_model fs) inputs = Api.HTTPException 503 not_loaded).
Proof.
  intros H. destruct (load_best_model_needs_files fs None H) as [e He].
  assert (E : Api.load_model fs = None).
  { unfold Api.load_model. destruct (load_best_model fs None) as [res loader].
    cbn [fst] in He. rewrite He. reflexivity. }
  rewrite E. repeat split.
Qed.

Lemma service_without_model_witness :
  (glob no_pickled_model MODELS_DIR "random_forest_*.pkl" = [] \/
   glob no_pickled_model MODELS_DIR "preprocessor_*.pkl" = []) /\
  Api.load_model no_pickled_model = None /\
  Api.health_check (Api.load_model no_pickled_model)
    = Api.mkHealth "unhealthy" false "Model not loaded" /\
  (forall input_data,
     Api.predict (Api.load_model no_pickled_model) input_data
     = Api.HTTPException 503 not_loaded) /\
  (forall inputs,
     Api.predict_batch (Api.load_model no_pickled_model) inputs
     = Api.HTTPException 503 not_loaded).
Proof.
  assert (H : glob no_pickled_model MODELS_DIR "random_forest_*.pkl" = [] \/
              glob no_pickled_model MODELS_DIR "preprocessor_*.pkl" = []).
  { left. vm_compute. reflexivity. }
  split; [exact H|]. exact (service_without_model no_pickled_model H).
Defined.

Lemma predict_single_inv self kwargs r :
  predict_single self kwargs = Ok r ->
  (probability r <= confidence r)%Q /\
  prediction_label r
  = (if (prediction r =? 1)%Z then "Disease Present" else "No Disease").
Proof.
  unfold predict_single.
  destruct (predict self _ false) as [labels|e]; cbn [mbind result_bind]; [|discriminate].
  destruct (getitem labels 0) as [y|e]; cbn [mbind result_bind]; [|discriminate].
  destruct (predict self _ true) as [probas|e]; cbn [mbind result_bind]; [|discriminate].
  destruct (getitem probas 0) as [pr|e]; cbn [mbind result_bind]; [|discriminate].
  destruct (getitem pr 1) as [p1|e] eqn:E1; cbn [mbind result_bind]; [|discriminate].
  destruct (max_by (fun p => p) pr) as [pmax|e] eqn:Em; cbn [mbind result_bind];
    [|discriminate].
  intros [= <-]. cbn [probability confidence prediction prediction_label].
  split; [|reflexivity].
  apply max_by_first_greatest, first_greatest_ge in Em as [_ Hmax].
  apply (Hmax p1). eapply getitem_In. exact E1.
Qed.

Lemma PredictionResponse_Some result body :
  Api.PredictionResponse result = Some body ->
  body = result /\
  (0 <= probability result)%Q /\ (probability result <= 1)%Q /\
  (0 <= confidence result)%Q /\ (confidence result <= 1)%Q.
Proof.
  unfold Api.PredictionResponse.
  destruct (Qle_bool 0 (probability result)) eqn:E1; [|discriminate].
  destruct (Qle_bool (probability result) 1) eqn:E2; [|discriminate].
  destruct (Qle_bool 0 (confidence result)) eqn:E3; [|discriminate].
  destruct (Qle_bool (confidence result) 1) eqn:E4; [|discriminate].
  cbn [andb]. intros [= <-]. apply Qle_bool_iff in E1, E2, E3, E4. auto.
Qed.

(** X15: what [POST /predict] answers.  A body is returned only when a
    loader is present and [predict_single] returned that body for the fields
    of the request; its probability and its confidence then lie between [0]
    and [1], the confidence is at least the probability, and its label text
    agrees with its label.  Status 503 is answered exactly when no loader is
    present; every failure with a loader present, an exception of
    [predict_single] or a result outside the response schema, is answered
    with status 500 and named in the detail. *)
Theorem predict_answers (model_loader : option ModelLoader)
    (input_data : Api.HeartDiseaseInput) :
  match Api.predict model_loader input_data with
  | Api.Success body =>
      exists loader,
        model_loader = Some loader /\
        predict_single loader (Api.dict input_data) = Ok body /\
        (0 <= probability body)%Q /\
        (probability body <= confidence body)%Q /\
        (confidence body <= 1)%Q /\
        prediction_label body
        = (if (prediction body =? 1)%Z then "Disease Present" else "No Disease")
  | Api.HTTPException status_code detail =>
      (status_code = 503%nat /\ model_loader = None /\ detail = not_loaded) \/
      (status_code = 500%nat /\
       exists loader,
         model_loader = Some loader /\
         ((exists e,
             predict_single loader (Api.dict input_data) = Raise e /\
             detail = Api.Failure "Prediction failed: " (Api.Raised e)) \/
          (exists result,
             predict_single loader (Api.dict input_data) = Ok result /\
             Api.PredictionResponse result = None /\
             detail = Api.Failure "Prediction failed: " Api.ValidationError)))
  end.
Proof.
  unfold Api.predict. destruct model_loader as [loader|]; [|left; auto].
  cbn zeta. destruct (predict_single loader (Api.dict input_data)) as [result|e] eqn:E.
  - destruct (Api.PredictionResponse result) as [body|] eqn:Ev.
    + apply PredictionResponse_Some in Ev as [-> [H1 [H2 [H3 H4]]]].
      destruct (predict_single_inv _ _ _ E) as [H5 H6].
      exists loader. auto 10.
    + right. split; [reflexivity|]. exists loader. split; [reflexivity|].
      right. exists result. auto.
  - right. split; [reflexivity|]. exists loader. split; [reflexivity|].
    left. exists e. auto.
Qed.

Lemma predict_each_spec loader inputs :
  match Api.predict_each loader inputs with
  | Ok results =>
      Forall2 (fun input_data result =>
                 predict_single loader (Api.dict input_data) = Ok result)
              inputs results
  | Raise e =>
      exists input_data,
        In input_data inputs /\ predict_single loader (Api.dict input_data) = Raise e
  end.
Proof.
  induction inputs as [|input_data inputs IH]; cbn [Api.predict_each];
    [constructor|].
  destruct (predict_single loader (Api.dict input_data)) as [result|e] eqn:E;
    cbn [mbind result_bind].
  - destruct (Api.predict_each loader inputs) as [results|e];
      cbn [mbind result_bind mret result_ret].
    + constructor; assumption.
    + destruct IH as [i [Hin Hi]]. exists i. split; [right; exact Hin | exact Hi].
  - exists input_data. split; [left; reflexivity | exact E].
Qed.

(** X16: what [POST /predict/batch] answers when a loader is present.  A
    body is returned only when [predict_single] returned normally for every
    record of the batch: it then holds one prediction per record, in the
    order of the records, and their number.  Otherwise the whole batch is
    answered with status 500, the detail naming an exception that
    [predict_single] raised for one of the records: no partial result is
    returned.  The results of a batch are not checked against the response
    schema of the single prediction. *)
Theorem predict_batch_answers (loader : ModelLoader)
    (inputs : list Api.HeartDiseaseInput) :
  match Api.predict_batch (Some loader) inputs with
  | Api.Success body =>
      Api.count body = length inputs /\
      Forall2 (fun input_data result =>
                 predict_single loader (Api.dict input_data) = Ok result)
              inputs (Api.predictions body)
  | Api.HTTPException status_code detail =>
      status_code = 500%nat /\
      exists input_data e,
        In input_data inputs /\
        predict_single loader (Api.dict input_data) = Raise e /\
        detail = Api.Failure "Batch prediction failed: " (Api.Raised e)
  end.
Proof.
  unfold Api.predict_batch. pose proof (predict_each_spec loader inputs) as H.
  destruct (Api.predict_each loader inputs) as [results|e].
  - cbn [Api.count Api.predictions]. split; [|exact H].
    symmetry. eapply Forall2_length. exact H.
  - split; [reflexivity|]. destruct H as [i [Hin Hi]]. exists i, e. auto.
Qed.

Lemma predict_single_bound self c p median mean scale X0 p0 kwargs :
  model self = VClassifier c ->
  preprocessor self = Some p ->
  run (fit median mean scale X0) p0 = (Ok tt, p) ->
  all_observed X0 = true ->
  labels X0 = get_feature_names ->
  binary_classifier c 13 ->
  numeric_frame (sample_of kwargs) = true ->
  exists X_scaled y q0 q1,
    transform p (sample_of kwargs) = Ok X_scaled /\
    clf_predict c X_scaled = Ok [y] /\
    clf_predict_proba c X_scaled = Ok [[q0; q1]] /\
    (y = 0 \/ y = 1)%Z /\
    predict_single self kwargs
    = Ok (mkPrediction y (if (y =? 1)%Z then "Disease Present" else "No Disease")
            q1 (if Qlt_bool q0 q1 then q1 else q0)).
Proof.
  intros Hm Hp Hfit Hobs H13 Hbin Hnum.
  destruct (transform_fitted median mean scale X0 p0 p (sample_of kwargs)
              Hfit Hobs Hnum) as [Xi [Xs [_ [_ [Ht Hshape]]]]].
  { cbn. lia. }
  { rewrite H13. reflexivity. }
  unfold m_shape, shape in Hshape. injection Hshape as Hrows Hcols.
  cbn in Hrows, Hcols.
  destruct (Hbin Xs Hcols) as [ys [ps [Hys [Hps [Hly [Hlp [Hbinary Hpairs]]]]]]];
    [lia|].
  rewrite Hrows in Hly, Hlp.
  apply length_one in Hly as [y ->]. apply length_one in Hlp as [pr ->].
  apply Forall_inv in Hbinary, Hpairs.
  destruct pr as [|q0 [|q1 [|q2 pr]]]; try discriminate.
  exists Xs, y, q0, q1.
  split; [exact Ht|]. split; [exact Hys|]. split; [exact Hps|]. split; [exact Hbinary|].
  unfold predict_single, predict. rewrite Hm, Hp. cbn [as_frame]. rewrite Ht.
  cbn [mbind result_bind]. rewrite Hys, Hps. reflexivity.
Qed.

Lemma numeric_request input_data :
  numeric_frame (sample_of (Api.dict input_data)) = true.
Proof. destruct input_data. vm_compute. reflexivity. Qed.

Lemma predict_serves_bound loader c p median mean scale X0 p0 input_data :
  model loader = VClassifier c ->
  preprocessor loader = Some p ->
  run (fit median mean scale X0) p0 = (Ok tt, p) ->
  all_observed X0 = true ->
  labels X0 = get_feature_names ->
  binary_classifier c 13 ->
  calibrated c ->
  exists body,
    Api.predict (Some loader) input_data = Api.Success body /\
    predict_single loader (Api.dict input_data) = Ok body /\
    (prediction body = 0 \/ prediction body = 1)%Z.
Proof.
  intros Hm Hp Hfit Hobs H13 Hbin Hcal.
  destruct (predict_single_bound loader c p median mean scale X0 p0
              (Api.dict input_data) Hm Hp Hfit Hobs H13 Hbin (numeric_request _))
    as [Xs [y [q0 [q1 [_ [_ [Hps [Hy Hr]]]]]]]].
  apply Hcal in Hps. apply Forall_inv in Hps.
  pose proof (Forall_inv Hps) as [H0a H0b]. apply Forall_inv_tail in Hps.
  pose proof (Forall_inv Hps) as [H1a H1b].
  eexists. split; [|split; [exact Hr | exact Hy]].
  unfold Api.predict. cbn zeta. rewrite Hr. unfold Api.PredictionResponse.
  cbn [probability confidence].
  assert (E : Qle_bool 0 q1 && Qle_bool q1 1 &&
              Qle_bool 0 (if Qlt_bool q0 q1 then q1 else q0) &&
              Qle_bool (if Qlt_bool q0 q1 then q1 else q0) 1 = true).
  { rewrite !andb_true_iff. destruct (Qlt_bool q0 q1);
      repeat split; apply Qle_bool_iff; assumption. }
  rewrite E. reflexivity.
Qed.

(** X17: with a loader that holds a classifier of the two classes whose
    probabilities lie between [0] and [1], and a preprocessor fitted on a
    table of the thirteen fields in which every column holds a value,
    [POST /predict] answers every validated request with a body: the result
    of [predict_single], with label [0] or [1].  A validated request carries
    all thirteen fields as numbers, so nothing is left to impute and nothing
    can fail. *)
Theorem predict_serves (loader : ModelLoader) (c : Classifier)
    (p : HeartDiseasePreprocessor) (median mean scale : list Q -> Q)
    (X0 : DataFrame) (p0 : HeartDiseasePreprocessor)
    (input_data : Api.HeartDiseaseInput) :
  model loader = VClassifier c ->
  preprocessor loader = Some p ->
  run (fit median mean scale X0) p0 = (Ok tt, p) ->
  all_observed X0 = true ->
  labels X0 = get_feature_names ->
  binary_classifier c 13 ->
  calibrated c ->
  numeric_frame (sample_of (Api.dict input_data)) = true /\
  Forall (fun name => Api.dict input_data !! name <> None) get_feature_names /\
  exists body,
    Api.predict (Some loader) input_data = Api.Success body /\
    predict_single loader (Api.dict input_data) = Ok body /\
    (prediction body = 0 \/ prediction body = 1)%Z.
Proof.
  intros Hm Hp Hfit Hobs H13 Hbin Hcal.
  split; [apply numeric_request|]. split.
  - destruct input_data. repeat constructor; vm_compute; discriminate.
  - exact (predict_serves_bound loader c p median mean scale X0 p0 input_data
             Hm Hp Hfit Hobs H13 Hbin Hcal).
Qed.

Lemma mock_classifier_calibrated : calibrated mock_classifier.
Proof.
  intros X ps [= <-]. induction (m_rows X) as [|n IH]; cbn [repeat]; constructor.
  - repeat constructor; cbn; discriminate.
  - exact IH.
Qed.

Lemma predict_serves_witness :
  model bound_loader = VClassifier mock_classifier /\
  preprocessor bound_loader = Some (fitted_on schema_frame) /\
  run (fit unit_kernel unit_kernel unit_kernel schema_frame) Preprocessing.init
    = (Ok tt, fitted_on schema_frame) /\
  all_observed schema_frame = true /\
  labels schema_frame = get_feature_names /\
  binary_classifier mock_classifier 13 /\
  calibrated mock_classifier /\
  numeric_frame (sample_of (Api.dict sample_input)) = true /\
  Forall (fun name => Api.dict sample_input !! name <> None) get_feature_names /\
  exists body,
    Api.predict (Some bound_loader) sample_input = Api.Success body /\
    predict_single bound_loader (Api.dict sample_input) = Ok body /\
    (prediction body = 0 \/ prediction body = 1)%Z.
Proof.
  split; [reflexivity|]. split; [reflexivity|]. split; [reflexivity|].
  split; [reflexivity|]. split; [reflexivity|].
  split; [apply mock_classifier_binary|]. split; [apply mock_classifier_calibrated|].
  apply (predict_serves bound_loader mock_classifier (fitted_on schema_frame)
           unit_kernel unit_kernel unit_kernel schema_frame Preprocessing.init
           sample_input);
    try reflexivity;
    [apply mock_classifier_binary | apply mock_classifier_calibrated].
Defined.

(** ** From a training run to a served prediction *)

(** X18: the whole path.  Let a preprocessor be fitted on a table of the
    thirteen fields in which every column holds a value, and let the random
    forest of a training run be a classifier of the two classes whose
    probabilities lie between [0] and [1].  If the files already in the
    models directory are older than those the run writes, and no
    preprocessor file among them carries the run's time of day in its stem,
    then a service started on the store that [save_models] leaves reports
    itself healthy and answers every validated prediction request with a
    body whose label is [0] or [1]. *)
Theorem train_then_serve (fs : FileSystem) (logistic forest : Train.TrainResult)
    (c : Classifier) (p : HeartDiseasePreprocessor) (median mean scale : list Q -> Q)
    (X0 : DataFrame) (p0 : HeartDiseasePreprocessor) (now : Train.datetime)
    (clock : nat -> Q) :
  (forall k, older_than (clock k) (fs MODELS_DIR) = true) ->
  no_preprocessor_with (Train.time_token now) (fs MODELS_DIR) = true ->
  Train.model forest = VClassifier c ->
  binary_classifier c 13 ->
  calibrated c ->
  run (fit median mean scale X0) p0 = (Ok tt, p) ->
  all_observed X0 = true ->
  labels X0 = get_feature_names ->
  let fs' := snd (run (Train.save_models (trained logistic forest) p now clock) fs) in
  Api.health_check (Api.load_model fs')
    = Api.mkHealth "healthy" true "API is ready to serve predictions" /\
  forall input_data,
    exists body,
      Api.predict (Api.load_model fs') input_data = Api.Success body /\
      (prediction body = 0 \/ prediction body = 1)%Z.
Proof.
  intros Hold Hpp Hc Hbin Hcal Hfit Hobs H13 fs'.
  assert (E : Api.load_model fs'
              = Some (mkLoader MODELS_DIR "random_forest" (Train.model forest) (Some p)
                        (Train.summary_entry forest))).
  { unfold Api.load_model, fs'.
    rewrite (load_after_save_models fs logistic forest p now clock Hold Hpp).
    reflexivity. }
  rewrite E. split; [reflexivity|]. intros input_data.
  destruct (predict_serves_bound
              (mkLoader MODELS_DIR "random_forest" (Train.model forest) (Some p)
                 (Train.summary_entry forest))
              c p median mean scale X0 p0 input_data
              Hc eq_refl Hfit Hobs H13 Hbin Hcal) as [body [H1 [_ H2]]].
  exists body. auto.
Qed.

Lemma train_then_serve_witness :
  (forall k, older_than (run_clock k) (one_run MODELS_DIR) = true) /\
  no_preprocessor_with (Train.time_token second_run_time) (one_run MODELS_DIR) = true /\
  Train.model forest_result = VClassifier mock_classifier /\
  binary_classifier mock_classifier 13 /\
  calibrated mock_classifier /\
  run (fit unit_kernel unit_kernel unit_kernel schema_frame) Preprocessing.init
    = (Ok tt, fitted_on schema_frame) /\
  all_observed schema_frame = true /\
  labels schema_frame = get_feature_names /\
  let fs' := snd (run (Train.save_models (trained logistic_result forest_result)
                         (fitted_on schema_frame) second_run_time run_clock) one_run) in
  Api.health_check (Api.load_model fs')
    = Api.mkHealth "healthy" true "API is ready to serve predictions" /\
  forall input_data,
    exists body,
      Api.predict (Api.load_model fs') input_data = Api.Success body /\
      (prediction body = 0 \/ prediction body = 1)%Z.
Proof.
  assert (H1 : forall k, older_than (run_clock k) (one_run MODELS_DIR) = true).
  { intros k. vm_compute. reflexivity. }
  assert (H2 : no_preprocessor_with (Train.time_token second_run_time)
                 (one_run MODELS_DIR) = true).
  { vm_compute. reflexivity. }
  split; [exact H1|]. split; [exact H2|]. split; [reflexivity|].
  split; [apply mock_classifier_binary|]. split; [apply mock_classifier_calibrated|].
  split; [reflexivity|]. split; [reflexivity|]. split; [reflexivity|].
  exact (train_then_serve one_run logistic_result forest_result mock_classifier
           (fitted_on schema_frame) unit_kernel unit_kernel unit_kernel schema_frame
           Preprocessing.init second_run_time run_clock
           H1 H2 eq_refl (mock_classifier_binary 13) mock_classifier_calibrated
           eq_refl eq_refl eq_refl).
Defined.

(** ** The domain of [transform] after a fit *)

Lemma length_impute_columns_observed median cols0 (cols : list Series) :
  length cols = length cols0 ->
  length (impute_columns (map (column_statistic median) (map snd cols0)) cols)
  = length (List.filter has_observed cols0).
Proof.
  revert cols. induction cols0 as [|[n s] cols0 IH]; intros [|c cols] Hlen;
    try discriminate; [reflexivity|].
  cbn [map snd impute_columns List.filter]. unfold has_observed at 1,
    column_statistic at 1. cbn [snd].
  injection Hlen as Hlen. destruct (existsb is_num s) eqn:E.
  - apply observed_cons in E. destruct (observed s); [contradiction|].
    cbn [length]. rewrite (IH cols Hlen). reflexivity.
  - rewrite (observed_nil _ E). exact (IH cols Hlen).
Qed.

(** X19: after a successful [fit], [transform] of a table of numbers and
    nulls with the labels of the fitted one returns normally when the table
    has at least one row, and raises a [ValueError] when it has none.  The
    matrix it returns has one row per row of the table and one column per
    column of the fitted table that held a value: a column that held none at
    the fit is dropped, whatever it holds now. *)
Theorem transform_after_fit (median mean scale : list Q -> Q)
    (X0 : DataFrame) (p0 p : HeartDiseasePreprocessor) (X : DataFrame) :
  run (fit median mean scale X0) p0 = (Ok tt, p) ->
  labels X = labels X0 ->
  numeric_frame X = true ->
  if (index X =? 0)%nat
  then exists msg, transform p X = Raise (ValueError msg)
  else exists X_scaled,
         transform p X = Ok X_scaled /\
         m_rows X_scaled = index X /\
         length (m_cols X_scaled) = length (List.filter has_observed (columns X0)).
Proof.
  intros Hfit Hlabels Hnum.
  assert (Hcols : length (columns X) = length (columns X0)).
  { unfold labels in Hlabels. apply (f_equal (@length string)) in Hlabels.
    rewrite !length_map in Hlabels. exact Hlabels. }
  destruct (fit_ok _ _ _ _ _ _ Hfit)
    as [Hc0 [Hfitted [Himp [means [scales [Hsc [Hlm Hls]]]]]]].
  apply check_array_ok in Hc0 as [_ [_ Hc0]].
  rewrite length_impute_columns_observed in Hlm by (rewrite length_map; reflexivity).
  unfold transform. rewrite Hfitted. cbn [negb].
  unfold imputer_transform. rewrite Himp. cbn [statistics_]. unfold check_array.
  rewrite Hnum. cbn [negb].
  destruct (index X =? 0)%nat eqn:Hrows; [eexists; reflexivity|].
  destruct (Nat.eqb_spec (length (columns X)) 0) as [E|_]; [lia|].
  cbn [mbind result_bind]. rewrite !length_map, Hcols, Nat.eqb_refl.
  cbn [mbind result_bind].
  unfold scaler_transform. rewrite Hsc. cbn [params_]. unfold check_matrix.
  cbn [m_rows m_cols]. rewrite Hrows.
  assert (Hli : length (impute_columns
                          (map (column_statistic median) (map snd (columns X0)))
                          (map snd (columns X)))
                = length means).
  { rewrite length_impute_columns_observed by (rewrite length_map; exact Hcols).
    symmetry. exact Hlm. }
  rewrite Hli.
  assert (Hpos : (length means =? 0)%nat = false).
  { apply Nat.eqb_neq. intros Hz.
    unfold fit in Hfit. rewrite run_bind in Hfit. cbn [lift run] in Hfit.
    unfold imputer_fit_transform in Hfit.
    destruct (check_array X0) as [[]|e]; cbn [mbind result_bind] in Hfit;
      [|discriminate].
    destruct (imputer_transform _ X0) as [M|e] eqn:EM; cbn [mbind result_bind] in Hfit;
      [|discriminate].
    cbn [mret result_ret] in Hfit.
    rewrite !run_bind in Hfit. cbn [modify run fst snd lift] in Hfit.
    unfold scaler_fit, check_matrix in Hfit.
    unfold imputer_transform in EM. cbn [statistics_] in EM.
    destruct (check_array X0) as [[]|e]; cbn [mbind result_bind] in EM;
      [|discriminate].
    rewrite !length_map, Nat.eqb_refl in EM. injection EM as <-.
    cbn [m_rows m_cols] in Hfit.
    rewrite length_impute_columns_observed in Hfit by (rewrite length_map; reflexivity).
    rewrite <- Hlm, Hz in Hfit.
    destruct (index X0 =? 0)%nat; discriminate. }
  rewrite Hpos. cbn [mbind result_bind]. rewrite Nat.eqb_refl.
  eexists. split; [reflexivity|]. cbn [m_rows m_cols]. split; [reflexivity|].
  rewrite length_scale_columns; congruence.
Qed.

Lemma transform_after_fit_witness :
  (run (fit unit_kernel unit_kernel unit_kernel hollow_frame) Preprocessing.init
     = (Ok tt, fitted_on hollow_frame) /\
   labels hollow_frame = labels hollow_frame /\
   numeric_frame hollow_frame = true /\
   exists X_scaled,
     transform (fitted_on hollow_frame) hollow_frame = Ok X_scaled /\
     m_rows X_scaled = index hollow_frame /\
     length (m_cols X_scaled)
     = length (List.filter has_observed (columns hollow_frame))) /\
  (run (fit unit_kernel unit_kernel unit_kernel train_frame) Preprocessing.init
     = (Ok tt, fitted_on train_frame) /\
   labels rowless_frame = labels train_frame /\
   numeric_frame rowless_frame = true /\
   exists msg, transform (fitted_on train_frame) rowless_frame = Raise (ValueError msg)).
Proof.
  split; (split; [reflexivity|]); (split; [reflexivity|]); (split; [reflexivity|]).
  - exact (transform_after_fit unit_kernel unit_kernel unit_kernel hollow_frame
             Preprocessing.init (fitted_on hollow_frame) hollow_frame
             eq_refl eq_refl eq_refl).
  - exact (transform_after_fit unit_kernel unit_kernel unit_kernel train_frame
             Preprocessing.init (fitted_on train_frame) rowless_frame
             eq_refl eq_refl eq_refl).
Defined.

